(** * Relationship filters, authorization predicates and parameters of the
      GraphQL-to-Cypher translation

    A shallow embedding of
    [packages/graphql/src/translate/where/property-operations/create-relationship-operation.ts],
    [packages/graphql/src/translate/connect-or-create/create-connect-or-create-and-params.ts]
    and of [createEdgeSubquery], together with a small evaluator for the
    fragment of Cypher these functions emit; further of
    [AttributeField.getProjectionField], of the schema life cycle of the
    class in [packages/graphql/src/classes/Neo4jGraphQL.ts] and of the lock
    protocol of the helper in
    [packages/graphql/tests/integration/utils/tests-helper.ts]. *)

From Stdlib Require Import ZArith Ascii String List Bool Lia.
From stdpp Require Import base option list gmap strings pretty fin_maps.

#[local] Set Warnings "-register-all".

Local Open Scope string_scope.
Local Open Scope list_scope.

(** ** Values *)

(** Property values and query results.  [VNull] is Cypher's [null]; [VNode]
    and [VEdge] are references to entities of a fixture graph. *)
Inductive Value :=
| VNull
| VBool (b : bool)
| VInt (z : Z)
| VStr (s : string)
| VNode (id : nat)
| VEdge (id : nat).

#[global] Instance Value_eq_dec : EqDecision Value.
Proof. solve_decision. Defined.

(** A filter argument as it arrives from the resolver: plain JSON. *)
Inductive GraphQLWhereArg :=
| JNull
| JBool (b : bool)
| JNum (z : Z)
| JStr (s : string)
| JArr (items : list GraphQLWhereArg)
| JObj (fields : list (string * GraphQLWhereArg)).

(** [value === null] *)
Definition is_null (value : GraphQLWhereArg) : bool :=
  match value with JNull => true | _ => false end.

(** ** Schema model *)

Inductive Direction := IN | OUT.

#[global] Instance Direction_eq_dec : EqDecision Direction.
Proof. solve_decision. Defined.

Record TypeMeta := { tm_name : string; tm_array : bool }.

Record RelationField := {
  fieldName : string;
  rf_type : string;
  direction : Direction;
  typeMeta : TypeMeta;
}.

(** A node type of the schema model.  [nodeDirective] holds the labels of a
    custom-label directive when the type carries one. *)
Record Node := {
  name : string;
  nodeDirective : option (list string);
}.

Record Relationship := { rel_name : string }.

Record Context := {
  nodes : list Node;
  relationships : list Relationship;
}.

(** Modelled from the spec: the method [getLabels] of class [Node], whose
    file is not part of the sources.  Custom label overrides are substituted
    verbatim for the default label, which is the name of the type. *)
Definition getLabels (n : Node) (context : Context) : list string :=
  match nodeDirective n with
  | Some custom => custom
  | None => [name n]
  end.

(** ** The query AST built through the Cypher builder *)

(** A query variable.  [new Cypher.Node] and [new Cypher.Relationship]
    allocate an anonymous variable, whose identity is the allocation; the
    older builder's [NamedNode] carries its name. *)
Inductive Var :=
| Anon (n : nat)
| Named (s : string).

#[global] Instance Var_eq_dec : EqDecision Var.
Proof. solve_decision. Defined.

#[global] Instance Var_countable : Countable Var.
Proof.
  refine (inj_countable'
            (fun v => match v with Anon n => inl n | Named s => inr s end)
            (fun x => match x with inl n => Anon n | inr s => Named s end) _).
  intros []; reflexivity.
Defined.

Record CypherNode := { nodeVar : Var; labels : list string }.

Record CypherRelationship := {
  relVar : Var;
  source : CypherNode;
  target : CypherNode;
  type : string;
}.

(** The options given to [relationship.pattern(...)]; a field left out in
    the source is [None]. *)
Record PatternOptions := {
  opt_variable : option bool;
  opt_labels : option bool;
}.

Record Pattern := {
  pat_relationship : CypherRelationship;
  pat_source : PatternOptions;
  pat_target : PatternOptions;
  pat_rel : PatternOptions;
}.

Module Cypher.

Inductive Predicate :=
| eq (l r : Expr)
| not (p : Predicate)
| and (p q : Predicate)
| or (p q : Predicate)
| Exists (m : MatchClause)
| single (v : CypherNode) (pc : Comprehension) (p : Predicate)
| ValidatePredicate (p : Predicate) (message : string)
with Expr :=
| Literal (v : Value)
| Param (v : Value)
| VarRef (v : Var)
| Property (v : Var) (key : string)
| size (pc : Comprehension)
| collect (e : Expr)
with Comprehension :=
| MkPatternComprehension (pat : Pattern) (mapExpr : Expr) (w : WhereClause)
with MatchClause :=
| MkMatch (pat : Pattern) (w : WhereClause)
with WhereClause :=
| NoWhere
| Where (p : Predicate).

(** [new Cypher.Match(pattern)] *)
Definition Match (pat : Pattern) : MatchClause := MkMatch pat NoWhere.

(** [new Cypher.PatternComprehension(pattern, mapExpr)] *)
Definition PatternComprehension (pat : Pattern) (mapExpr : Expr)
  : Comprehension := MkPatternComprehension pat mapExpr NoWhere.

(** Modelled from the spec: the where sub-clause of the builder's clauses,
    which is not part of the sources.  The first predicate is stored, any
    further one is AND-ed into what is there. *)
Definition addWhere (w : WhereClause) (p : Predicate) : WhereClause :=
  match w with
  | NoWhere => Where p
  | Where q => Where (and q p)
  end.

(** [match.where(p)] *)
Definition where_ (m : MatchClause) (p : Predicate) : MatchClause :=
  match m with MkMatch pat w => MkMatch pat (addWhere w p) end.

(** [patternComprehension.where(p)] *)
Definition pc_where (pc : Comprehension) (p : Predicate)
  : Comprehension :=
  match pc with
  | MkPatternComprehension pat e w => MkPatternComprehension pat e (addWhere w p)
  end.

(** The clauses the translation returns next to a predicate. *)
Inductive Clause :=
| ClauseMatch (m : MatchClause) (returning : option (Expr * Var))
| OptionalMatch (pat : Pattern)
| With (carry : Var) (columns : list (Expr * Var))
| Concat (clauses : list Clause).

(** [Cypher.concat(...clauses)]: clauses that are [undefined] are dropped. *)
Definition concat (clauses : list (option Clause)) : Clause :=
  Concat (omap id clauses).

End Cypher.

Scheme Predicate_mut := Induction for Cypher.Predicate Sort Prop
  with Expr_mut := Induction for Cypher.Expr Sort Prop
  with Comprehension_mut := Induction for Cypher.Comprehension Sort Prop
  with MatchClause_mut := Induction for Cypher.MatchClause Sort Prop
  with WhereClause_mut := Induction for Cypher.WhereClause Sort Prop.

Combined Scheme cypher_mutind from
  Predicate_mut, Expr_mut, Comprehension_mut, MatchClause_mut, WhereClause_mut.

(** ** Translation effects *)

(** A translation either throws or returns; the counter it threads is the
    number of builder variables allocated so far, which gives every
    [new Cypher.Node] and [new Cypher.Relationship] its identity. *)
Inductive Result (A : Type) :=
| Throw (msg : string)
| Return (a : A).
Arguments Throw {A} msg.
Arguments Return {A} a.

Definition Translate (A : Type) : Type := nat -> Result (A * nat).

Definition ret {A} (a : A) : Translate A := fun n => Return (a, n).

Definition throw {A} (msg : string) : Translate A := fun _ => Throw msg.

Definition bind {A B} (m : Translate A) (k : A -> Translate B) : Translate B :=
  fun n => match m n with
           | Throw msg => Throw msg
           | Return (a, n') => k a n'
           end.

Notation "'let*' x ':=' m 'in' k" := (bind m (fun x => k))
  (at level 10, x name, m at level 100, k at level 200).

(** [new Cypher.Node({ labels })] *)
Definition newNode (ls : list string) : Translate CypherNode :=
  fun n => Return ({| nodeVar := Anon n; labels := ls |}, S n).

(** [new Cypher.Relationship({ source, target, type })] *)
Definition newRelationship (src tgt : CypherNode) (ty : string)
  : Translate CypherRelationship :=
  fun n => Return ({| relVar := Anon n; source := src; target := tgt; type := ty |}, S n).

(** [relationship.pattern({ source, target, relationship })] *)
Definition pattern (r : CypherRelationship) (src tgt rel : PatternOptions) : Pattern :=
  {| pat_relationship := r; pat_source := src; pat_target := tgt; pat_rel := rel |}.

(** JavaScript truthiness of an optional boolean argument. *)
Definition truthy (b : option bool) : bool :=
  match b with Some true => true | _ => false end.

(** ** [createRelationshipSubqueryAndPredicate] *)

(** The function calls itself once, for "not" and "none", with the list
    predicate "some"; [fuel] bounds the depth of these calls and [None] is
    the answer of a call that ran out of it. *)
Fixpoint createRelationshipSubqueryAndPredicate_fuel (fuel : nat)
    (matchPattern : Pattern) (listPredicateStr : string) (childNode : CypherNode)
    (innerOperation : option Cypher.Predicate) (returnVariables : list Var)
    (edgePredicate : option bool) : option (option Cypher.Predicate) :=
  match fuel with
  | O => None
  | S fuel' =>
    match innerOperation with
    | None => Some None
    | Some innerOperation' =>
      let matchClause := Cypher.where_ (Cypher.Match matchPattern) innerOperation' in
      if (listPredicateStr =? "all")%string then
        let notExistsMatchClause :=
          Cypher.where_ (Cypher.Match matchPattern) (Cypher.not innerOperation') in
        Some (Some (Cypher.and (Cypher.Exists matchClause)
                               (Cypher.not (Cypher.Exists notExistsMatchClause))))
      else if ((listPredicateStr =? "not") || (listPredicateStr =? "none"))%string then
        match createRelationshipSubqueryAndPredicate_fuel fuel'
                matchPattern "some" childNode innerOperation returnVariables None with
        | None => None
        | Some (Some somePredicate) => Some (Some (Cypher.not somePredicate))
        | Some None => Some None
        end
      else if (listPredicateStr =? "single")%string then
        if truthy edgePredicate then
          let sizeFunction :=
            Cypher.size (Cypher.pc_where
                           (Cypher.PatternComprehension matchPattern (Cypher.Literal (VInt 1)))
                           innerOperation') in
          Some (Some (Cypher.eq sizeFunction (Cypher.Literal (VInt 1))))
        else
          let patternComprehension :=
            Cypher.PatternComprehension matchPattern (Cypher.VarRef (nodeVar childNode)) in
          Some (Some (Cypher.single childNode patternComprehension innerOperation'))
      else
        let existsPredicate := Cypher.Exists matchClause in
        Some (Some existsPredicate)
    end
  end.

Definition createRelationshipSubqueryAndPredicate
    (matchPattern : Pattern) (listPredicateStr : string) (childNode : CypherNode)
    (innerOperation : option Cypher.Predicate) (returnVariables : list Var)
    (edgePredicate : option bool) : option Cypher.Predicate :=
  match createRelationshipSubqueryAndPredicate_fuel 2
          matchPattern listPredicateStr childNode innerOperation returnVariables
          edgePredicate with
  | Some r => r
  | None => None
  end.

(** ** [createRelationshipOperation] *)

Record WherePredicateArgs := {
  wp_whereInput : GraphQLWhereArg;
  wp_targetElement : CypherNode;
  wp_element : Node;
  wp_context : Context;
  wp_listPredicateStr : string;
}.

Record WherePredicateResult := {
  wp_predicate : option Cypher.Predicate;
  wp_preComputedSubqueries : option Cypher.Clause;
  wp_returnVariables : list Var;
}.

Record RelationshipOperation := {
  predicate : option Cypher.Predicate;
  preComputedSubquery : option Cypher.Clause;
}.

Section Translation.

(** Two functions the file imports and the sources do not hold: the map
    from a filter operator to a list predicate and the compiler of the
    nested filter. *)
Variable getListPredicate : option string -> string.
Variable createWherePredicate : WherePredicateArgs -> Translate WherePredicateResult.

Definition createRelationshipOperation
    (relationField : RelationField) (context : Context) (parentNode : CypherNode)
    (operator : option string) (value : GraphQLWhereArg) (isNot : bool)
  : Translate RelationshipOperation :=
  match List.find (fun n => (name n =? tm_name (typeMeta relationField))%string)
                  (nodes context) with
  | None => throw "Relationship filters must reference nodes"
  | Some refNode =>
    let* childNode := newNode (getLabels refNode context) in
    let* relationship :=
      newRelationship
        (if decide (direction relationField = IN) then childNode else parentNode)
        (if decide (direction relationField = IN) then parentNode else childNode)
        (rf_type relationField) in
    let matchPattern :=
      pattern relationship
        (if decide (direction relationField = IN)
         then {| opt_variable := Some true; opt_labels := None |}
         else {| opt_variable := None; opt_labels := Some false |})
        (if decide (direction relationField = IN)
         then {| opt_variable := None; opt_labels := Some false |}
         else {| opt_variable := Some true; opt_labels := None |})
        {| opt_variable := Some true; opt_labels := None |} in
    if is_null value then
      let existsSubquery := Cypher.Match matchPattern in
      let exists_ := Cypher.Exists existsSubquery in
      if negb isNot then
        ret {| predicate := Some (Cypher.not exists_); preComputedSubquery := None |}
      else
        ret {| predicate := Some exists_; preComputedSubquery := None |}
    else
      let listPredicateStr := getListPredicate operator in
      let listPredicateStr :=
        if (listPredicateStr =? "any")%string && negb (tm_array (typeMeta relationField))
        then "single" else listPredicateStr in
      let* r := createWherePredicate
             {| wp_whereInput := value;
                wp_targetElement := childNode;
                wp_element := refNode;
                wp_context := context;
                wp_listPredicateStr := listPredicateStr |} in
      let innerOperation := wp_predicate r in
      let preComputedSubqueries := wp_preComputedSubqueries r in
      let returnVariables := wp_returnVariables r in
      let predicate :=
        createRelationshipSubqueryAndPredicate
          matchPattern listPredicateStr childNode innerOperation returnVariables None in
      if negb (Nat.eqb (length returnVariables) 0) then
        let aggregatingWithClause :=
          Cypher.With (nodeVar parentNode)
            (List.map (fun returnVar => (Cypher.collect (Cypher.VarRef returnVar), returnVar))
                      returnVariables) in
        ret {| predicate := predicate;
               preComputedSubquery :=
                 Some (Cypher.concat [Some (Cypher.OptionalMatch matchPattern);
                                     preComputedSubqueries;
                                     Some aggregatingWithClause]) |}
      else
        ret {| predicate := predicate; preComputedSubquery := preComputedSubqueries |}
  end.

End Translation.

(** ** Fixture graphs and the meaning of the emitted predicates

    The predicates are read on a property graph, the way the database
    evaluates them: a pattern yields one row per relationship that fits,
    a predicate has one of three truth values on a row, [WHERE] keeps the
    rows on which it is true, and an assertion that fails makes the whole
    evaluation fail.  Conjuncts are evaluated from left to right. *)

Record GraphNode := { nodeLabels : list string; nodeProps : gmap string Value }.

Record GraphEdge := {
  edgeType : string;
  edgeSource : nat;
  edgeTarget : nat;
  edgeProps : gmap string Value;
}.

(** Nodes and relationships are identified by their position. *)
Record Graph := { graphNodes : list GraphNode; graphEdges : list GraphEdge }.

Abbreviation Env := (gmap Var Value).

Definition rbind {A B} (m : Result A) (k : A -> Result B) : Result B :=
  match m with
  | Throw msg => Throw msg
  | Return a => k a
  end.

Notation "'do' x '<-' m ';' k" := (rbind m (fun x => k))
  (at level 10, x name, m at level 100, k at level 200).

Fixpoint mapM {A B} (f : A -> Result B) (l : list A) : Result (list B) :=
  match l with
  | [] => Return []
  | a :: l' => do b <- f a; do bs <- mapM f l'; Return (b :: bs)
  end.

Definition is_true (t : option bool) : bool :=
  match t with Some true => true | _ => false end.

Definition is_false (t : option bool) : bool :=
  match t with Some false => true | _ => false end.

Definition is_unknown (t : option bool) : bool :=
  match t with None => true | _ => false end.

(** Rows kept by a [WHERE]: those on which the predicate is true (neither
    false nor null).  A row whose predicate raises makes the clause raise. *)
Fixpoint filterM {A} (f : A -> Result (option bool)) (l : list A) : Result (list A) :=
  match l with
  | [] => Return []
  | a :: l' =>
    do t <- f a; do rest <- filterM f l';
    Return (if is_true t then a :: rest else rest)
  end.

(** Three-valued logic: [None] is null. *)
Definition not3 (a : option bool) : option bool := negb <$> a.

Definition and3 (a b : option bool) : option bool :=
  match a, b with
  | Some false, _ | _, Some false => Some false
  | Some true, Some true => Some true
  | _, _ => None
  end.

Definition or3 (a b : option bool) : option bool :=
  match a, b with
  | Some true, _ | _, Some true => Some true
  | Some false, Some false => Some false
  | _, _ => None
  end.

Definition eq3 (a b : Value) : option bool :=
  match a, b with
  | VNull, _ | _, VNull => None
  | _, _ => Some (bool_decide (a = b))
  end.

Definition count_true (ts : list (option bool)) : nat :=
  length (List.filter is_true ts).

(** [single(x IN list WHERE p)]: false as soon as two elements satisfy [p],
    otherwise null when [p] is null on some element, otherwise whether
    exactly one element satisfies [p]. *)
Definition single3 (ts : list (option bool)) : option bool :=
  if (2 <=? count_true ts)%nat then Some false
  else if existsb is_unknown ts then None
  else Some (count_true ts =? 1)%nat.

Definition enabled (o : option bool) : bool :=
  match o with Some false => false | _ => true end.

(** A pattern variable that is already bound must denote the same entity. *)
Definition bindVar (v : Var) (x : Value) (env : Env) : option Env :=
  match env !! v with
  | None => Some (<[v := x]> env)
  | Some y => if decide (y = x) then Some env else None
  end.

Definition hasLabels (n : GraphNode) (ls : list string) : bool :=
  forallb (fun l => bool_decide (l ∈ nodeLabels n)) ls.

Definition matchEndpoint (g : Graph) (opts : PatternOptions) (cn : CypherNode)
    (id : nat) (env : Env) : option Env :=
  match graphNodes g !! id with
  | None => None
  | Some n =>
    if enabled (opt_labels opts) && negb (hasLabels n (labels cn)) then None
    else if enabled (opt_variable opts) then bindVar (nodeVar cn) (VNode id) env
    else Some env
  end.

(** One relationship of the graph against [(source)-[rel:TYPE]->(target)]. *)
Definition matchEdge (g : Graph) (pat : Pattern) (env : Env) (ie : nat * GraphEdge)
  : option Env :=
  let r := pat_relationship pat in
  if negb (edgeType ie.2 =? type r)%string then None
  else
    match matchEndpoint g (pat_source pat) (source r) (edgeSource ie.2) env with
    | None => None
    | Some env1 =>
      match matchEndpoint g (pat_target pat) (target r) (edgeTarget ie.2) env1 with
      | None => None
      | Some env2 =>
        if enabled (opt_variable (pat_rel pat)) then bindVar (relVar r) (VEdge ie.1) env2
        else Some env2
      end
    end.

(** The rows of [MATCH pattern] under the bindings of [env]: one per
    relationship of the graph that fits. *)
Definition matchRows (g : Graph) (env : Env) (pat : Pattern) : list Env :=
  omap (matchEdge g pat env) (imap (fun i e => (i, e)) (graphEdges g)).

Definition propertyOf (g : Graph) (x : Value) (key : string) : Result Value :=
  match x with
  | VNode i => Return (default VNull (n ← graphNodes g !! i; nodeProps n !! key))
  | VEdge i => Return (default VNull (e ← graphEdges g !! i; edgeProps e !! key))
  | VNull => Return VNull
  | _ => Throw "Type mismatch: expected a node or a relationship"
  end.

Fixpoint evalPredicate (g : Graph) (env : Env) (p : Cypher.Predicate) {struct p}
  : Result (option bool) :=
  match p with
  | Cypher.eq l r =>
    do a <- evalExpr g env l; do b <- evalExpr g env r; Return (eq3 a b)
  | Cypher.not q => do a <- evalPredicate g env q; Return (not3 a)
  | Cypher.and q1 q2 =>
    do a <- evalPredicate g env q1; do b <- evalPredicate g env q2; Return (and3 a b)
  | Cypher.or q1 q2 =>
    do a <- evalPredicate g env q1; do b <- evalPredicate g env q2; Return (or3 a b)
  | Cypher.Exists m =>
    do rows <- evalMatch g env m; Return (Some (negb (Nat.eqb (length rows) 0)))
  | Cypher.single v pc q =>
    do elems <- evalComprehension g env pc;
    do ts <- mapM (fun x => evalPredicate g (<[nodeVar v := x]> env) q) elems;
    Return (single3 ts)
  | Cypher.ValidatePredicate q message =>
    do a <- evalPredicate g env q;
    if is_true a then Throw message else Return (Some true)
  end
with evalExpr (g : Graph) (env : Env) (e : Cypher.Expr) {struct e} : Result Value :=
  match e with
  | Cypher.Literal v => Return v
  | Cypher.Param v => Return v
  | Cypher.VarRef v =>
    match env !! v with
    | Some x => Return x
    | None => Throw "Variable not defined"
    end
  | Cypher.Property v key =>
    match env !! v with
    | Some x => propertyOf g x key
    | None => Throw "Variable not defined"
    end
  | Cypher.size pc =>
    do elems <- evalComprehension g env pc; Return (VInt (Z.of_nat (length elems)))
  | Cypher.collect _ => Throw "Invalid use of aggregating function collect(...)"
  end
with evalComprehension (g : Graph) (env : Env) (pc : Cypher.Comprehension) {struct pc}
  : Result (list Value) :=
  match pc with
  | Cypher.MkPatternComprehension pat mapExpr w =>
    do rows <- filterM (fun row => evalWhere g row w) (matchRows g env pat);
    mapM (fun row => evalExpr g row mapExpr) rows
  end
with evalMatch (g : Graph) (env : Env) (m : Cypher.MatchClause) {struct m}
  : Result (list Env) :=
  match m with
  | Cypher.MkMatch pat w => filterM (fun row => evalWhere g row w) (matchRows g env pat)
  end
with evalWhere (g : Graph) (env : Env) (w : Cypher.WhereClause) {struct w}
  : Result (option bool) :=
  match w with
  | Cypher.NoWhere => Return (Some true)
  | Cypher.Where p => evalPredicate g env p
  end.

(** The truth values of a predicate on the rows of a pattern. *)
Definition truthsOn (g : Graph) (env : Env) (pat : Pattern) (p : Cypher.Predicate)
  : Result (list (option bool)) :=
  mapM (fun row => evalPredicate g row p) (matchRows g env pat).

(** ** A fixture *)

Module Fixture.

Definition actor : GraphNode :=
  {| nodeLabels := ["Actor"]; nodeProps := {[ "name" := VStr "Keanu" ]} |}.
Definition movie (title : string) : GraphNode :=
  {| nodeLabels := ["Film"]; nodeProps := {[ "title" := VStr title ]} |}.
Definition actedIn (a m : nat) (screenTime : Z) : GraphEdge :=
  {| edgeType := "ACTED_IN"; edgeSource := a; edgeTarget := m;
     edgeProps := {[ "screenTime" := VInt screenTime ]} |}.

(** Actor 0 acted in "A" and "B", actor 1 in "A" only, actor 2 in nothing. *)
Definition graph : Graph :=
  {| graphNodes := [actor; actor; actor; movie "A"; movie "B"];
     graphEdges := [actedIn 0 3 10; actedIn 0 4 20; actedIn 1 3 30] |}.

Definition this : CypherNode := {| nodeVar := Named "this"; labels := ["Actor"] |}.
Definition child : CypherNode := {| nodeVar := Anon 0; labels := ["Film"] |}.

Definition rel : CypherRelationship :=
  {| relVar := Anon 1; source := this; target := child; type := "ACTED_IN" |}.

Definition pat : Pattern :=
  pattern rel {| opt_variable := None; opt_labels := Some false |}
              {| opt_variable := Some true; opt_labels := None |}
              {| opt_variable := Some true; opt_labels := None |}.

Definition titleIsA : Cypher.Predicate :=
  Cypher.eq (Cypher.Property (Anon 0) "title") (Cypher.Param (VStr "A")).

Definition target (id : nat) : Env := {[ Named "this" := VNode id ]}.

End Fixture.

(** ** ALL against NONE *)

(** Exactly one of two evaluations is true. *)
Definition exactly_one_true (a n : Result (option bool)) : Prop :=
  (a = Return (Some true) /\ n <> Return (Some true))
  \/ (a <> Return (Some true) /\ n = Return (Some true)).

(** The predicates for "all" and for "none" are complements on a target. *)
Definition all_none_complements (g : Graph) (env : Env) (matchPattern : Pattern)
    (childNode : CypherNode) (inner : Cypher.Predicate) (returnVariables : list Var)
  : Prop :=
  exists pa pn,
    createRelationshipSubqueryAndPredicate
      matchPattern "all" childNode (Some inner) returnVariables None = Some pa
    /\ createRelationshipSubqueryAndPredicate
         matchPattern "none" childNode (Some inner) returnVariables None = Some pn
    /\ exactly_one_true (evalPredicate g env pa) (evalPredicate g env pn).

(** ** The quantifier SINGLE *)

(** The inner predicate reads nothing of a row but the related node: bound
    to the element of the comprehension alone, it evaluates as on the row.
    This is what the caller asserts by leaving [edgePredicate] unset. *)
Definition edgeIndependent (g : Graph) (env : Env) (matchPattern : Pattern)
    (childNode : CypherNode) (inner : Cypher.Predicate) : Prop :=
  Forall (fun row =>
            exists x, row !! nodeVar childNode = Some x
                      /\ evalPredicate g (<[nodeVar childNode := x]> env) inner
                         = evalPredicate g row inner)
         (matchRows g env matchPattern).

(** ** The pattern of a relationship filter *)

(** The pattern the function builds between the parent and the node and
    relationship it allocates. *)
Definition relationshipPattern (relationField : RelationField)
    (parentNode childNode : CypherNode) (rv : Var) : Pattern :=
  match direction relationField with
  | IN =>
    pattern {| relVar := rv; source := childNode; target := parentNode;
               type := rf_type relationField |}
            {| opt_variable := Some true; opt_labels := None |}
            {| opt_variable := None; opt_labels := Some false |}
            {| opt_variable := Some true; opt_labels := None |}
  | OUT =>
    pattern {| relVar := rv; source := parentNode; target := childNode;
               type := rf_type relationField |}
            {| opt_variable := None; opt_labels := Some false |}
            {| opt_variable := Some true; opt_labels := None |}
            {| opt_variable := Some true; opt_labels := None |}
  end.

Definition findRefNode (relationField : RelationField) (context : Context) : option Node :=
  List.find (fun n => (name n =? tm_name (typeMeta relationField))%string) (nodes context).

Module Fixture2.

(** Stand-ins for the two imported functions, for the examples: the
    operators ALL, NONE, NOT and SINGLE name their list predicate and
    anything else is "any"; a filter [{ title: s }] compiles to a
    comparison of the property with a parameter. *)
Definition getListPredicate (operator : option string) : string :=
  match operator with
  | Some op =>
    if (op =? "ALL")%string then "all"
    else if ((op =? "NOT") || (op =? "NONE"))%string then "none"
    else if (op =? "SINGLE")%string then "single"
    else "any"
  | None => "any"
  end.

Definition createWherePredicate (args : WherePredicateArgs)
  : Translate WherePredicateResult :=
  match wp_whereInput args with
  | JObj [("title", JStr s)] =>
    ret {| wp_predicate :=
             Some (Cypher.eq (Cypher.Property (nodeVar (wp_targetElement args)) "title")
                             (Cypher.Param (VStr s)));
           wp_preComputedSubqueries := None;
           wp_returnVariables := [] |}
  | _ => ret {| wp_predicate := None; wp_preComputedSubqueries := None;
                wp_returnVariables := [] |}
  end.

Definition Movie : Node := {| name := "Movie"; nodeDirective := Some ["Film"] |}.
Definition Actor : Node := {| name := "Actor"; nodeDirective := None |}.
Definition context : Context := {| nodes := [Movie; Actor]; relationships := [] |}.

(** [actedIn: [Movie!]! @relationship(type: "ACTED_IN", direction: OUT)] *)
Definition actedIn : RelationField :=
  {| fieldName := "actedIn"; rf_type := "ACTED_IN"; direction := OUT;
     typeMeta := {| tm_name := "Movie"; tm_array := true |} |}.

(** [currentlyActingIn: Movie @relationship(type: "ACTED_IN", direction: OUT)] *)
Definition currentlyActingIn : RelationField :=
  {| fieldName := "currentlyActingIn"; rf_type := "ACTED_IN"; direction := OUT;
     typeMeta := {| tm_name := "Movie"; tm_array := false |} |}.

End Fixture2.

(** ** [createEdgeSubquery] and the authorization predicates *)

(** Modelled from the spec: the constant [AUTH_FORBIDDEN_ERROR] of the
    module of constants, which is not part of the sources.  The failure
    signal of a violated validate rule is "Forbidden". *)
Definition AUTH_FORBIDDEN_ERROR : string := "Forbidden".

Record ConnectionField := {
  cf_relationship : RelationField;
  relationshipTypeName : string;
}.

(** The two uses of [createAuthPredicates]: [where] rules, which filter, and
    [allow] rules, which validate. *)
Inductive AuthRule :=
| AuthWhere (varName : CypherNode) (node : Node)
| AuthAllow (parentNode : Node) (varName : CypherNode).

(** JavaScript truthiness of a filter argument, as in [if (whereInput)]:
    [null], [false], [0] and the empty string are falsy, arrays and objects
    are truthy. *)
Definition isTruthy (value : GraphQLWhereArg) : bool :=
  match value with
  | JNull => false
  | JBool b => b
  | JNum z => negb (z =? 0)%Z
  | JStr s => negb (s =? "")%string
  | JArr _ => true
  | JObj _ => true
  end.

(** [if (p) matchClause.where(p)] *)
Definition whereIfDefined (m : Cypher.MatchClause) (p : option Cypher.Predicate)
  : Cypher.MatchClause :=
  match p with
  | Some q => Cypher.where_ m q
  | None => m
  end.

Section EdgeSubquery.

(** What the function imports and the sources do not hold. *)
Variable ResolveTree : Type.
Variable getOrCreateCypherNode : string -> CypherNode.
Variable getPattern : CypherRelationship -> RelationField -> ResolveTree -> Pattern.
Variable createConnectionWherePropertyOperation :
  Context -> GraphQLWhereArg -> CypherRelationship -> CypherNode -> Node ->
  option Relationship -> Translate (option Cypher.Predicate).
Variable createAuthPredicates :
  string -> Node -> Context -> AuthRule -> Translate (option Cypher.Predicate).
Variable createEdgeProjection :
  ResolveTree -> ConnectionField -> CypherRelationship -> Node -> Var -> Context ->
  Cypher.Expr.

Definition createEdgeSubquery
    (resolveTree : ResolveTree) (field : ConnectionField) (context : Context)
    (parentNode : string) (relatedNode : Node) (returnVariable : Var)
    (whereInput : option GraphQLWhereArg) : Translate Cypher.Clause :=
  let parentNodeRef := getOrCreateCypherNode parentNode in
  let relatedNodeRef :=
    {| nodeVar := Named (parentNode ++ "_" ++ name relatedNode);
       labels := getLabels relatedNode context |} in
  let* relationshipRef :=
    newRelationship parentNodeRef relatedNodeRef (rf_type (cf_relationship field)) in
  let relPattern := getPattern relationshipRef (cf_relationship field) resolveTree in
  let matchClause := Cypher.Match relPattern in
  let* matchClause :=
    match whereInput with
    | Some whereInput' =>
      if isTruthy whereInput'
      then
        let relationship :=
          List.find (fun r => (rel_name r =? relationshipTypeName field)%string)
                    (relationships context) in
        let* wherePredicate :=
          createConnectionWherePropertyOperation
            context whereInput' relationshipRef relatedNodeRef relatedNode relationship in
        ret (whereIfDefined matchClause wherePredicate)
      else ret matchClause
    | None => ret matchClause
    end in
  let* authPredicate :=
    createAuthPredicates "READ" relatedNode context
      (AuthWhere relatedNodeRef relatedNode) in
  let matchClause := whereIfDefined matchClause authPredicate in
  let* authAllowPredicate :=
    createAuthPredicates "READ" relatedNode context
      (AuthAllow relatedNode relatedNodeRef) in
  let matchClause :=
    match authAllowPredicate with
    | Some allow =>
      Cypher.where_ matchClause
        (Cypher.ValidatePredicate (Cypher.not allow) AUTH_FORBIDDEN_ERROR)
    | None => matchClause
    end in
  let projection :=
    createEdgeProjection resolveTree field relationshipRef relatedNode
      (nodeVar relatedNodeRef) context in
  ret (Cypher.ClauseMatch matchClause (Some (projection, returnVariable))).

End EdgeSubquery.

Definition whereOf (m : Cypher.MatchClause) : Cypher.WhereClause :=
match m with Cypher.MkMatch _ w => w end.

Definition patternOf (m : Cypher.MatchClause) : Pattern :=
match m with Cypher.MkMatch pat _ => pat end.

(** The truth value of an optional predicate; an absent one does not
    constrain. *)
Definition evalOptional (g : Graph) (env : Env) (p : option Cypher.Predicate)
  : Result (option bool) :=
match p with
| Some q => evalPredicate g env q
| None => Return (Some true)
end.

(** The [WHERE] that [createEdgeSubquery] accumulates from the connection
    filter [w], the filter rule [f] and the validate rule [a]. *)
Definition edgeSubqueryWhere (w f a : option Cypher.Predicate) (pat : Pattern)
  : Cypher.MatchClause :=
let m := whereIfDefined (whereIfDefined (Cypher.Match pat) w) f in
match a with
| Some allow =>
  Cypher.where_ m (Cypher.ValidatePredicate (Cypher.not allow) AUTH_FORBIDDEN_ERROR)
| None => m
end.

Module Fixture3.

(** Stand-ins for the imports of [createEdgeSubquery], for the examples: a
    filter rule [{ where: { node: { public: true } } }] and a validate rule
    [{ where: { node: { ownerId: "$jwt.id" } } }] under the claims
    [{ id: "u1" }]. *)
Definition getOrCreateCypherNode (varName : string) : CypherNode :=
{| nodeVar := Named varName; labels := [] |}.

Definition getPattern (r : CypherRelationship) (field : RelationField) (rt : unit)
  : Pattern :=
pattern r {| opt_variable := None; opt_labels := Some false |}
          {| opt_variable := None; opt_labels := None |}
          {| opt_variable := None; opt_labels := None |}.

Definition createConnectionWherePropertyOperation
    (context : Context) (whereInput : GraphQLWhereArg) (edgeRef : CypherRelationship)
    (targetNode : CypherNode) (node : Node) (edge : option Relationship)
  : Translate (option Cypher.Predicate) :=
ret None.

Definition createAuthPredicates (operations : string) (entity : Node)
    (context : Context) (rule : AuthRule) : Translate (option Cypher.Predicate) :=
match rule with
| AuthWhere varName _ =>
  ret (Some (Cypher.eq (Cypher.Property (nodeVar varName) "public")
                       (Cypher.Param (VBool true))))
| AuthAllow _ varName =>
  ret (Some (Cypher.eq (Cypher.Property (nodeVar varName) "ownerId")
                       (Cypher.Param (VStr "u1"))))
end.

Definition createEdgeProjection (rt : unit) (field : ConnectionField)
    (r : CypherRelationship) (relatedNode : Node) (v : Var) (context : Context)
  : Cypher.Expr :=
Cypher.VarRef v.

Definition Post : Node := {| name := "Post"; nodeDirective := None |}.

Definition context : Context := {| nodes := [Post]; relationships := [] |}.

Definition posts : ConnectionField :=
{| cf_relationship :=
     {| fieldName := "posts"; rf_type := "HAS_POST"; direction := OUT;
        typeMeta := {| tm_name := "Post"; tm_array := true |} |};
   relationshipTypeName := "UserPostsRelationship" |}.

Definition post (owner : string) (public : bool) : GraphNode :=
{| nodeLabels := ["Post"];
   nodeProps := {[ "ownerId" := VStr owner; "public" := VBool public ]} |}.

(** User 0 has a public post of their own, a private post of their own and
    a public post owned by "u2". *)
Definition graph : Graph :=
{| graphNodes := [ {| nodeLabels := ["User"]; nodeProps := ∅ |};
                   post "u1" true; post "u1" false; post "u2" true ];
   graphEdges :=
     [ {| edgeType := "HAS_POST"; edgeSource := 0; edgeTarget := 1; edgeProps := ∅ |};
       {| edgeType := "HAS_POST"; edgeSource := 0; edgeTarget := 2; edgeProps := ∅ |};
       {| edgeType := "HAS_POST"; edgeSource := 0; edgeTarget := 3; edgeProps := ∅ |} ] |}.

(** The row of the pattern that binds the related node to node [id]. *)
Definition row (id : nat) : Env :=
{[ Named "this" := VNode 0; Named "this_Post" := VNode id ]}.

End Fixture3.

(** ** Filters on interface relationship fields *)

(** [Cypher.or(...predicates)] and [Cypher.and(...predicates)] on a list:
    nothing for no predicate, the predicate itself for one. *)
Definition or_list (ps : list Cypher.Predicate) : option Cypher.Predicate :=
match ps with
| [] => None
| p :: ps' => Some (fold_left Cypher.or ps' p)
end.

Definition and_list (ps : list Cypher.Predicate) : option Cypher.Predicate :=
match ps with
| [] => None
| p :: ps' => Some (fold_left Cypher.and ps' p)
end.

Inductive InterfaceLevel := SomeLevel | AllLevel.

Definition levelPredicate (level : InterfaceLevel) : string :=
match level with SomeLevel => "some" | AllLevel => "all" end.

Section InterfaceFilter.

Variable createWherePredicate : WherePredicateArgs -> Translate WherePredicateResult.

(** Modelled from the spec: the compilation of a filter on a relationship
    field whose target is an interface, which the sources hold only through
    its conformance test.  Each concrete implementing type, in the order of
    the schema, contributes its own match and predicate, on a node that
    carries the labels of that type. *)
Fixpoint interfaceBranches (relationField : RelationField) (context : Context)
    (parentNode : CypherNode) (implementations : list Node) (value : GraphQLWhereArg)
    (listPredicateStr : string) : Translate (list Cypher.Predicate) :=
match implementations with
| [] => ret []
| refNode :: rest =>
  let* childNode := newNode (getLabels refNode context) in
  let* relationship :=
    newRelationship
      (if decide (direction relationField = IN) then childNode else parentNode)
      (if decide (direction relationField = IN) then parentNode else childNode)
      (rf_type relationField) in
  let matchPattern :=
    relationshipPattern relationField parentNode childNode (relVar relationship) in
  let* r := createWherePredicate
              {| wp_whereInput := value; wp_targetElement := childNode;
                 wp_element := refNode; wp_context := context;
                 wp_listPredicateStr := listPredicateStr |} in
  let branch :=
    createRelationshipSubqueryAndPredicate
      matchPattern listPredicateStr childNode (wp_predicate r) (wp_returnVariables r)
      None in
  let* branches :=
    interfaceBranches relationField context parentNode rest value listPredicateStr in
  ret (match branch with Some b => b :: branches | None => branches end)
end.

(** Modelled from the spec: the branches combine with [OR] at the level of
    SOME and with [AND] at the level of ALL. *)
Definition createInterfaceRelationshipOperation (relationField : RelationField)
    (context : Context) (parentNode : CypherNode) (implementations : list Node)
    (value : GraphQLWhereArg) (level : InterfaceLevel)
  : Translate (option Cypher.Predicate) :=
let* branches :=
  interfaceBranches relationField context parentNode implementations value
    (levelPredicate level) in
ret (match level with
     | SomeLevel => or_list branches
     | AllLevel => and_list branches
     end).

End InterfaceFilter.

Module Fixture4.

(** The schema of the conformance test: a house and the animals, dogs or
    cats, that live in it. *)
Definition Dog : Node := {| name := "Dog"; nodeDirective := None |}.
Definition Cat : Node := {| name := "Cat"; nodeDirective := None |}.
Definition House : Node := {| name := "House"; nodeDirective := None |}.
Definition context : Context := {| nodes := [House; Dog; Cat]; relationships := [] |}.

Definition animals : RelationField :=
{| fieldName := "animals"; rf_type := "LIVES_IN"; direction := IN;
   typeMeta := {| tm_name := "Animal"; tm_array := true |} |}.

Definition this : CypherNode := {| nodeVar := Named "this"; labels := ["House"] |}.

(** A filter [{ name: s }] compiles to a comparison with a parameter. *)
Definition createWherePredicate (args : WherePredicateArgs)
  : Translate WherePredicateResult :=
match wp_whereInput args with
| JObj [("name", JStr s)] =>
  ret {| wp_predicate :=
           Some (Cypher.eq (Cypher.Property (nodeVar (wp_targetElement args)) "name")
                           (Cypher.Param (VStr s)));
         wp_preComputedSubqueries := None;
         wp_returnVariables := [] |}
| _ => ret {| wp_predicate := None; wp_preComputedSubqueries := None;
              wp_returnVariables := [] |}
end.

Definition animal (label name : string) : GraphNode :=
{| nodeLabels := [label]; nodeProps := {[ "name" := VStr name ]} |}.

Definition livesIn (a h : nat) : GraphEdge :=
{| edgeType := "LIVES_IN"; edgeSource := a; edgeTarget := h; edgeProps := ∅ |}.

(** House 0 has the dog Roxy, house 1 the cat Nala. *)
Definition graph : Graph :=
{| graphNodes := [ {| nodeLabels := ["House"]; nodeProps := ∅ |};
                   {| nodeLabels := ["House"]; nodeProps := ∅ |};
                   animal "Dog" "Roxy"; animal "Cat" "Nala" ];
   graphEdges := [livesIn 2 0; livesIn 3 1] |}.

Definition house (id : nat) : Env := {[ Named "this" := VNode id ]}.

Definition branch (v rv : nat) (label name : string) : Cypher.Predicate :=
Cypher.Exists
  (Cypher.MkMatch
     (pattern {| relVar := Anon rv;
                 source := {| nodeVar := Anon v; labels := [label] |};
                 target := this; type := "LIVES_IN" |}
              {| opt_variable := Some true; opt_labels := None |}
              {| opt_variable := None; opt_labels := Some false |}
              {| opt_variable := Some true; opt_labels := None |})
     (Cypher.Where (Cypher.eq (Cypher.Property (Anon v) "name")
                              (Cypher.Param (VStr name))))).

End Fixture4.

(** What one implementing type contributes to the filter. *)
Record Contribution := {
  c_type : Node;
  c_node : CypherNode;
  c_rel : Var;
  c_inner : option Cypher.Predicate;
}.

Definition contributionBranch (relationField : RelationField) (parentNode : CypherNode)
    (c : Contribution) : option Cypher.Predicate :=
option_map
  (fun inner =>
     Cypher.Exists
       (Cypher.where_
          (Cypher.Match (relationshipPattern relationField parentNode (c_node c) (c_rel c)))
          inner))
  (c_inner c).

(** The contributions of the implementing types, in order, from the counter
    [n] on: the node and the relationship of a contribution are the next two
    variables, its labels are those of its type, and its inner predicate is
    what the compiler of nested filters returns for the filter on that
    node; the next type goes on from the counter the compiler leaves. *)
Inductive Contributions
    (createWherePredicate : WherePredicateArgs -> Translate WherePredicateResult)
    (context : Context) (value : GraphQLWhereArg) (listPredicateStr : string)
  : nat -> list Node -> list Contribution -> nat -> Prop :=
| Contributions_nil (n : nat) :
    Contributions createWherePredicate context value listPredicateStr n [] [] n
| Contributions_cons (n n1 n' : nat) (refNode : Node) (rest : list Node)
    (r : WherePredicateResult) (cs : list Contribution) :
    createWherePredicate
      {| wp_whereInput := value;
         wp_targetElement := {| nodeVar := Anon n; labels := getLabels refNode context |};
         wp_element := refNode; wp_context := context;
         wp_listPredicateStr := listPredicateStr |} (S (S n)) = Return (r, n1) ->
    Contributions createWherePredicate context value listPredicateStr n1 rest cs n' ->
    Contributions createWherePredicate context value listPredicateStr n (refNode :: rest)
      ({| c_type := refNode;
          c_node := {| nodeVar := Anon n; labels := getLabels refNode context |};
          c_rel := Anon (S n);
          c_inner := wp_predicate r |} :: cs) n'.

(** ** Parameters *)

Abbreviation CypherParams := (gmap string Value).

(** The object spread [{ ...a, ...b }]: on a key of both, [b] wins. *)
Definition spread (a b : CypherParams) : CypherParams := b ∪ a.

Record CreateOrConnectInputItem := {
  ci_where_node : option CypherParams;
  ci_onCreate_node : option CypherParams;
  ci_onCreate_edge : option CypherParams;
}.

Record MergeNode := {
  mn_node : option Node;
  mn_varName : string;
  mn_parameters : option CypherParams;
  mn_onCreate : option CypherParams;
}.

Record MergeRelation := {
  mr_relationField : RelationField;
  mr_varName : string;
  mr_onCreate : option CypherParams;
}.

Definition newline : string := String "010"%char EmptyString.

Section ConnectOrCreate.

(** The builder of [MERGE] statements, which the sources do not hold. *)
Variable buildMergeStatement :
  MergeNode -> option MergeRelation -> Context -> string * CypherParams.

Definition createConnectOrCreateSubQuery (input : CreateOrConnectInputItem)
    (baseName parentVar : string) (relationField : RelationField) (refNode : Node)
    (context : Context) : string * CypherParams :=
let whereNodeParameters := ci_where_node input in
let onCreateNode := ci_onCreate_node input in
let '(mergeNodeQuery, mergeNodeParams) :=
  buildMergeStatement
    {| mn_node := Some refNode; mn_varName := baseName;
       mn_parameters := whereNodeParameters; mn_onCreate := onCreateNode |}
    None context in
let onCreateEdge := ci_onCreate_edge input in
let '(mergeRelationQuery, mergeRelationParams) :=
  buildMergeStatement
    {| mn_node := None; mn_varName := parentVar;
       mn_parameters := None; mn_onCreate := None |}
    (Some {| mr_relationField := relationField; mr_varName := baseName;
             mr_onCreate := onCreateEdge |})
    context in
(mergeNodeQuery +:+ newline +:+ "        " +:+ mergeRelationQuery +:+ newline
   +:+ "                ",
 spread mergeNodeParams mergeRelationParams).

(** One step of the reduction over the input: [acc] and the item at [index]. *)
Definition connectOrCreateStep (varName parentVar : string)
    (relationField : RelationField) (refNode : Node) (context : Context)
    (acc : list string * CypherParams) (item : nat * CreateOrConnectInputItem)
  : list string * CypherParams :=
let subqueryBaseName := varName +:+ pretty item.1 in
let '(query, params) :=
  createConnectOrCreateSubQuery item.2 subqueryBaseName parentVar relationField
    refNode context in
(acc.1 ++ [query], spread params acc.2).

Definition createConnectOrCreateAndParams (input : list CreateOrConnectInputItem)
    (varName parentVar : string) (relationField : RelationField) (refNode : Node)
    (context : Context) : string * CypherParams :=
let result :=
  fold_left (connectOrCreateStep varName parentVar relationField refNode context)
            (imap (fun index inputItem => (index, inputItem)) input)
            ([], ∅) in
(String.concat newline result.1, result.2).

End ConnectOrCreate.

(** Modelled from the spec: the parameter environment of the render step,
    which belongs to the query builder and is not part of the sources.  The
    render walks the tree once; each literal it meets gets the next name,
    [param0], [param1], ..., and one entry of the map. *)
Record RenderEnv := { paramCount : nat; params : CypherParams }.

Definition emptyRenderEnv : RenderEnv := {| paramCount := 0; params := ∅ |}.

Definition paramName (i : nat) : string := "param" +:+ pretty i.

Definition addParam (v : Value) (env : RenderEnv) : string * RenderEnv :=
let name := paramName (paramCount env) in
(name, {| paramCount := S (paramCount env); params := <[name := v]> (params env) |}).

Fixpoint renderParams (vs : list Value) (env : RenderEnv) : list string * RenderEnv :=
match vs with
| [] => ([], env)
| v :: vs' =>
  let '(name, env1) := addParam v env in
  let '(names, env2) := renderParams vs' env1 in
  (name :: names, env2)
end.

(** The literals of a predicate in the order of the walk. *)
Fixpoint paramsOfPredicate (p : Cypher.Predicate) : list Value :=
match p with
| Cypher.eq l r => paramsOfExpr l ++ paramsOfExpr r
| Cypher.not q => paramsOfPredicate q
| Cypher.and q1 q2 => paramsOfPredicate q1 ++ paramsOfPredicate q2
| Cypher.or q1 q2 => paramsOfPredicate q1 ++ paramsOfPredicate q2
| Cypher.Exists m => paramsOfMatch m
| Cypher.single _ pc q => paramsOfComprehension pc ++ paramsOfPredicate q
| Cypher.ValidatePredicate q _ => paramsOfPredicate q
end
with paramsOfExpr (e : Cypher.Expr) : list Value :=
match e with
| Cypher.Param v => [v]
| Cypher.size pc => paramsOfComprehension pc
| Cypher.collect e' => paramsOfExpr e'
| _ => []
end
with paramsOfComprehension (pc : Cypher.Comprehension) : list Value :=
match pc with
| Cypher.MkPatternComprehension _ mapExpr w => paramsOfWhere w ++ paramsOfExpr mapExpr
end
with paramsOfMatch (m : Cypher.MatchClause) : list Value :=
match m with
| Cypher.MkMatch _ w => paramsOfWhere w
end
with paramsOfWhere (w : Cypher.WhereClause) : list Value :=
match w with
| Cypher.NoWhere => []
| Cypher.Where p => paramsOfPredicate p
end.

(** The names in the rendered text of a predicate and the parameter map. *)
Definition renderPredicateParams (p : Cypher.Predicate) : list string * CypherParams :=
let '(names, env) := renderParams (paramsOfPredicate p) emptyRenderEnv in
(names, params env).

(** Every key of the map is the name of an earlier literal. *)
Definition namesBelow (env : RenderEnv) : Prop :=
  forall k, is_Some (params env !! k) -> exists i, i < paramCount env /\ k = paramName i.

(** ** Populated-by callbacks *)

(** What a callback returns: no value, [null], or a value for the field. *)
Inductive CallbackResult :=
| CbUndefined
| CbNull
| CbValue (v : Value).

(** A callback, by the number of times it has been invoked before. *)
Definition Callback : Type := nat -> CallbackResult.

(** A stored record and the number of invocations of the callback so far. *)
Record Stored := { properties : gmap string Value; invocations : nat }.

(** Modelled from the spec: the effect on a stored record of a field bound
    to a populated-by callback, whose implementation the sources hold only
    through its integration tests.  The callback fires once; [null] removes
    the stored property, no value leaves the record as it is, a value is
    stored. *)
Definition firePopulatedBy (field : string) (callback : Callback) (s : Stored) : Stored :=
{| properties :=
     match callback (invocations s) with
     | CbUndefined => properties s
     | CbNull => delete field (properties s)
     | CbValue v => <[field := v]> (properties s)
     end;
   invocations := S (invocations s) |}.

(** Reading a field of a record: a property that is not stored reads as
    [null]. *)
Definition readField (s : Stored) (field : string) : Value :=
default VNull (properties s !! field).

Module Fixture5.

(** The record of the integration tests, [(:Movie { id, callback })]. *)
Definition movie : Stored :=
{| properties := {[ "id" := VStr "m1"; "callback" := VStr "seeded" ]};
   invocations := 0 |}.

(** [() => null], and a callback that gives no value when first invoked
    and would give one if it were invoked again. *)
Definition returnsNull : Callback := fun _ => CbNull.
Definition undefinedThenValue : Callback :=
fun i => match i with O => CbUndefined | S _ => CbValue (VStr "late") end.

End Fixture5.

(** ** Variables a predicate mentions *)

Definition patternVars (pat : Pattern) : list Var :=
[ relVar (pat_relationship pat);
  nodeVar (source (pat_relationship pat));
  nodeVar (target (pat_relationship pat)) ].

Fixpoint mentionsPredicate (x : Var) (p : Cypher.Predicate) : bool :=
match p with
| Cypher.eq l r => mentionsExpr x l || mentionsExpr x r
| Cypher.not q => mentionsPredicate x q
| Cypher.and q1 q2 => mentionsPredicate x q1 || mentionsPredicate x q2
| Cypher.or q1 q2 => mentionsPredicate x q1 || mentionsPredicate x q2
| Cypher.Exists m => mentionsMatch x m
| Cypher.single v pc q =>
  bool_decide (x = nodeVar v) || mentionsComprehension x pc || mentionsPredicate x q
| Cypher.ValidatePredicate q _ => mentionsPredicate x q
end
with mentionsExpr (x : Var) (e : Cypher.Expr) : bool :=
match e with
| Cypher.Literal _ => false
| Cypher.Param _ => false
| Cypher.VarRef v => bool_decide (x = v)
| Cypher.Property v _ => bool_decide (x = v)
| Cypher.size pc => mentionsComprehension x pc
| Cypher.collect e' => mentionsExpr x e'
end
with mentionsComprehension (x : Var) (pc : Cypher.Comprehension) : bool :=
match pc with
| Cypher.MkPatternComprehension pat mapExpr w =>
  bool_decide (x ∈ patternVars pat) || mentionsExpr x mapExpr || mentionsWhere x w
end
with mentionsMatch (x : Var) (m : Cypher.MatchClause) : bool :=
match m with
| Cypher.MkMatch pat w => bool_decide (x ∈ patternVars pat) || mentionsWhere x w
end
with mentionsWhere (x : Var) (w : Cypher.WhereClause) : bool :=
match w with
| Cypher.NoWhere => false
| Cypher.Where p => mentionsPredicate x p
end.

(** ** A fixture with a missing property *)

Module Fixture6.

(** Actor 0 acted in a film titled "A" and in a film that has no title. *)
Definition graph : Graph :=
{| graphNodes :=
     [ Fixture.actor; Fixture.movie "A";
       {| nodeLabels := ["Film"]; nodeProps := ∅ |} ];
   graphEdges := [Fixture.actedIn 0 1 10; Fixture.actedIn 0 2 20] |}.

(** [edge.screenTime = 10], a predicate on the relationship. *)
Definition screenTimeIs10 : Cypher.Predicate :=
Cypher.eq (Cypher.Property (Anon 1) "screenTime") (Cypher.Param (VInt 10)).

End Fixture6.

(** ** Related entities that match *)

(** The related entities on which the inner predicate is true, edge
    included: the nodes bound to the child on the rows of the pattern that
    satisfy it, each entity once however many relationships lead to it. *)
Definition matchingEntities (g : Graph) (env : Env) (matchPattern : Pattern)
    (childNode : CypherNode) (inner : Cypher.Predicate) : Result (list Value) :=
do rows <- filterM (fun row => evalPredicate g row inner) (matchRows g env matchPattern);
Return (remove_dups (omap (fun row : Env => row !! nodeVar childNode) rows)).

(** The predicate for "single" is true iff exactly one related entity
    matches the inner predicate. *)
Definition single_counts_entities (g : Graph) (env : Env) (matchPattern : Pattern)
    (childNode : CypherNode) (inner : Cypher.Predicate) (returnVariables : list Var)
    (edgePredicate : option bool) : Prop :=
exists p entities,
  createRelationshipSubqueryAndPredicate
    matchPattern "single" childNode (Some inner) returnVariables edgePredicate = Some p
  /\ matchingEntities g env matchPattern childNode inner = Return entities
  /\ (evalPredicate g env p = Return (Some true) <-> length entities = 1).

Module Fixture9.

(** Actor 0 acted twice in the one film titled "A". *)
Definition graph : Graph :=
{| graphNodes := [Fixture.actor; Fixture.movie "A"];
   graphEdges := [Fixture.actedIn 0 1 10; Fixture.actedIn 0 1 20] |}.

End Fixture9.

(** ** The sub-queries of [createConnectOrCreateAndParams] *)

(** The sub-query and parameters of every item of the input, each under the
    base name of its index. *)
Definition connectOrCreateSubQueries
    (buildMergeStatement :
       MergeNode -> option MergeRelation -> Context -> string * CypherParams)
    (input : list CreateOrConnectInputItem) (varName parentVar : string)
    (relationField : RelationField) (refNode : Node) (context : Context)
  : list (string * CypherParams) :=
imap (fun index inputItem =>
        createConnectOrCreateSubQuery buildMergeStatement inputItem
          (varName +:+ pretty index) parentVar relationField refNode context)
     input.

(** ** [AttributeField.getProjectionField] *)

Record Attribute := { attr_name : string }.

(** The field of the query tree for an attribute; [alias] is the optional
    alias of the base class. *)
Record AttributeField := { alias : option string; attribute : Attribute }.

(** [string | Record<string, Cypher.Expr>] *)
Inductive ProjectionField :=
| ProjectionName (fieldName : string)
| ProjectionRecord (entries : gmap string Cypher.Expr).

(** [this.alias && this.alias !== this.attribute.name]: an alias that is
    [undefined] or the empty string is falsy. *)
Definition getProjectionField (this : AttributeField) (variable : Var) : ProjectionField :=
match alias this with
| Some a =>
  if negb (a =? "")%string && negb (a =? attr_name (attribute this))%string
  then ProjectionRecord {[ a := Cypher.Property variable (attr_name (attribute this)) ]}
  else ProjectionName (attr_name (attribute this))
| None => ProjectionName (attr_name (attribute this))
end.

(** ** The class [Neo4jGraphQL] *)

Module Neo4jGraphQL.

(** The data of the libraries and of the modules that the class imports and
    only hands on. *)
Class ExternalTypes := {
  TypeDefinitions : Type;
  DocumentNode : Type;
  DefinitionNodeList : Type;
  GraphQLDirectives : Type;
  IResolvers : Type;
  GraphQLSchema : Type;
  FieldResolver : Type;
  FieldConfig : Type;
  SchemaModel : Type;
  JwtType : Type;
  JwtFieldsMap : Type;
  ResolverWrapper : Type;
  ResolversComposition : Type;
  Driver : Type;
  SessionConfig : Type;
  Neo4jDatabaseInfo : Type;
  AssertIndexesAndConstraintsOptions : Type;
  AuthorizationSettings : Type;
  Neo4jGraphQLAuthorization : Type;
  EngineState : Type;
  OtherFeatures : Type;
}.

Section Class.

Context `{ExternalTypes}.

(** A promise, by the outcome it settles with.  The methods are modelled
    for a caller that awaits each call before it makes the next one. *)
Definition Promise (A : Type) : Type := Result A.

(** [IExecutableSchemaDefinition["resolvers"]]: one map of resolvers or an
    array of them. *)
Inductive Resolvers :=
| OneResolvers (r : IResolvers)
| ManyResolvers (rs : list IResolvers).

(** A subscriptions engine: the listener limit of its event emitter, its
    optional [init] and the state that [init] works on. *)
Record Neo4jGraphQLSubscriptionsEngine := {
  events_maxListeners : nat;
  init : option (SchemaModel -> EngineState -> Result unit * EngineState);
  engineState : EngineState;
}.

(** [subscriptions?: Neo4jGraphQLSubscriptionsEngine | boolean] *)
Inductive SubscriptionsSetting :=
| SubscriptionsFlag (b : bool)
| SubscriptionsEngine (engine : Neo4jGraphQLSubscriptionsEngine).

Record Neo4jFeaturesSettings := {
  fs_subscriptions : option SubscriptionsSetting;
  fs_authorization : option AuthorizationSettings;
  fs_other : OtherFeatures;
}.

Record ContextFeatures := {
  subscriptions : option Neo4jGraphQLSubscriptionsEngine;
  cf_authorization : option AuthorizationSettings;
  cf_other : option OtherFeatures;
}.

Record Neo4jGraphQLConstructor := {
  c_typeDefs : TypeDefinitions;
  c_resolvers : option Resolvers;
  c_features : option Neo4jFeaturesSettings;
  c_driver : option Driver;
  c_debug : option bool;
  c_validate : option bool;
  c_directives : option GraphQLDirectives;
}.

Record Neo4jGraphQL := {
  typeDefs : TypeDefinitions;
  resolvers : option Resolvers;
  directives : option GraphQLDirectives;
  driver : option Driver;
  features : ContextFeatures;
  _nodes : option (list Node);
  _relationships : option (list Relationship);
  jwtFieldsMap : option JwtFieldsMap;
  schemaModel : option SchemaModel;
  executableSchema : option (Promise GraphQLSchema);
  subgraphSchema : option (Promise GraphQLSchema);
  subscriptionInit : option (Promise unit);
  dbInfo : option Neo4jDatabaseInfo;
  authorization : option Neo4jGraphQLAuthorization;
  debug : option bool;
  validate : bool;
}.

(** Assignments to the fields that the methods write. *)
Definition set_features (v : ContextFeatures) (this : Neo4jGraphQL) : Neo4jGraphQL :=
{| typeDefs := typeDefs this;
   resolvers := resolvers this;
   directives := directives this;
   driver := driver this;
   features := v;
   _nodes := _nodes this;
   _relationships := _relationships this;
   jwtFieldsMap := jwtFieldsMap this;
   schemaModel := schemaModel this;
   executableSchema := executableSchema this;
   subgraphSchema := subgraphSchema this;
   subscriptionInit := subscriptionInit this;
   dbInfo := dbInfo this;
   authorization := authorization this;
   debug := debug this;
   validate := validate this |}.

Definition set_nodes (v : option (list Node)) (this : Neo4jGraphQL) : Neo4jGraphQL :=
{| typeDefs := typeDefs this;
   resolvers := resolvers this;
   directives := directives this;
   driver := driver this;
   features := features this;
   _nodes := v;
   _relationships := _relationships this;
   jwtFieldsMap := jwtFieldsMap this;
   schemaModel := schemaModel this;
   executableSchema := executableSchema this;
   subgraphSchema := subgraphSchema this;
   subscriptionInit := subscriptionInit this;
   dbInfo := dbInfo this;
   authorization := authorization this;
   debug := debug this;
   validate := validate this |}.

Definition set_relationships (v : option (list Relationship)) (this : Neo4jGraphQL) : Neo4jGraphQL :=
{| typeDefs := typeDefs this;
   resolvers := resolvers this;
   directives := directives this;
   driver := driver this;
   features := features this;
   _nodes := _nodes this;
   _relationships := v;
   jwtFieldsMap := jwtFieldsMap this;
   schemaModel := schemaModel this;
   executableSchema := executableSchema this;
   subgraphSchema := subgraphSchema this;
   subscriptionInit := subscriptionInit this;
   dbInfo := dbInfo this;
   authorization := authorization this;
   debug := debug this;
   validate := validate this |}.

Definition set_jwtFieldsMap (v : option JwtFieldsMap) (this : Neo4jGraphQL) : Neo4jGraphQL :=
{| typeDefs := typeDefs this;
   resolvers := resolvers this;
   directives := directives this;
   driver := driver this;
   features := features this;
   _nodes := _nodes this;
   _relationships := _relationships this;
   jwtFieldsMap := v;
   schemaModel := schemaModel this;
   executableSchema := executableSchema this;
   subgraphSchema := subgraphSchema this;
   subscriptionInit := subscriptionInit this;
   dbInfo := dbInfo this;
   authorization := authorization this;
   debug := debug this;
   validate := validate this |}.

Definition set_schemaModel (v : option SchemaModel) (this : Neo4jGraphQL) : Neo4jGraphQL :=
{| typeDefs := typeDefs this;
   resolvers := resolvers this;
   directives := directives this;
   driver := driver this;
   features := features this;
   _nodes := _nodes this;
   _relationships := _relationships this;
   jwtFieldsMap := jwtFieldsMap this;
   schemaModel := v;
   executableSchema := executableSchema this;
   subgraphSchema := subgraphSchema this;
   subscriptionInit := subscriptionInit this;
   dbInfo := dbInfo this;
   authorization := authorization this;
   debug := debug this;
   validate := validate this |}.

Definition set_executableSchema (v : option (Promise GraphQLSchema)) (this : Neo4jGraphQL) : Neo4jGraphQL :=
{| typeDefs := typeDefs this;
   resolvers := resolvers this;
   directives := directives this;
   driver := driver this;
   features := features this;
   _nodes := _nodes this;
   _relationships := _relationships this;
   jwtFieldsMap := jwtFieldsMap this;
   schemaModel := schemaModel this;
   executableSchema := v;
   subgraphSchema := subgraphSchema this;
   subscriptionInit := subscriptionInit this;
   dbInfo := dbInfo this;
   authorization := authorization this;
   debug := debug this;
   validate := validate this |}.

Definition set_subscriptionInit (v : option (Promise unit)) (this : Neo4jGraphQL) : Neo4jGraphQL :=
{| typeDefs := typeDefs this;
   resolvers := resolvers this;
   directives := directives this;
   driver := driver this;
   features := features this;
   _nodes := _nodes this;
   _relationships := _relationships this;
   jwtFieldsMap := jwtFieldsMap this;
   schemaModel := schemaModel this;
   executableSchema := executableSchema this;
   subgraphSchema := subgraphSchema this;
   subscriptionInit := v;
   dbInfo := dbInfo this;
   authorization := authorization this;
   debug := debug this;
   validate := validate this |}.

Definition set_dbInfo (v : option Neo4jDatabaseInfo) (this : Neo4jGraphQL) : Neo4jGraphQL :=
{| typeDefs := typeDefs this;
   resolvers := resolvers this;
   directives := directives this;
   driver := driver this;
   features := features this;
   _nodes := _nodes this;
   _relationships := _relationships this;
   jwtFieldsMap := jwtFieldsMap this;
   schemaModel := schemaModel this;
   executableSchema := executableSchema this;
   subgraphSchema := subgraphSchema this;
   subscriptionInit := subscriptionInit this;
   dbInfo := v;
   authorization := authorization this;
   debug := debug this;
   validate := validate this |}.

Definition set_authorization (v : option Neo4jGraphQLAuthorization) (this : Neo4jGraphQL) : Neo4jGraphQL :=
{| typeDefs := typeDefs this;
   resolvers := resolvers this;
   directives := directives this;
   driver := driver this;
   features := features this;
   _nodes := _nodes this;
   _relationships := _relationships this;
   jwtFieldsMap := jwtFieldsMap this;
   schemaModel := schemaModel this;
   executableSchema := executableSchema this;
   subgraphSchema := subgraphSchema this;
   subscriptionInit := subscriptionInit this;
   dbInfo := dbInfo this;
   authorization := v;
   debug := debug this;
   validate := validate this |}.

(** What [getDefinitionNodes] returns, as far as the class reads it. *)
Record DefinitionNodes := {
  enumTypes : DefinitionNodeList;
  interfaceTypes : DefinitionNodeList;
  unionTypes : DefinitionNodeList;
  objectTypes : DefinitionNodeList;
}.

Record AdditionalDefinitions := {
  additionalDirectives : option GraphQLDirectives;
  enums : DefinitionNodeList;
  interfaces : DefinitionNodeList;
  unions : DefinitionNodeList;
  objects : DefinitionNodeList;
}.

(** [typesExcludedFromGeneration.jwt] *)
Record Jwt := { jwt_type : JwtType; jwt_jwtFieldsMap : JwtFieldsMap }.

(** The result of [makeAugmentedSchema]. *)
Record AugmentedSchema := {
  as_nodes : list Node;
  as_relationships : list Relationship;
  as_typeDefs : DocumentNode;
  as_resolvers : IResolvers;
}.

Record WrapResolverArguments := {
  wr_driver : option Driver;
  wr_nodes : list Node;
  wr_relationships : list Relationship;
  wr_schemaModel : SchemaModel;
  wr_features : ContextFeatures;
  wr_authorization : option Neo4jGraphQLAuthorization;
  wr_jwtPayloadFieldsMap : option JwtFieldsMap;
}.

Record WrapSubscriptionArgs := {
  ws_subscriptionsEngine : option Neo4jGraphQLSubscriptionsEngine;
  ws_schemaModel : SchemaModel;
  ws_authorization : option Neo4jGraphQLAuthorization;
  ws_jwtPayloadFieldsMap : option JwtFieldsMap;
}.

(** A field of a schema, as [forEachField] shows it to its callback. *)
Record SchemaField := { resolve : option FieldResolver; fieldConfig : FieldConfig }.

(** The calls the class makes on the [debug] library. *)
Inductive DebugCall :=
| DebugEnable (namespaces : string)
| DebugDisable.

(** The functions, constructors and constants that the class imports and
    the sources do not hold.  A function that can throw, or whose promise
    can be rejected, returns a [Result].  An imported function that has the
    name of a method of the class carries a trailing underscore. *)
Class Imports := {
  DEBUG_ALL : string;
  newNeo4jGraphQLAuthorization : AuthorizationSettings -> Result Neo4jGraphQLAuthorization;
  newNeo4jGraphQLSubscriptionsDefaultEngine : Neo4jGraphQLSubscriptionsEngine;
  mergeTypeDefs : TypeDefinitions -> Result DocumentNode;
  getDefinitionNodes : DocumentNode -> Result DefinitionNodes;
  validateDocument :
    DocumentNode -> ContextFeatures -> AdditionalDefinitions -> option Resolvers ->
    Result unit;
  makeDocumentToAugment : DocumentNode -> Result (DocumentNode * option Jwt);
  generateModel : DocumentNode -> Result SchemaModel;
  makeAugmentedSchema :
    DocumentNode -> ContextFeatures -> option Resolvers -> SchemaModel ->
    Result AugmentedSchema;
  validateUserDefinition : DocumentNode -> DocumentNode -> option JwtType -> Result unit;
  makeExecutableSchema : DocumentNode -> IResolvers -> Result GraphQLSchema;
  getResolversFromSchema : GraphQLSchema -> Result IResolvers;
  wrapQueryAndMutation : WrapResolverArguments -> Result ResolverWrapper;
  wrapSubscription : WrapSubscriptionArgs -> Result ResolverWrapper;
  generateResolverComposition :
    SchemaModel -> bool -> list ResolverWrapper -> list ResolverWrapper ->
    Result ResolversComposition;
  asArray : option Resolvers -> list IResolvers;
  mergeResolvers : list IResolvers -> Result IResolvers;
  composeResolvers : IResolvers -> ResolversComposition -> Result IResolvers;
  addResolversToSchema : GraphQLSchema -> IResolvers -> Result GraphQLSchema;
  forEachField : GraphQLSchema -> (SchemaField -> SchemaField) -> Result GraphQLSchema;
  defaultFieldResolver : FieldResolver;
  getNeo4jDatabaseInfo_ : Driver -> option SessionConfig -> Result Neo4jDatabaseInfo;
  checkNeo4jCompat_ : Driver -> option SessionConfig -> Neo4jDatabaseInfo -> Result unit;
  assertIndexesAndConstraints_ :
    Driver -> option SessionConfig -> list Node ->
    option AssertIndexesAndConstraintsOptions -> Result unit;
}.

(** A method: it reads and writes the fields of [this], and returns or
    throws; what it wrote before it threw stays written. *)
Definition Method (A : Type) : Type := Neo4jGraphQL -> Result A * Neo4jGraphQL.

#[local] Instance Method_ret : MRet Method := fun A a this => (Return a, this).

#[local] Instance Method_bind : MBind Method := fun A B k m this =>
  match m this with
  | (Return a, this') => k a this'
  | (Throw msg, this') => (Throw msg, this')
  end.

Definition getThis : Method Neo4jGraphQL := fun this => (Return this, this).

Definition assign (f : Neo4jGraphQL -> Neo4jGraphQL) : Method unit :=
fun this => (Return tt, f this).

(** The outcome of a call that does not touch [this]. *)
Definition call {A} (r : Result A) : Method A := fun this => (r, this).

Context (imports : Imports).

(** [private parseNeo4jFeatures]: [{ ...features, subscriptions }]. *)
Definition parseNeo4jFeatures (features : option Neo4jFeaturesSettings) : ContextFeatures :=
let subscriptionPlugin :=
  match features ≫= fs_subscriptions with
  | Some (SubscriptionsFlag true) => Some newNeo4jGraphQLSubscriptionsDefaultEngine
  | Some (SubscriptionsFlag false) => None
  | Some (SubscriptionsEngine engine) => Some engine
  | None => None
  end in
{| subscriptions := subscriptionPlugin;
   cf_authorization := features ≫= fs_authorization;
   cf_other := fs_other <$> features |}.

(** [private checkEnableDebug] *)
Definition checkEnableDebug (this : Neo4jGraphQL) : list DebugCall :=
match debug this with
| Some true => [DebugEnable DEBUG_ALL]
| Some false => [DebugDisable]
| None => []
end.

(** [constructor(input)], with the calls it makes on the [debug] library. *)
Definition constructor_ (input : Neo4jGraphQLConstructor)
  : list DebugCall * Result Neo4jGraphQL :=
let this :=
  {| typeDefs := c_typeDefs input;
     resolvers := c_resolvers input;
     directives := c_directives input;
     driver := c_driver input;
     features := parseNeo4jFeatures (c_features input);
     _nodes := None;
     _relationships := None;
     jwtFieldsMap := None;
     schemaModel := None;
     executableSchema := None;
     subgraphSchema := None;
     subscriptionInit := None;
     dbInfo := None;
     authorization := None;
     debug := c_debug input;
     validate := default true (c_validate input) |} in
let calls := checkEnableDebug this in
match cf_authorization (features this) with
| Some authorizationSettings =>
  (calls,
   do a <- newNeo4jGraphQLAuthorization authorizationSettings;
   Return (set_authorization (Some a) this))
| None => (calls, Return this)
end.

(** [private get nodes()] *)
Definition nodes (this : Neo4jGraphQL) : Result (list Node) :=
match _nodes this with
| None => Throw "You must await `.getSchema()` before accessing `nodes`"
| Some ns => Return ns
end.

(** [private get relationships()] *)
Definition relationships (this : Neo4jGraphQL) : Result (list Relationship) :=
match _relationships this with
| None => Throw "You must await `.getSchema()` before accessing `relationships`"
| Some rs => Return rs
end.

(** [private normalizeTypeDefinitions] *)
Definition normalizeTypeDefinitions (typeDefinitions : TypeDefinitions)
  : Result DocumentNode :=
mergeTypeDefs typeDefinitions.

(** [private addDefaultFieldResolvers] *)
Definition addDefaultFieldResolvers (schema : GraphQLSchema) : Result GraphQLSchema :=
forEachField schema
  (fun field =>
     match resolve field with
     | None => {| resolve := Some defaultFieldResolver; fieldConfig := fieldConfig field |}
     | Some _ => field
     end).

(** [private getNeo4jDatabaseInfo], which builds the [Executor] for the
    imported function of the same name. *)
Definition getNeo4jDatabaseInfo (driver : Driver) (sessionConfig : option SessionConfig)
  : Result Neo4jDatabaseInfo :=
getNeo4jDatabaseInfo_ driver sessionConfig.

(** [private wrapResolvers] *)
Definition wrapResolvers (this : Neo4jGraphQL) (resolvers' : Resolvers)
  : Result IResolvers :=
match schemaModel this with
| None => Throw "Schema Model is not defined"
| Some schemaModel' =>
  do ns <- nodes this;
  do rs <- relationships this;
  let wrapResolverArgs :=
    {| wr_driver := driver this;
       wr_nodes := ns;
       wr_relationships := rs;
       wr_schemaModel := schemaModel';
       wr_features := features this;
       wr_authorization := authorization this;
       wr_jwtPayloadFieldsMap := jwtFieldsMap this |} in
  do queryAndMutationWrapper <- wrapQueryAndMutation wrapResolverArgs;
  let queryAndMutationWrappers := [queryAndMutationWrapper] in
  let isSubscriptionEnabled := bool_decide (is_Some (subscriptions (features this))) in
  let wrapSubscriptionResolverArgs :=
    {| ws_subscriptionsEngine := subscriptions (features this);
       ws_schemaModel := schemaModel';
       ws_authorization := authorization this;
       ws_jwtPayloadFieldsMap := jwtFieldsMap this |} in
  do subscriptionWrappers <-
    (if isSubscriptionEnabled
     then do w <- wrapSubscription wrapSubscriptionResolverArgs; Return [w]
     else Return []);
  do resolversComposition <-
    generateResolverComposition schemaModel' isSubscriptionEnabled
      queryAndMutationWrappers subscriptionWrappers;
  do mergedResolvers <-
    mergeResolvers (asArray (Some resolvers') ++ asArray (resolvers this));
  composeResolvers mergedResolvers resolversComposition
end.

(** [private composeSchema] *)
Definition composeSchema (this : Neo4jGraphQL) (schema : GraphQLSchema)
  : Result GraphQLSchema :=
do resolvers' <- getResolversFromSchema schema;
do wrappedResolvers <- wrapResolvers this (OneResolvers resolvers');
do schema' <- addResolversToSchema schema wrappedResolvers;
addDefaultFieldResolvers schema'.

(** [private generateSchemaModel] *)
Definition generateSchemaModel (this : Neo4jGraphQL) (document : DocumentNode)
  : Result SchemaModel :=
match schemaModel this with
| None => generateModel document
| Some model => Return model
end.

(** [private generateExecutableSchema]: the executor of the promise runs at
    once; the promise is resolved with the composed schema, or rejected with
    what the executor threw. *)
Definition generateExecutableSchema : Neo4jGraphQL -> Promise GraphQLSchema * Neo4jGraphQL :=
this ← getThis;
initialDocument ← call (normalizeTypeDefinitions (typeDefs this));
_ ← (if validate this
     then
       definitionNodes ← call (getDefinitionNodes initialDocument);
       call (validateDocument initialDocument (features this)
               {| additionalDirectives := directives this;
                  enums := enumTypes definitionNodes;
                  interfaces := interfaceTypes definitionNodes;
                  unions := unionTypes definitionNodes;
                  objects := objectTypes definitionNodes |}
               (resolvers this))
     else mret tt);
augmentable ← call (makeDocumentToAugment initialDocument);
let document := augmentable.1 in
let jwt := augmentable.2 in
_ ← match jwt with
    | Some jwt' => assign (set_jwtFieldsMap (Some (jwt_jwtFieldsMap jwt')))
    | None => mret tt
    end;
this ← getThis;
model ← call (generateSchemaModel this document);
_ ← assign (set_schemaModel (Some model));
augmented ← call (makeAugmentedSchema document (features this) (resolvers this) model);
_ ← (if validate this
     then call (validateUserDefinition document (as_typeDefs augmented)
                  (jwt_type <$> jwt))
     else mret tt);
_ ← assign (set_nodes (Some (as_nodes augmented)));
_ ← assign (set_relationships (Some (as_relationships augmented)));
schema ← call (makeExecutableSchema (as_typeDefs augmented) (as_resolvers augmented));
this ← getThis;
call (composeSchema this schema).

(** The function [setup] of [subscriptionMechanismSetup]. *)
Definition setup : Neo4jGraphQL -> Promise unit * Neo4jGraphQL :=
this ← getThis;
match subscriptions (features this) with
| Some subscriptionsEngine =>
  let silenced :=
    {| events_maxListeners := 0;
       init := init subscriptionsEngine;
       engineState := engineState subscriptionsEngine |} in
  _ ← assign (set_features
                {| subscriptions := Some silenced;
                   cf_authorization := cf_authorization (features this);
                   cf_other := cf_other (features this) |});
  match init subscriptionsEngine with
  | Some init' =>
    match schemaModel this with
    | None => call (Throw "SchemaModel not available on subscription mechanism")
    | Some model =>
      let outcome := init' model (engineState subscriptionsEngine) in
      _ ← assign (set_features
                    {| subscriptions :=
                         Some {| events_maxListeners := 0;
                                 init := init subscriptionsEngine;
                                 engineState := outcome.2 |};
                       cf_authorization := cf_authorization (features this);
                       cf_other := cf_other (features this) |});
      call outcome.1
    end
  | None => mret tt
  end
| None => mret tt
end.

(** [private subscriptionMechanismSetup] *)
Definition subscriptionMechanismSetup (this : Neo4jGraphQL)
  : Promise unit * Neo4jGraphQL :=
match subscriptionInit this with
| Some stored => (stored, this)
| None =>
  let started := setup this in
  (started.1, set_subscriptionInit (Some started.1) started.2)
end.

(** [getExecutableSchema].  The promise stored in [executableSchema] is the
    one assigned two lines above the [return]; the setup of the
    subscriptions does not write that field. *)
Definition getExecutableSchema (this : Neo4jGraphQL)
  : Result GraphQLSchema * Neo4jGraphQL :=
match executableSchema this with
| None =>
  let generated := generateExecutableSchema this in
  let this1 := set_executableSchema (Some generated.1) generated.2 in
  let subscribed := subscriptionMechanismSetup this1 in
  match subscribed.1 with
  | Throw msg => (Throw msg, subscribed.2)
  | Return _ => (generated.1, subscribed.2)
  end
| Some stored => (stored, this)
end.

(** [getSchema] *)
Definition getSchema (this : Neo4jGraphQL) : Result GraphQLSchema * Neo4jGraphQL :=
getExecutableSchema this.

(** [checkNeo4jCompat({ driver, sessionConfig })] *)
Definition checkNeo4jCompat (driver' : option Driver)
    (sessionConfig : option SessionConfig) : Method unit :=
this ← getThis;
match driver' ∪ driver this with
| None => call (Throw "neo4j-driver Driver missing")
| Some neo4jDriver =>
  info ← match dbInfo this with
         | None =>
           info ← call (getNeo4jDatabaseInfo neo4jDriver sessionConfig);
           _ ← assign (set_dbInfo (Some info));
           mret info
         | Some info => mret info
         end;
  call (checkNeo4jCompat_ neo4jDriver sessionConfig info)
end.

(** [assertIndexesAndConstraints({ driver, sessionConfig, options })] *)
Definition assertIndexesAndConstraints (driver' : option Driver)
    (sessionConfig : option SessionConfig)
    (options : option AssertIndexesAndConstraintsOptions) : Method unit :=
this ← getThis;
match executableSchema this ∪ subgraphSchema this with
| None =>
  call (Throw "You must await `.getSchema()` before `.assertIndexesAndConstraints()`")
| Some schema =>
  _ ← call schema;
  match driver' ∪ driver this with
  | None => call (Throw "neo4j-driver Driver missing")
  | Some neo4jDriver =>
    _ ← match dbInfo this with
        | None =>
          info ← call (getNeo4jDatabaseInfo neo4jDriver sessionConfig);
          assign (set_dbInfo (Some info))
        | Some _ => mret tt
        end;
    this ← getThis;
    ns ← call (nodes this);
    call (assertIndexesAndConstraints_ neo4jDriver sessionConfig ns options)
  end
end.

(** The imports with other functions in the place of those that validate
    the type definitions. *)
Definition withValidation
    (getDefinitionNodes' : DocumentNode -> Result DefinitionNodes)
    (validateDocument' :
       DocumentNode -> ContextFeatures -> AdditionalDefinitions -> option Resolvers ->
       Result unit)
    (validateUserDefinition' :
       DocumentNode -> DocumentNode -> option JwtType -> Result unit)
  : Imports :=
{| DEBUG_ALL := DEBUG_ALL;
   newNeo4jGraphQLAuthorization := newNeo4jGraphQLAuthorization;
   newNeo4jGraphQLSubscriptionsDefaultEngine := newNeo4jGraphQLSubscriptionsDefaultEngine;
   mergeTypeDefs := mergeTypeDefs;
   getDefinitionNodes := getDefinitionNodes';
   validateDocument := validateDocument';
   makeDocumentToAugment := makeDocumentToAugment;
   generateModel := generateModel;
   makeAugmentedSchema := makeAugmentedSchema;
   validateUserDefinition := validateUserDefinition';
   makeExecutableSchema := makeExecutableSchema;
   getResolversFromSchema := getResolversFromSchema;
   wrapQueryAndMutation := wrapQueryAndMutation;
   wrapSubscription := wrapSubscription;
   generateResolverComposition := generateResolverComposition;
   asArray := asArray;
   mergeResolvers := mergeResolvers;
   composeResolvers := composeResolvers;
   addResolversToSchema := addResolversToSchema;
   forEachField := forEachField;
   defaultFieldResolver := defaultFieldResolver;
   getNeo4jDatabaseInfo_ := getNeo4jDatabaseInfo_;
   checkNeo4jCompat_ := checkNeo4jCompat_;
   assertIndexesAndConstraints_ := assertIndexesAndConstraints_ |}.

(** The imported functions that the generation of the schema calls all
    return, whatever they are given. *)
Record ImportsReturn : Prop := {
  returns_mergeTypeDefs :
    forall typeDefs', exists document, mergeTypeDefs typeDefs' = Return document;
  returns_getDefinitionNodes :
    forall document, exists definitionNodes,
      getDefinitionNodes document = Return definitionNodes;
  returns_validateDocument :
    forall document features' additionalDefinitions userCustomResolvers,
      exists done,
        validateDocument document features' additionalDefinitions userCustomResolvers
        = Return done;
  returns_makeDocumentToAugment :
    forall document, exists augmentable, makeDocumentToAugment document = Return augmentable;
  returns_generateModel :
    forall document, exists model, generateModel document = Return model;
  returns_makeAugmentedSchema :
    forall document features' userCustomResolvers model,
      exists augmented,
        makeAugmentedSchema document features' userCustomResolvers model = Return augmented;
  returns_validateUserDefinition :
    forall userDocument augmentedDocument jwt,
      exists done, validateUserDefinition userDocument augmentedDocument jwt = Return done;
  returns_makeExecutableSchema :
    forall typeDefs' resolvers',
      exists schema, makeExecutableSchema typeDefs' resolvers' = Return schema;
  returns_getResolversFromSchema :
    forall schema, exists resolvers', getResolversFromSchema schema = Return resolvers';
  returns_wrapQueryAndMutation :
    forall args, exists wrapper, wrapQueryAndMutation args = Return wrapper;
  returns_wrapSubscription :
    forall args, exists wrapper, wrapSubscription args = Return wrapper;
  returns_generateResolverComposition :
    forall model isSubscriptionEnabled queryAndMutationWrappers subscriptionWrappers,
      exists composition,
        generateResolverComposition model isSubscriptionEnabled queryAndMutationWrappers
          subscriptionWrappers = Return composition;
  returns_mergeResolvers :
    forall resolvers', exists merged, mergeResolvers resolvers' = Return merged;
  returns_composeResolvers :
    forall merged composition,
      exists composed, composeResolvers merged composition = Return composed;
  returns_addResolversToSchema :
    forall schema resolvers',
      exists schema', addResolversToSchema schema resolvers' = Return schema';
  returns_forEachField :
    forall schema callback, exists schema', forEachField schema callback = Return schema';
}.

End Class.

Arguments Build_Neo4jGraphQLSubscriptionsEngine {H} & _ _ _.
Arguments Build_Neo4jFeaturesSettings {H} & _ _ _.
Arguments Build_ContextFeatures {H} & _ _ _.
Arguments Build_Neo4jGraphQLConstructor {H} & _ _ _ _ _ _ _.
Arguments Build_Neo4jGraphQL {H} & _ _ _ _ _ _ _ _ _ _ _ _ _ _ _ _.
Arguments Build_DefinitionNodes {H} & _ _ _ _.
Arguments Build_AugmentedSchema {H} & _ _ _ _.
Arguments Build_Imports {H} & _ _ _ _ _ _ _ _ _ _ _ _ _ _ _ _ _ _ _ _ _ _ _ _.

End Neo4jGraphQL.

(** ** A fixture for the class *)

Module Fixture7.

(** Stand-ins for what the class imports: documents, schemas and models are
    texts, and the state of a subscriptions engine is the list of the models
    its [init] was called with. *)
Definition types : Neo4jGraphQL.ExternalTypes :=
{| Neo4jGraphQL.TypeDefinitions := string;
   Neo4jGraphQL.DocumentNode := string;
   Neo4jGraphQL.DefinitionNodeList := list string;
   Neo4jGraphQL.GraphQLDirectives := list string;
   Neo4jGraphQL.IResolvers := list string;
   Neo4jGraphQL.GraphQLSchema := string;
   Neo4jGraphQL.FieldResolver := string;
   Neo4jGraphQL.FieldConfig := string;
   Neo4jGraphQL.SchemaModel := string;
   Neo4jGraphQL.JwtType := string;
   Neo4jGraphQL.JwtFieldsMap := list (string * string);
   Neo4jGraphQL.ResolverWrapper := string;
   Neo4jGraphQL.ResolversComposition := list string;
   Neo4jGraphQL.Driver := string;
   Neo4jGraphQL.SessionConfig := string;
   Neo4jGraphQL.Neo4jDatabaseInfo := string;
   Neo4jGraphQL.AssertIndexesAndConstraintsOptions := unit;
   Neo4jGraphQL.AuthorizationSettings := string;
   Neo4jGraphQL.Neo4jGraphQLAuthorization := string;
   Neo4jGraphQL.EngineState := list string;
   Neo4jGraphQL.OtherFeatures := unit |}.

(** The imports; [validation] is the outcome of [validateDocument]. *)
Definition imports (validation : Result unit) : @Neo4jGraphQL.Imports types :=
{| Neo4jGraphQL.DEBUG_ALL := "@neo4j/graphql:*";
   Neo4jGraphQL.newNeo4jGraphQLAuthorization := fun settings : string => Return settings;
   Neo4jGraphQL.newNeo4jGraphQLSubscriptionsDefaultEngine :=
     {| Neo4jGraphQL.events_maxListeners := 10;
        Neo4jGraphQL.init := None;
        Neo4jGraphQL.engineState := [] |};
   Neo4jGraphQL.mergeTypeDefs := fun typeDefs : string => Return typeDefs;
   Neo4jGraphQL.getDefinitionNodes := fun _ =>
     Return ({| Neo4jGraphQL.enumTypes := []; Neo4jGraphQL.interfaceTypes := [];
                Neo4jGraphQL.unionTypes := []; Neo4jGraphQL.objectTypes := ["Movie"] |}
             : @Neo4jGraphQL.DefinitionNodes types);
   Neo4jGraphQL.validateDocument := fun _ _ _ _ => validation;
   Neo4jGraphQL.makeDocumentToAugment := fun document : string => Return (document, None);
   Neo4jGraphQL.generateModel := fun document : string => Return ("model of " +:+ document);
   Neo4jGraphQL.makeAugmentedSchema := fun (document : string) _ _ _ =>
     Return ({| Neo4jGraphQL.as_nodes := [Fixture2.Movie];
                Neo4jGraphQL.as_relationships := [];
                Neo4jGraphQL.as_typeDefs := document;
                Neo4jGraphQL.as_resolvers := [] |}
             : @Neo4jGraphQL.AugmentedSchema types);
   Neo4jGraphQL.validateUserDefinition := fun _ _ _ => Return tt;
   Neo4jGraphQL.makeExecutableSchema := fun (typeDefs : string) _ => Return ("schema of " +:+ typeDefs);
   Neo4jGraphQL.getResolversFromSchema := fun _ => Return [];
   Neo4jGraphQL.wrapQueryAndMutation := fun _ => Return "query and mutation";
   Neo4jGraphQL.wrapSubscription := fun _ => Return "subscription";
   Neo4jGraphQL.generateResolverComposition := fun _ _ (q s : list string) => Return (q ++ s);
   Neo4jGraphQL.asArray := fun raw =>
     match raw with
     | Some (Neo4jGraphQL.OneResolvers r) => [r]
     | Some (Neo4jGraphQL.ManyResolvers rs) => rs
     | None => []
     end;
   Neo4jGraphQL.mergeResolvers := fun rs : list (list string) => Return (List.concat rs);
   Neo4jGraphQL.composeResolvers := fun (merged : list string) _ => Return merged;
   Neo4jGraphQL.addResolversToSchema := fun (schema : string) _ => Return schema;
   Neo4jGraphQL.forEachField := fun (schema : string) _ => Return schema;
   Neo4jGraphQL.defaultFieldResolver := "defaultFieldResolver";
   Neo4jGraphQL.getNeo4jDatabaseInfo_ := fun (driver : string) _ => Return ("info of " +:+ driver);
   Neo4jGraphQL.checkNeo4jCompat_ := fun _ _ _ => Return tt;
   Neo4jGraphQL.assertIndexesAndConstraints_ := fun _ _ _ _ => Return tt |}.

(** An engine whose [init] records the model it is given. *)
Definition engine : @Neo4jGraphQL.Neo4jGraphQLSubscriptionsEngine types :=
{| Neo4jGraphQL.events_maxListeners := 10;
   Neo4jGraphQL.init := Some (fun (model : string) (called : list string) => (Return tt, model :: called));
   Neo4jGraphQL.engineState := [] |}.

(** [{ typeDefs, features: { subscriptions: engine }, validate }] *)
Definition input (validate : option bool) : @Neo4jGraphQL.Neo4jGraphQLConstructor types :=
{| Neo4jGraphQL.c_typeDefs := "type Movie";
   Neo4jGraphQL.c_resolvers := None;
   Neo4jGraphQL.c_features :=
     Some {| Neo4jGraphQL.fs_subscriptions := Some (Neo4jGraphQL.SubscriptionsEngine engine);
             Neo4jGraphQL.fs_authorization := None;
             Neo4jGraphQL.fs_other := tt |};
   Neo4jGraphQL.c_driver := None;
   Neo4jGraphQL.c_debug := None;
   Neo4jGraphQL.c_validate := validate;
   Neo4jGraphQL.c_directives := None |}.

(** The instance that [new Neo4jGraphQL(input validate)] gives. *)
Definition instance (validate : option bool) : @Neo4jGraphQL.Neo4jGraphQL types :=
{| Neo4jGraphQL.typeDefs := "type Movie";
   Neo4jGraphQL.resolvers := None;
   Neo4jGraphQL.directives := None;
   Neo4jGraphQL.driver := None;
   Neo4jGraphQL.features :=
     {| Neo4jGraphQL.subscriptions := Some engine;
        Neo4jGraphQL.cf_authorization := None;
        Neo4jGraphQL.cf_other := Some tt |};
   Neo4jGraphQL._nodes := None;
   Neo4jGraphQL._relationships := None;
   Neo4jGraphQL.jwtFieldsMap := None;
   Neo4jGraphQL.schemaModel := None;
   Neo4jGraphQL.executableSchema := None;
   Neo4jGraphQL.subgraphSchema := None;
   Neo4jGraphQL.subscriptionInit := None;
   Neo4jGraphQL.dbInfo := None;
   Neo4jGraphQL.authorization := None;
   Neo4jGraphQL.debug := None;
   Neo4jGraphQL.validate := default true validate |}.

End Fixture7.

(** ** The helper of the integration tests, [TestHelper] *)

Module TestHelper.

(** Data of the driver and of the test utilities, opaque here. *)
Class ExternalTypes := {
  AuthToken : Type;
  QueryResult : Type;
  UniqueType : Type;
}.

(** [s.includes(sub)] *)
Fixpoint includes (s sub : string) : bool :=
match s with
| EmptyString => String.prefix sub s
| String _ rest => String.prefix sub s || includes rest sub
end.

Definition INT_TEST_DB_NAME : string := "neo4jgraphqlinttestdatabase".

Definition DEFAULT_DB : string := "neo4j".

Section Class.

Context `{Neo4jGraphQL.ExternalTypes} `{ExternalTypes}.

(** What the helper does to the world outside it. *)
Inductive Effect :=
| DriverClosed (driver : Neo4jGraphQL.Driver)
| QueryExecuted (driver : Neo4jGraphQL.Driver) (query database : string)
| DebugCalled (call : Neo4jGraphQL.DebugCall).

(** The fields of a helper; [getDriver_memo] is the cache of the
    [@Memoize()] decorator on [getDriver], which keeps the promise of the
    first call. *)
Record TestHelper := {
  database : string;
  neo4jGraphQL : option Neo4jGraphQL.Neo4jGraphQL;
  uniqueTypes : list UniqueType;
  getDriver_memo : option (Result Neo4jGraphQL.Driver);
}.

(** [new TestHelper()] *)
Definition new : TestHelper :=
{| database := DEFAULT_DB; neo4jGraphQL := None; uniqueTypes := [];
   getDriver_memo := None |}.

(** The variable [helperLock] of the module, shared by all helpers, and the
    effects so far. *)
Record World := { helperLock : bool; effects : list Effect }.

(** The query of [cleanNodes]:
    [new Cypher.Match(nodeRef).where(Cypher.or(...labels.map((l) =>
    nodeRef.hasLabel(l)))).detachDelete(nodeRef)]. *)
Inductive CleanNodesQuery :=
| MatchWhereAnyLabelDetachDelete (labels : list string).

(** What the helper imports and reads from its environment.  A function
    that can throw, or whose promise can be rejected, returns a [Result]. *)
Class Imports := {
  env : string -> option string;
  auth_basic : string -> string -> AuthToken;
  neo4j_driver : string -> AuthToken -> Result Neo4jGraphQL.Driver;
  verifyConnectivity : Neo4jGraphQL.Driver -> option string -> Result unit;
  driver_close : Neo4jGraphQL.Driver -> Result unit;
  executeQuery : Neo4jGraphQL.Driver -> string -> string -> Result QueryResult;
  newUniqueType : string -> UniqueType;
  uniqueTypeToString : UniqueType -> string;
  build : CleanNodesQuery -> string;
}.

(** A method of a helper: it reads and writes the lock, the effects and the
    fields of [this], and returns or throws. *)
Definition Method (A : Type) : Type :=
World * TestHelper -> Result A * (World * TestHelper).

#[local] Instance Method_ret : MRet Method := fun A a state => (Return a, state).

#[local] Instance Method_bind : MBind Method := fun A B k m state =>
  match m state with
  | (Return a, state') => k a state'
  | (Throw msg, state') => (Throw msg, state')
  end.

Definition getWorld : Method World := fun state => (Return state.1, state).

Definition getThis : Method TestHelper := fun state => (Return state.2, state).

Definition call {A} (r : Result A) : Method A := fun state => (r, state).

Definition setLock (lock : bool) : Method unit :=
fun state => (Return tt, ({| helperLock := lock; effects := effects state.1 |}, state.2)).

Definition effect (e : Effect) : Method unit :=
fun state =>
  (Return tt, ({| helperLock := helperLock state.1; effects := effects state.1 ++ [e] |},
               state.2)).

Definition assign (f : TestHelper -> TestHelper) : Method unit :=
fun state => (Return tt, (state.1, f state.2)).

(** [process.env.X] as a condition: unset and empty are falsy. *)
Definition isSet (value : option string) : bool :=
match value with
| Some s => negb (s =? "")%string
| None => false
end.

Context (neo4jGraphQLImports : Neo4jGraphQL.Imports) (imports : Imports).

(** [createUniqueType] *)
Definition createUniqueType (type : string) : Method UniqueType :=
let uniqueType := newUniqueType type in
_ ← assign (fun this =>
              {| database := database this; neo4jGraphQL := neo4jGraphQL this;
                 uniqueTypes := uniqueTypes this ++ [uniqueType];
                 getDriver_memo := getDriver_memo this |});
mret uniqueType.

(** [private checkConnectivityToDefaultDatabase] *)
Definition checkConnectivityToDefaultDatabase (driver : Neo4jGraphQL.Driver)
  : Result string :=
do _ <- verifyConnectivity driver None;
Return DEFAULT_DB.

(** [private verifyConnectivityToTestDatabase] *)
Definition verifyConnectivityToTestDatabase (driver : Neo4jGraphQL.Driver)
  : Result string :=
match verifyConnectivity driver (Some INT_TEST_DB_NAME) with
| Return _ => Return INT_TEST_DB_NAME
| Throw message =>
  if includes message "Could not perform discovery. No routing servers available."
     || includes message
          ("Unable to get a routing table for database '" +:+ INT_TEST_DB_NAME
             +:+ "' because this database does not exist")
     || includes message
          ("Database does not exist. Database name: '" +:+ INT_TEST_DB_NAME +:+ "'")
  then
    do _ <- checkConnectivityToDefaultDatabase driver;
    Return DEFAULT_DB
  else Throw message
end.

(** [private checkConnectivity] *)
Definition checkConnectivity (driver : Neo4jGraphQL.Driver) : Result string :=
if isSet (env "USE_DEFAULT_DB")
then checkConnectivityToDefaultDatabase driver
else verifyConnectivityToTestDatabase driver.

(** The body of [getDriver]. *)
Definition getDriver_body : Method Neo4jGraphQL.Driver :=
let NEO_USER := default "neo4j" (env "NEO_USER") in
let NEO_PASSWORD := default "password" (env "NEO_PASSWORD") in
let NEO_URL := default "neo4j://localhost:7687/neo4j" (env "NEO_URL") in
let auth := auth_basic NEO_USER NEO_PASSWORD in
driver ← call (neo4j_driver NEO_URL auth);
match checkConnectivity driver with
| Return connected =>
  _ ← assign (fun this =>
                {| database := connected; neo4jGraphQL := neo4jGraphQL this;
                   uniqueTypes := uniqueTypes this;
                   getDriver_memo := getDriver_memo this |});
  mret driver
| Throw message =>
  _ ← effect (DriverClosed driver);
  _ ← call (driver_close driver);
  call (Throw ("Could not connect to neo4j @ " +:+ NEO_URL +:+ ", database "
                 +:+ INT_TEST_DB_NAME +:+ ", Error: " +:+ message))
end.

(** [@Memoize() getDriver]: the first call runs the body and keeps its
    promise, every later call returns that promise. *)
Definition getDriver : Method Neo4jGraphQL.Driver :=
fun state =>
  match getDriver_memo state.2 with
  | Some stored => (stored, state)
  | None =>
    let ran := getDriver_body state in
    (ran.1,
     (ran.2.1,
      {| database := database ran.2.2; neo4jGraphQL := neo4jGraphQL ran.2.2;
         uniqueTypes := uniqueTypes ran.2.2; getDriver_memo := Some ran.1 |}))
  end.

(** [initNeo4jGraphQL(options)]; the instance is constructed from
    [{ ...options, driver }]. *)
Definition initNeo4jGraphQL (options : Neo4jGraphQL.Neo4jGraphQLConstructor)
  : Method Neo4jGraphQL.Neo4jGraphQL :=
world ← getWorld;
if helperLock world
then call (Throw "TestHelper still open. Did you forget calling .close()?")
else
  _ ← setLock true;
  this ← getThis;
  match neo4jGraphQL this with
  | Some _ => call (Throw "Neo4jGraphQL already initialized")
  | None =>
    driver ← getDriver;
    let constructed :=
      Neo4jGraphQL.constructor_ neo4jGraphQLImports
        {| Neo4jGraphQL.c_typeDefs := Neo4jGraphQL.c_typeDefs options;
           Neo4jGraphQL.c_resolvers := Neo4jGraphQL.c_resolvers options;
           Neo4jGraphQL.c_features := Neo4jGraphQL.c_features options;
           Neo4jGraphQL.c_driver := Some driver;
           Neo4jGraphQL.c_debug := Neo4jGraphQL.c_debug options;
           Neo4jGraphQL.c_validate := Neo4jGraphQL.c_validate options;
           Neo4jGraphQL.c_directives := Neo4jGraphQL.c_directives options |} in
    _ ← (fun state =>
           (Return tt,
            ({| helperLock := helperLock state.1;
                effects := effects state.1 ++ (DebugCalled <$> constructed.1) |},
             state.2)));
    instance ← call constructed.2;
    _ ← assign (fun this =>
                  {| database := database this; neo4jGraphQL := Some instance;
                     uniqueTypes := uniqueTypes this;
                     getDriver_memo := getDriver_memo this |});
    mret instance
  end.

(** [private cleanNodes(driver, labels)] *)
Definition cleanNodes (driver : Neo4jGraphQL.Driver) (labels : list UniqueType)
  : Method unit :=
match labels with
| [] => mret tt
| _ =>
  let query := MatchWhereAnyLabelDetachDelete (uniqueTypeToString <$> labels) in
  let cypher := build query in
  this ← getThis;
  _ ← effect (QueryExecuted driver cypher (database this));
  _ ← call (executeQuery driver cypher (database this));
  mret tt
end.

(** [close(preClose)]; what [preClose] throws is ignored. *)
Definition close (preClose : option (Method unit)) : Method unit :=
world ← getWorld;
if negb (helperLock world)
then call (Throw "Closing unopened testHelper. Did you forget to call initNeo4jGraphQL?")
else
  driver ← getDriver;
  _ ← match preClose with
      | Some run => fun state => (Return tt, (run state).2)
      | None => mret tt
      end;
  this ← getThis;
  _ ← cleanNodes driver (uniqueTypes this);
  _ ← effect (DriverClosed driver);
  _ ← call (driver_close driver);
  setLock false.

End Class.

Arguments Build_TestHelper {H H0} & _ _ _ _.
Arguments Build_World {H} & _ _.
Arguments Build_Imports {H H0} & _ _ _ _ _ _ _ _ _.

End TestHelper.

Module Fixture8.

(** Stand-ins for what the helper imports: a driver is the URL it was made
    for, and the server has the default database only. *)
Definition types : TestHelper.ExternalTypes :=
{| TestHelper.AuthToken := string * string;
   TestHelper.QueryResult := unit;
   TestHelper.UniqueType := string |}.

Definition imports : @TestHelper.Imports Fixture7.types types :=
{| TestHelper.env := fun _ => None;
   TestHelper.auth_basic := fun user password => (user, password);
   TestHelper.neo4j_driver := fun (url : string) _ => Return url;
   TestHelper.verifyConnectivity := fun _ database =>
     match database with
     | Some _ =>
       Throw "Database does not exist. Database name: 'neo4jgraphqlinttestdatabase'"
     | None => Return tt
     end;
   TestHelper.driver_close := fun _ => Return tt;
   TestHelper.executeQuery := fun _ _ _ => Return tt;
   TestHelper.newUniqueType := fun type : string => type;
   TestHelper.uniqueTypeToString := fun uniqueType : string => uniqueType;
   TestHelper.build := fun query =>
     match query with
     | TestHelper.MatchWhereAnyLabelDetachDelete labels =>
       "MATCH (this0) WHERE "
         +:+ String.concat " OR " ((fun label => "this0:" +:+ label) <$> labels)
         +:+ " DETACH DELETE this0"
     end |}.

(** The same imports with a server that cannot be reached. *)
Definition unreachable : @TestHelper.Imports Fixture7.types types :=
{| TestHelper.env := fun _ => None;
   TestHelper.auth_basic := fun user password => (user, password);
   TestHelper.neo4j_driver := fun (url : string) _ => Return url;
   TestHelper.verifyConnectivity := fun _ _ => Throw "Connection refused";
   TestHelper.driver_close := fun _ => Return tt;
   TestHelper.executeQuery := fun _ _ _ => Return tt;
   TestHelper.newUniqueType := fun type : string => type;
   TestHelper.uniqueTypeToString := fun uniqueType : string => uniqueType;
   TestHelper.build := TestHelper.build (Imports := imports) |}.

(** No lock held, nothing done yet. *)
Definition world : @TestHelper.World Fixture7.types :=
{| TestHelper.helperLock := false; TestHelper.effects := [] |}.

End Fixture8.

(** * Properties *)

Example fixture_truths :
  truthsOn Fixture.graph (Fixture.target 0) Fixture.pat Fixture.titleIsA
  = Return [Some true; Some false].
Proof. vm_compute. reflexivity. Qed.

(** ** Facts about [createRelationshipSubqueryAndPredicate] *)

Section SubqueryFacts.

Variables (matchPattern : Pattern) (childNode : CypherNode)
          (returnVariables : list Var).

(** The nested call for "some" never calls again, so any fuel from two on
    gives the answer of the function. *)
Lemma createRelationshipSubqueryAndPredicate_fuel_enough
    (fuel : nat) listPredicateStr innerOperation edgePredicate :
  2 <= fuel ->
  createRelationshipSubqueryAndPredicate_fuel fuel
    matchPattern listPredicateStr childNode innerOperation returnVariables edgePredicate
  = Some (createRelationshipSubqueryAndPredicate
            matchPattern listPredicateStr childNode innerOperation returnVariables
            edgePredicate).
Proof.
  intros Hfuel.
  destruct fuel as [|[|fuel]]; [lia | lia |].
  unfold createRelationshipSubqueryAndPredicate.
  destruct innerOperation as [inner|]; [|reflexivity].
  cbn [createRelationshipSubqueryAndPredicate_fuel].
  destruct (listPredicateStr =? "all")%string; [reflexivity|].
  destruct ((listPredicateStr =? "not") || (listPredicateStr =? "none"))%string;
    [reflexivity|].
  destruct (listPredicateStr =? "single")%string; [|reflexivity].
  destruct (truthy edgePredicate); reflexivity.
Qed.

Lemma subquery_undefined listPredicateStr edgePredicate :
  createRelationshipSubqueryAndPredicate
    matchPattern listPredicateStr childNode None returnVariables edgePredicate = None.
Proof. reflexivity. Qed.

Lemma subquery_all inner edgePredicate :
  createRelationshipSubqueryAndPredicate
    matchPattern "all" childNode (Some inner) returnVariables edgePredicate
  = Some (Cypher.and
            (Cypher.Exists (Cypher.where_ (Cypher.Match matchPattern) inner))
            (Cypher.not
               (Cypher.Exists
                  (Cypher.where_ (Cypher.Match matchPattern) (Cypher.not inner))))).
Proof. reflexivity. Qed.

Lemma subquery_some inner edgePredicate :
  createRelationshipSubqueryAndPredicate
    matchPattern "some" childNode (Some inner) returnVariables edgePredicate
  = Some (Cypher.Exists (Cypher.where_ (Cypher.Match matchPattern) inner)).
Proof. reflexivity. Qed.

Lemma subquery_none inner edgePredicate :
  createRelationshipSubqueryAndPredicate
    matchPattern "none" childNode (Some inner) returnVariables edgePredicate
  = Some (Cypher.not (Cypher.Exists (Cypher.where_ (Cypher.Match matchPattern) inner))).
Proof. reflexivity. Qed.

Lemma subquery_not inner edgePredicate :
  createRelationshipSubqueryAndPredicate
    matchPattern "not" childNode (Some inner) returnVariables edgePredicate
  = Some (Cypher.not (Cypher.Exists (Cypher.where_ (Cypher.Match matchPattern) inner))).
Proof. reflexivity. Qed.

Lemma subquery_single_size inner :
  createRelationshipSubqueryAndPredicate
    matchPattern "single" childNode (Some inner) returnVariables (Some true)
  = Some (Cypher.eq
            (Cypher.size
               (Cypher.pc_where
                  (Cypher.PatternComprehension matchPattern (Cypher.Literal (VInt 1)))
                  inner))
            (Cypher.Literal (VInt 1))).
Proof. reflexivity. Qed.

Lemma subquery_single_function inner edgePredicate :
  truthy edgePredicate = false ->
  createRelationshipSubqueryAndPredicate
    matchPattern "single" childNode (Some inner) returnVariables edgePredicate
  = Some (Cypher.single childNode
            (Cypher.PatternComprehension matchPattern
               (Cypher.VarRef (nodeVar childNode)))
            inner).
Proof.
  intros H. unfold createRelationshipSubqueryAndPredicate.
  cbn. rewrite H. reflexivity.
Qed.

End SubqueryFacts.

(** ** Facts about evaluation *)

Lemma filterM_mapM {A} (f : A -> Result (option bool)) (l : list A) ts :
  mapM f l = Return ts ->
  exists kept, filterM f l = Return kept /\ length kept = count_true ts.
Proof.
  revert ts. induction l as [|a l IH]; intros ts H; cbn in *.
  - inversion H; subst. exists []. split; reflexivity.
  - destruct (f a) as [msg|t]; cbn in *; [discriminate|].
    destruct (mapM f l) as [msg|ts']; cbn in *; [discriminate|].
    inversion H; subst.
    destruct (IH ts' eq_refl) as (kept & -> & Hlen). cbn.
    unfold count_true. cbn. destruct (is_true t); eexists; split; try reflexivity; cbn.
    + f_equal. exact Hlen.
    + exact Hlen.
Qed.

Lemma filterM_throw {A} (f : A -> Result (option bool)) (l : list A) msg :
  mapM f l = Throw msg -> filterM f l = Throw msg.
Proof.
  induction l as [|a l IH]; intros H; cbn in *; [discriminate|].
  destruct (f a) as [msg'|t]; cbn in *; [congruence|].
  destruct (mapM f l) as [msg'|ts']; cbn in *; [|discriminate].
  inversion H; subst. rewrite (IH eq_refl). reflexivity.
Qed.

Lemma mapM_const {A B} (b : B) (l : list A) :
  mapM (fun _ => Return b) l = Return (List.map (fun _ => b) l).
Proof. induction l as [|a l IH]; cbn; [reflexivity|]. rewrite IH. reflexivity. Qed.

(** [EXISTS { MATCH pattern WHERE p }] holds iff [p] is true on some row. *)
Lemma evalPredicate_exists g env pat p ts :
  truthsOn g env pat p = Return ts ->
  evalPredicate g env (Cypher.Exists (Cypher.where_ (Cypher.Match pat) p))
  = Return (Some (negb (Nat.eqb (count_true ts) 0))).
Proof.
  intros H. cbn.
  destruct (filterM_mapM _ _ _ H) as (kept & -> & Hlen). cbn. rewrite Hlen. reflexivity.
Qed.

Lemma truthsOn_not g env pat p ts :
  truthsOn g env pat p = Return ts ->
  truthsOn g env pat (Cypher.not p) = Return (List.map not3 ts).
Proof.
  unfold truthsOn. generalize (matchRows g env pat) as rows. intros rows. revert ts.
  induction rows as [|row rows IH]; intros ts H; cbn in *.
  - inversion H. reflexivity.
  - destruct (evalPredicate g row p) as [msg|t]; cbn in *; [discriminate|].
    destruct (mapM _ rows) as [msg|ts'] eqn:E; cbn in *; [discriminate|].
    inversion H; subst. rewrite (IH ts' eq_refl). reflexivity.
Qed.

Lemma count_true_existsb ts : negb (Nat.eqb (count_true ts) 0) = existsb is_true ts.
Proof.
  unfold count_true. induction ts as [|t ts IH]; cbn; [reflexivity|].
  destruct (is_true t); cbn; [reflexivity | exact IH].
Qed.

Lemma existsb_is_true_not3 ts : existsb is_true (List.map not3 ts) = existsb is_false ts.
Proof.
  induction ts as [|t ts IH]; cbn; [reflexivity|].
  rewrite IH. destruct t as [[|]|]; reflexivity.
Qed.

Lemma truthsOn_throw_exists g env pat p msg :
  truthsOn g env pat p = Throw msg ->
  evalPredicate g env (Cypher.Exists (Cypher.where_ (Cypher.Match pat) p)) = Throw msg.
Proof. intros H. cbn. rewrite (filterM_throw _ _ _ H). reflexivity. Qed.

Lemma evalPredicate_and g env p q :
  evalPredicate g env (Cypher.and p q)
  = do a <- evalPredicate g env p; do b <- evalPredicate g env q; Return (and3 a b).
Proof. reflexivity. Qed.

Lemma evalPredicate_not g env p :
  evalPredicate g env (Cypher.not p) = do a <- evalPredicate g env p; Return (not3 a).
Proof. reflexivity. Qed.

(** The quantifier "some": true iff the inner predicate is true on a row. *)
Lemma evalPredicate_some g env pat p :
  evalPredicate g env (Cypher.Exists (Cypher.where_ (Cypher.Match pat) p))
  = do ts <- truthsOn g env pat p; Return (Some (existsb is_true ts)).
Proof.
  destruct (truthsOn g env pat p) as [msg|ts] eqn:E.
  - rewrite (truthsOn_throw_exists _ _ _ _ _ E). reflexivity.
  - rewrite (evalPredicate_exists _ _ _ _ _ E), count_true_existsb. reflexivity.
Qed.

(** The quantifier "all": true iff the inner predicate is true on a row and
    false on none. *)
Lemma evalPredicate_all g env pat p :
  evalPredicate g env
    (Cypher.and (Cypher.Exists (Cypher.where_ (Cypher.Match pat) p))
                (Cypher.not (Cypher.Exists (Cypher.where_ (Cypher.Match pat) (Cypher.not p)))))
  = do ts <- truthsOn g env pat p;
    Return (Some (existsb is_true ts && negb (existsb is_false ts))).
Proof.
  rewrite evalPredicate_and, evalPredicate_not, !evalPredicate_some.
  destruct (truthsOn g env pat p) as [msg|ts] eqn:E; [reflexivity|].
  rewrite (truthsOn_not _ _ _ _ _ E). cbn. rewrite existsb_is_true_not3.
  destruct (existsb is_true ts), (existsb is_false ts); reflexivity.
Qed.

(** The quantifiers "none" and "not": true iff the inner predicate is true on
    no row. *)
Lemma evalPredicate_none g env pat p :
  evalPredicate g env
    (Cypher.not (Cypher.Exists (Cypher.where_ (Cypher.Match pat) p)))
  = do ts <- truthsOn g env pat p; Return (Some (negb (existsb is_true ts))).
Proof.
  rewrite evalPredicate_not, evalPredicate_some.
  destruct (truthsOn g env pat p); reflexivity.
Qed.

Lemma truthsOn_no_rows g env pat p :
  matchRows g env pat = [] -> truthsOn g env pat p = Return [].
Proof. unfold truthsOn. intros ->. reflexivity. Qed.

(** ** The quantifier ALL *)

(** C1: for a relationship filter compiled with the list predicate "all"
    and a defined inner predicate, [createRelationshipSubqueryAndPredicate]
    returns the conjunction of [EXISTS] over the match with the predicate
    and [NOT EXISTS] over the match with the negated predicate; on a target
    with no related entity this conjunction evaluates to false. *)
Theorem all_filter_is_exists_and_not_exists_negated
    (matchPattern : Pattern) (childNode : CypherNode) (inner : Cypher.Predicate)
    (returnVariables : list Var) (edgePredicate : option bool)
    (g : Graph) (env : Env) :
  let p :=
    Cypher.and
      (Cypher.Exists (Cypher.where_ (Cypher.Match matchPattern) inner))
      (Cypher.not
         (Cypher.Exists (Cypher.where_ (Cypher.Match matchPattern) (Cypher.not inner)))) in
  createRelationshipSubqueryAndPredicate
    matchPattern "all" childNode (Some inner) returnVariables edgePredicate = Some p
  /\ (matchRows g env matchPattern = [] -> evalPredicate g env p = Return (Some false)).
Proof.
  intros p. split; [reflexivity|].
  intros Hrows. subst p. rewrite evalPredicate_all.
  rewrite (truthsOn_no_rows _ _ _ _ Hrows). reflexivity.
Qed.

Lemma all_filter_is_exists_and_not_exists_negated_witness :
  matchRows Fixture.graph (Fixture.target 2) Fixture.pat = []
  /\ (exists p,
        createRelationshipSubqueryAndPredicate
          Fixture.pat "all" Fixture.child (Some Fixture.titleIsA) [] None = Some p
        /\ evalPredicate Fixture.graph (Fixture.target 2) p = Return (Some false)).
Proof.
  split; [vm_compute; reflexivity|].
  destruct (all_filter_is_exists_and_not_exists_negated
              Fixture.pat Fixture.child Fixture.titleIsA [] None
              Fixture.graph (Fixture.target 2)) as [Hshape Hsem].
  eexists. split; [exact Hshape|]. apply Hsem. vm_compute. reflexivity.
Defined.

(** ** ALL against NONE *)

(** C2 as stated fails: an actor with a film titled "A" and a film titled
    "B", filtered on the title "A", satisfies neither the "all" nor the
    "none" predicate. *)
Lemma all_none_not_complements_on_mixed_target :
  ~ all_none_complements Fixture.graph (Fixture.target 0) Fixture.pat Fixture.child
      Fixture.titleIsA [].
Proof.
  intros (pa & pn & Ha & Hn & Hone).
  rewrite subquery_all in Ha. rewrite subquery_none in Hn.
  injection Ha as <-. injection Hn as <-.
  destruct Hone as [[Hall _] | [_ Hnone]].
  - vm_compute in Hall. discriminate Hall.
  - vm_compute in Hnone. discriminate Hnone.
Qed.

(** C2, amended: the predicates compiled for "all" and for "none" are never
    both true on a target, and exactly one of them is true precisely when
    the inner predicate evaluates on the related entities without failure
    and is not both true on one of them and false on another. *)
Theorem all_none_complements_unless_mixed
    (g : Graph) (env : Env) (matchPattern : Pattern) (childNode : CypherNode)
    (inner : Cypher.Predicate) (returnVariables : list Var) :
  exists pa pn,
    createRelationshipSubqueryAndPredicate
      matchPattern "all" childNode (Some inner) returnVariables None = Some pa
    /\ createRelationshipSubqueryAndPredicate
         matchPattern "none" childNode (Some inner) returnVariables None = Some pn
    /\ ~ (evalPredicate g env pa = Return (Some true)
          /\ evalPredicate g env pn = Return (Some true))
    /\ (exactly_one_true (evalPredicate g env pa) (evalPredicate g env pn)
        <-> exists ts, truthsOn g env matchPattern inner = Return ts
                       /\ existsb is_true ts && existsb is_false ts = false).
Proof.
  do 2 eexists. split; [apply subquery_all|]. split; [apply subquery_none|].
  rewrite evalPredicate_all, evalPredicate_none. unfold exactly_one_true.
  destruct (truthsOn g env matchPattern inner) as [msg|ts]; cbn.
  - split; [intros [H _]; discriminate H|].
    split.
    + intros [[H _] | [_ H]]; discriminate H.
    + intros (ts & H & _). discriminate H.
  - split.
    { intros [H1 H2]. destruct (existsb is_true ts); cbn in *; congruence. }
    split.
    + intros H. exists ts. split; [reflexivity|].
      destruct (existsb is_true ts), (existsb is_false ts); cbn in *;
        try reflexivity; destruct H as [[H1 H2] | [H1 H2]]; congruence.
    + intros (ts' & H1 & H2). injection H1 as <-.
      destruct (existsb is_true ts), (existsb is_false ts); cbn in *;
        try discriminate H2.
      * left. split; congruence.
      * right. split; congruence.
      * right. split; congruence.
Qed.

Lemma all_none_complements_unless_mixed_witness :
  exists pa pn,
    createRelationshipSubqueryAndPredicate
      Fixture.pat "all" Fixture.child (Some Fixture.titleIsA) [] None = Some pa
    /\ createRelationshipSubqueryAndPredicate
         Fixture.pat "none" Fixture.child (Some Fixture.titleIsA) [] None = Some pn
    /\ exactly_one_true (evalPredicate Fixture.graph (Fixture.target 1) pa)
                        (evalPredicate Fixture.graph (Fixture.target 1) pn).
Proof.
  destruct (all_none_complements_unless_mixed
              Fixture.graph (Fixture.target 1) Fixture.pat Fixture.child
              Fixture.titleIsA []) as (pa & pn & Ha & Hn & _ & Hiff).
  exists pa, pn. split; [exact Ha|]. split; [exact Hn|].
  apply Hiff. eexists. split; vm_compute; reflexivity.
Defined.

(** ** The quantifier SINGLE *)

Lemma filterM_no_where g (rows : list Env) :
  filterM (fun row => evalWhere g row Cypher.NoWhere) rows = Return rows.
Proof.
  induction rows as [|row rows IH]; cbn in *; [reflexivity|]. rewrite IH. reflexivity.
Qed.

Lemma eq3_count (n : nat) :
  eq3 (VInt (Z.of_nat n)) (VInt 1) = Some (n =? 1)%nat.
Proof.
  cbn. f_equal. destruct (Nat.eqb_spec n 1) as [->|Hne].
  - reflexivity.
  - apply bool_decide_eq_false. intros H. injection H as H. lia.
Qed.

(** [size([pattern WHERE p | 1]) = 1] counts the rows on which [p] is true. *)
Lemma evalPredicate_size_eq_one g env pat p ts :
  truthsOn g env pat p = Return ts ->
  evalPredicate g env
    (Cypher.eq
       (Cypher.size
          (Cypher.pc_where (Cypher.PatternComprehension pat (Cypher.Literal (VInt 1))) p))
       (Cypher.Literal (VInt 1)))
  = Return (Some (count_true ts =? 1)%nat).
Proof.
  intros H. cbn.
  destruct (filterM_mapM _ _ _ H) as (kept & -> & Hlen). cbn.
  rewrite mapM_const. cbn. rewrite length_map, Hlen.
  change (Some (bool_decide (VInt (Z.of_nat (count_true ts)) = VInt 1)))
    with (eq3 (VInt (Z.of_nat (count_true ts))) (VInt 1)).
  rewrite eq3_count. reflexivity.
Qed.

Lemma single3_definite ts :
  existsb is_unknown ts = false -> single3 ts = Some (count_true ts =? 1)%nat.
Proof.
  intros H. unfold single3. rewrite H.
  destruct (Nat.leb_spec 2 (count_true ts)) as [Hge|Hlt]; [|reflexivity].
  f_equal. symmetry. apply Nat.eqb_neq. lia.
Qed.

Lemma evalPredicate_single g env v pc q :
  evalPredicate g env (Cypher.single v pc q)
  = do elems <- evalComprehension g env pc;
    do ts <- mapM (fun x => evalPredicate g (<[nodeVar v := x]> env) q) elems;
    Return (single3 ts).
Proof. reflexivity. Qed.

Lemma evalComprehension_rows g env pat e w :
  evalComprehension g env (Cypher.MkPatternComprehension pat e w)
  = do rows <- filterM (fun row => evalWhere g row w) (matchRows g env pat);
    mapM (fun row => evalExpr g row e) rows.
Proof. reflexivity. Qed.

(** The elements of [[pattern | child]] and the inner predicate on them. *)
Lemma comprehension_elements g env (v : Var) p (rows : list Env) :
  Forall (fun row =>
            exists x, row !! v = Some x
                      /\ evalPredicate g (<[v := x]> env) p = evalPredicate g row p) rows ->
  exists elems,
    mapM (fun row => evalExpr g row (Cypher.VarRef v)) rows = Return elems
    /\ mapM (fun x => evalPredicate g (<[v := x]> env) p) elems
       = mapM (fun row => evalPredicate g row p) rows.
Proof.
  induction 1 as [|row rows (x & Hx & Heval) _ (elems & Helems & Hts)].
  - exists []. split; reflexivity.
  - exists (x :: elems). split.
    + cbn. rewrite Hx. cbn. cbn in Helems. rewrite Helems. reflexivity.
    + cbn. rewrite Heval, Hts. reflexivity.
Qed.

(** [single(child IN [pattern | child] WHERE p)] on an edge-independent [p]. *)
Lemma evalPredicate_single_function g env pat child p ts :
  truthsOn g env pat p = Return ts ->
  edgeIndependent g env pat child p ->
  evalPredicate g env
    (Cypher.single child (Cypher.PatternComprehension pat (Cypher.VarRef (nodeVar child))) p)
  = Return (single3 ts).
Proof.
  unfold truthsOn, edgeIndependent. intros Hts Hind.
  rewrite evalPredicate_single. unfold Cypher.PatternComprehension.
  rewrite evalComprehension_rows, filterM_no_where.
  destruct (comprehension_elements _ _ _ _ _ Hind) as (elems & Helems & Hsame).
  cbn [rbind]. rewrite Helems. cbn [rbind]. rewrite Hsame, Hts. reflexivity.
Qed.




(** ** Predicates that do not read the relationship *)

Lemma bindVar_insert (x v : Var) (a val : Value) (env : Env) :
  x <> v ->
  bindVar v val (<[x := a]> env) = insert x a <$> bindVar v val env.
Proof.
  intros Hne. unfold bindVar. rewrite lookup_insert_ne by exact Hne.
  destruct (env !! v) as [y|].
  - destruct (decide (y = val)); reflexivity.
  - cbn. f_equal. apply insert_insert_ne. congruence.
Qed.

Lemma matchEndpoint_insert g opts cn id (x : Var) (a : Value) (env : Env) :
  x <> nodeVar cn ->
  matchEndpoint g opts cn id (<[x := a]> env)
  = insert x a <$> matchEndpoint g opts cn id env.
Proof.
  intros Hne. unfold matchEndpoint. destruct (graphNodes g !! id); [|reflexivity].
  destruct (_ && _); [reflexivity|].
  destruct (enabled (opt_variable opts)); [|reflexivity].
  apply bindVar_insert. exact Hne.
Qed.

Lemma matchEdge_insert g pat (x : Var) (a : Value) (env : Env) ie :
  x ∉ patternVars pat ->
  matchEdge g pat (<[x := a]> env) ie = insert x a <$> matchEdge g pat env ie.
Proof.
  unfold patternVars. intros Hx.
  assert (x <> relVar (pat_relationship pat)
          /\ x <> nodeVar (source (pat_relationship pat))
          /\ x <> nodeVar (target (pat_relationship pat))) as (Hr & Hs & Ht).
  { repeat split; intros ->; apply Hx; set_solver. }
  unfold matchEdge. destruct (negb _); [reflexivity|].
  rewrite matchEndpoint_insert by exact Hs.
  destruct (matchEndpoint g (pat_source pat) _ _ env) as [env1|]; [|reflexivity]. cbn.
  rewrite matchEndpoint_insert by exact Ht.
  destruct (matchEndpoint g (pat_target pat) _ _ env1) as [env2|]; [|reflexivity]. cbn.
  destruct (enabled _); [|reflexivity].
  apply bindVar_insert. exact Hr.
Qed.

Lemma matchRows_insert g pat (x : Var) (a : Value) (env : Env) :
  x ∉ patternVars pat ->
  matchRows g (<[x := a]> env) pat = insert x a <$> matchRows g env pat.
Proof.
  intros Hx. unfold matchRows.
  induction (imap (fun i e => (i, e)) (graphEdges g)) as [|ie l IH]; [reflexivity|].
  cbn [omap list_omap]. rewrite (matchEdge_insert _ _ _ _ _ _ Hx), IH.
  destruct (matchEdge g pat env ie); reflexivity.
Qed.

Lemma filterM_fmap {A} (h : A -> A) (f f' : A -> Result (option bool)) (l : list A) :
  (forall a, f' (h a) = f a) ->
  filterM f' (h <$> l) = rbind (filterM f l) (fun kept => Return (h <$> kept)).
Proof.
  intros Hf. induction l as [|a l IH]; [reflexivity|].
  cbn [fmap list_fmap filterM]. rewrite Hf.
  destruct (f a) as [|t]; [reflexivity|]. cbn [rbind].
  fold (fmap h l). rewrite IH.
  destruct (filterM f l) as [|kept]; [reflexivity|]. cbn.
  destruct (is_true t); reflexivity.
Qed.

Lemma mapM_fmap {A B} (h : A -> A) (f f' : A -> Result B) (l : list A) :
  (forall a, f' (h a) = f a) -> mapM f' (h <$> l) = mapM f l.
Proof.
  intros Hf. induction l as [|a l IH]; [reflexivity|].
  cbn [fmap list_fmap mapM]. rewrite Hf. fold (fmap h l). rewrite IH. reflexivity.
Qed.

Lemma mapM_ext {A B} (f f' : A -> Result B) (l : list A) :
  (forall a, f' a = f a) -> mapM f' l = mapM f l.
Proof.
  intros Hf. induction l as [|a l IH]; [reflexivity|].
  cbn. rewrite Hf, IH. reflexivity.
Qed.

(** A binding of a variable that a predicate does not mention is of no
    consequence to its value. *)
Lemma eval_unmentioned g (x : Var) (a : Value) :
  (forall p (env : Env), mentionsPredicate x p = false ->
     evalPredicate g (<[x := a]> env) p = evalPredicate g env p)
  /\ (forall e (env : Env), mentionsExpr x e = false ->
        evalExpr g (<[x := a]> env) e = evalExpr g env e)
  /\ (forall pc (env : Env), mentionsComprehension x pc = false ->
        evalComprehension g (<[x := a]> env) pc = evalComprehension g env pc)
  /\ (forall m (env : Env), mentionsMatch x m = false ->
        evalMatch g (<[x := a]> env) m
        = rbind (evalMatch g env m) (fun rows => Return (insert x a <$> rows)))
  /\ (forall w (env : Env), mentionsWhere x w = false ->
        evalWhere g (<[x := a]> env) w = evalWhere g env w).
Proof.
  apply cypher_mutind.
  - intros l IHl r IHr env H. cbn in H. apply orb_false_iff in H as [Hl Hr].
    cbn. rewrite (IHl env Hl), (IHr env Hr). reflexivity.
  - intros q IH env H. cbn in *. rewrite (IH env H). reflexivity.
  - intros q1 IH1 q2 IH2 env H. cbn in H. apply orb_false_iff in H as [H1 H2].
    cbn. rewrite (IH1 env H1), (IH2 env H2). reflexivity.
  - intros q1 IH1 q2 IH2 env H. cbn in H. apply orb_false_iff in H as [H1 H2].
    cbn. rewrite (IH1 env H1), (IH2 env H2). reflexivity.
  - intros m IH env H. cbn in H.
    change (evalPredicate g (<[x:=a]> env) (Cypher.Exists m))
      with (rbind (evalMatch g (<[x:=a]> env) m)
              (fun rows => Return (Some (negb (Nat.eqb (length rows) 0))))).
    rewrite (IH env H).
    change (evalPredicate g env (Cypher.Exists m))
      with (rbind (evalMatch g env m)
              (fun rows => Return (Some (negb (Nat.eqb (length rows) 0))))).
    destruct (evalMatch g env m) as [|rows]; [reflexivity|]. cbn.
    rewrite length_fmap. reflexivity.
  - intros v pc IHpc q IHq env H. cbn in H.
    apply orb_false_iff in H as [H Hq]. apply orb_false_iff in H as [Hv Hpc].
    apply bool_decide_eq_false in Hv.
    rewrite !evalPredicate_single. rewrite (IHpc env Hpc).
    destruct (evalComprehension g env pc) as [|elems]; [reflexivity|]. cbn [rbind].
    rewrite (mapM_ext (fun x0 => evalPredicate g (<[nodeVar v:=x0]> env) q)
               (fun x0 => evalPredicate g (<[nodeVar v:=x0]> (<[x:=a]> env)) q)).
    + reflexivity.
    + intros x0. rewrite insert_insert_ne by congruence. apply IHq. exact Hq.
  - intros q IH message env H. cbn in *. rewrite (IH env H). reflexivity.
  - intros v env _. reflexivity.
  - intros v env _. reflexivity.
  - intros v env H. cbn in H. apply bool_decide_eq_false in H.
    cbn. rewrite lookup_insert_ne by exact H. reflexivity.
  - intros v key env H. cbn in H. apply bool_decide_eq_false in H.
    cbn. rewrite lookup_insert_ne by exact H. reflexivity.
  - intros pc IH env H. cbn in H.
    change (evalExpr g (<[x:=a]> env) (Cypher.size pc))
      with (rbind (evalComprehension g (<[x:=a]> env) pc)
              (fun elems => Return (VInt (Z.of_nat (length elems))))).
    rewrite (IH env H). reflexivity.
  - intros e IH env H. reflexivity.
  - intros pat mapExpr IHe w IHw env H. cbn in H.
    apply orb_false_iff in H as [H Hw]. apply orb_false_iff in H as [Hpat He].
    apply bool_decide_eq_false in Hpat.
    rewrite !evalComprehension_rows. rewrite (matchRows_insert _ _ _ _ _ Hpat).
    rewrite (filterM_fmap (insert x a) (fun row => evalWhere g row w)).
    + destruct (filterM _ (matchRows g env pat)) as [|kept]; [reflexivity|]. cbn [rbind].
      apply mapM_fmap. intros row. apply IHe. exact He.
    + intros row. apply IHw. exact Hw.
  - intros pat w IHw env H. cbn in H.
    apply orb_false_iff in H as [Hpat Hw]. apply bool_decide_eq_false in Hpat.
    cbn [evalMatch]. rewrite (matchRows_insert _ _ _ _ _ Hpat).
    apply filterM_fmap. intros row. apply IHw. exact Hw.
  - intros env _. reflexivity.
  - intros p IH env H. cbn in *. apply IH. exact H.
Qed.

Lemma bindVar_fresh v x (env : Env) :
  env !! v = None -> bindVar v x env = Some (<[v := x]> env).
Proof. unfold bindVar. intros ->. reflexivity. Qed.

Lemma bindVar_bound v x y (env : Env) :
  env !! v = Some y -> bindVar v x env = if decide (y = x) then Some env else None.
Proof. unfold bindVar. intros ->. reflexivity. Qed.

(** For the pattern of a relationship filter, on a target entity that binds
    the parent and neither the child nor the relationship, an inner
    predicate that does not mention the relationship variable is
    edge-independent. *)
Lemma edge_free_inner_edgeIndependent g (env : Env) relationField parentNode childNode
    rv inner pid :
  env !! nodeVar parentNode = Some (VNode pid) ->
  env !! nodeVar childNode = None ->
  env !! rv = None ->
  rv <> nodeVar childNode ->
  mentionsPredicate rv inner = false ->
  edgeIndependent g env (relationshipPattern relationField parentNode childNode rv)
    childNode inner.
Proof.
  intros Hparent Hchild Hrv Hne Hfree.
  assert (Hpc : nodeVar parentNode <> nodeVar childNode) by congruence.
  unfold edgeIndependent. apply Forall_forall. intros row Hrow.
  unfold matchRows in Hrow. apply list_elem_of_omap in Hrow as ([i e] & _ & Hedge).
  assert (Hshape : exists id,
             row = <[rv := VEdge i]> (<[nodeVar childNode := VNode id]> env)).
  { unfold matchEdge, relationshipPattern in Hedge.
    destruct (direction relationField); cbn in Hedge;
      destruct (negb _); try discriminate; unfold matchEndpoint in Hedge; cbn in Hedge.
    - destruct (graphNodes g !! edgeSource e) as [gs|]; [|discriminate].
      destruct (negb (hasLabels gs (labels childNode))); [discriminate|].
      cbn in Hedge. rewrite (bindVar_fresh _ _ _ Hchild) in Hedge.
      destruct (graphNodes g !! edgeTarget e) as [gt|]; [|discriminate].
      rewrite (bindVar_bound (nodeVar parentNode) _ (VNode pid)) in Hedge
        by (rewrite lookup_insert_ne by congruence; exact Hparent).
      destruct (decide (VNode pid = VNode (edgeTarget e))); [|discriminate].
      rewrite bindVar_fresh in Hedge
        by (rewrite lookup_insert_ne by congruence; exact Hrv).
      injection Hedge as <-. exists (edgeSource e). reflexivity.
    - destruct (graphNodes g !! edgeSource e) as [gs|]; [|discriminate].
      rewrite (bindVar_bound _ _ _ _ Hparent) in Hedge.
      destruct (decide (VNode pid = VNode (edgeSource e))); [|discriminate].
      destruct (graphNodes g !! edgeTarget e) as [gt|]; [|discriminate].
      destruct (negb (hasLabels gt (labels childNode))); [discriminate|].
      cbn in Hedge. rewrite (bindVar_fresh _ _ _ Hchild) in Hedge.
      rewrite bindVar_fresh in Hedge
        by (rewrite lookup_insert_ne by congruence; exact Hrv).
      injection Hedge as <-. exists (edgeTarget e). reflexivity. }
  destruct Hshape as (id & ->). exists (VNode id). split.
  - rewrite lookup_insert_ne by exact Hne. apply lookup_insert_eq.
  - symmetry. apply (proj1 (eval_unmentioned g rv (VEdge i))). exact Hfree.
Qed.

(** ** Facts about [createRelationshipOperation] *)

Section OperationFacts.

Variable getListPredicate : option string -> string.
Variable createWherePredicate : WherePredicateArgs -> Translate WherePredicateResult.

Lemma createRelationshipOperation_throws relationField context parentNode
    operator value isNot n :
  findRefNode relationField context = None ->
  createRelationshipOperation getListPredicate createWherePredicate
    relationField context parentNode operator value isNot n
  = Throw "Relationship filters must reference nodes".
Proof.
  unfold findRefNode, createRelationshipOperation. intros ->. reflexivity.
Qed.

Lemma createRelationshipOperation_pattern relationField parentNode childNode n :
  pattern
    {| relVar := Anon n;
       source := if decide (direction relationField = IN) then childNode else parentNode;
       target := if decide (direction relationField = IN) then parentNode else childNode;
       type := rf_type relationField |}
    (if decide (direction relationField = IN)
     then {| opt_variable := Some true; opt_labels := None |}
     else {| opt_variable := None; opt_labels := Some false |})
    (if decide (direction relationField = IN)
     then {| opt_variable := None; opt_labels := Some false |}
     else {| opt_variable := Some true; opt_labels := None |})
    {| opt_variable := Some true; opt_labels := None |}
  = relationshipPattern relationField parentNode childNode (Anon n).
Proof.
  unfold relationshipPattern. destruct (direction relationField); reflexivity.
Qed.

(** The filter on [null]. *)
Lemma createRelationshipOperation_null relationField context parentNode
    operator isNot n refNode :
  findRefNode relationField context = Some refNode ->
  let childNode := {| nodeVar := Anon n; labels := getLabels refNode context |} in
  let matchPattern := relationshipPattern relationField parentNode childNode (Anon (S n)) in
  createRelationshipOperation getListPredicate createWherePredicate
    relationField context parentNode operator JNull isNot n
  = Return ({| predicate :=
                 Some (if isNot then Cypher.Exists (Cypher.Match matchPattern)
                       else Cypher.not (Cypher.Exists (Cypher.Match matchPattern)));
               preComputedSubquery := None |}, S (S n)).
Proof.
  unfold findRefNode, createRelationshipOperation. intros ->. cbn.
  rewrite createRelationshipOperation_pattern. destruct isNot; reflexivity.
Qed.

(** The filter on a value other than [null]. *)
Lemma createRelationshipOperation_value relationField context parentNode
    operator value isNot n refNode :
  findRefNode relationField context = Some refNode ->
  is_null value = false ->
  let childNode := {| nodeVar := Anon n; labels := getLabels refNode context |} in
  let matchPattern := relationshipPattern relationField parentNode childNode (Anon (S n)) in
  let listPredicateStr :=
    if (getListPredicate operator =? "any")%string
       && negb (tm_array (typeMeta relationField))
    then "single" else getListPredicate operator in
  createRelationshipOperation getListPredicate createWherePredicate
    relationField context parentNode operator value isNot n
  = match createWherePredicate
            {| wp_whereInput := value; wp_targetElement := childNode;
               wp_element := refNode; wp_context := context;
               wp_listPredicateStr := listPredicateStr |} (S (S n)) with
    | Throw msg => Throw msg
    | Return (r, n') =>
      let predicate :=
        createRelationshipSubqueryAndPredicate
          matchPattern listPredicateStr childNode (wp_predicate r)
          (wp_returnVariables r) None in
      Return
        (if negb (Nat.eqb (length (wp_returnVariables r)) 0)
         then {| predicate := predicate;
                 preComputedSubquery :=
                   Some (Cypher.concat
                           [Some (Cypher.OptionalMatch matchPattern);
                            wp_preComputedSubqueries r;
                            Some (Cypher.With (nodeVar parentNode)
                                    (List.map
                                       (fun returnVar =>
                                          (Cypher.collect (Cypher.VarRef returnVar),
                                           returnVar))
                                       (wp_returnVariables r)))]) |}
         else {| predicate := predicate;
                 preComputedSubquery := wp_preComputedSubqueries r |}, n')
    end.
Proof.
  unfold findRefNode, createRelationshipOperation. intros -> Hnull. cbn.
  rewrite createRelationshipOperation_pattern, Hnull.
  unfold bind.
  destruct (createWherePredicate _ _) as [msg|[r n']]; [reflexivity|].
  destruct (negb _); reflexivity.
Qed.

End OperationFacts.

(** ** Filters on [null] and on to-one relationships *)

(** [EXISTS { MATCH pattern }] holds iff the pattern has a row. *)
Lemma evalPredicate_exists_pattern g env pat :
  evalPredicate g env (Cypher.Exists (Cypher.Match pat))
  = Return (Some (negb (Nat.eqb (length (matchRows g env pat)) 0))).
Proof.
  cbn. change (fun row : Env => Return (Some true))
         with (fun row : Env => evalWhere g row Cypher.NoWhere).
  rewrite filterM_no_where. reflexivity.
Qed.

(** C8: a relationship filter whose value is [null] compiles to an existence
    check on the relationship pattern alone: [NOT EXISTS { MATCH pattern }]
    for the plain filter and [EXISTS { MATCH pattern }] for the negated
    one.  The match carries no [WHERE], nothing is precomputed, and the
    compiler of nested filters has no part in the result. *)
Theorem null_filter_is_existence_check
    (getListPredicate : option string -> string)
    (createWherePredicate : WherePredicateArgs -> Translate WherePredicateResult)
    (relationField : RelationField) (context : Context) (parentNode : CypherNode)
    (operator : option string) (isNot : bool) (n : nat) (refNode : Node) :
  findRefNode relationField context = Some refNode ->
  let childNode := {| nodeVar := Anon n; labels := getLabels refNode context |} in
  let matchPattern := relationshipPattern relationField parentNode childNode (Anon (S n)) in
  let exists_ := Cypher.Exists (Cypher.MkMatch matchPattern Cypher.NoWhere) in
  exists res,
    createRelationshipOperation getListPredicate createWherePredicate
      relationField context parentNode operator JNull isNot n = Return (res, S (S n))
    /\ predicate res = Some (if isNot then exists_ else Cypher.not exists_)
    /\ preComputedSubquery res = None
    /\ (forall getListPredicate' createWherePredicate',
          createRelationshipOperation getListPredicate' createWherePredicate'
            relationField context parentNode operator JNull isNot n
          = Return (res, S (S n)))
    /\ (forall g env,
          evalPredicate g env (if isNot then exists_ else Cypher.not exists_)
          = Return (Some (if isNot
                          then negb (Nat.eqb (length (matchRows g env matchPattern)) 0)
                          else Nat.eqb (length (matchRows g env matchPattern)) 0))).
Proof.
  intros Hfind childNode matchPattern exists_.
  eexists. split.
  { apply createRelationshipOperation_null. exact Hfind. }
  split; [reflexivity|]. split; [reflexivity|]. split.
  - intros glp' cwp'. apply createRelationshipOperation_null. exact Hfind.
  - intros g env. subst exists_.
    change (Cypher.MkMatch matchPattern Cypher.NoWhere) with (Cypher.Match matchPattern).
    destruct isNot.
    + apply evalPredicate_exists_pattern.
    + rewrite evalPredicate_not, evalPredicate_exists_pattern. cbn.
      rewrite negb_involutive. reflexivity.
Qed.

Lemma null_filter_is_existence_check_witness :
  findRefNode Fixture2.actedIn Fixture2.context = Some Fixture2.Movie
  /\ exists res,
       createRelationshipOperation Fixture2.getListPredicate Fixture2.createWherePredicate
         Fixture2.actedIn Fixture2.context Fixture.this None JNull false 0
       = Return (res, 2)
       /\ predicate res
          = Some (Cypher.not (Cypher.Exists (Cypher.MkMatch Fixture.pat Cypher.NoWhere))).
Proof.
  split; [reflexivity|].
  destruct (null_filter_is_existence_check
              Fixture2.getListPredicate Fixture2.createWherePredicate
              Fixture2.actedIn Fixture2.context Fixture.this None false 0 Fixture2.Movie
              eq_refl) as (res & Hres & Hpred & _).
  exists res. split; [exact Hres | exact Hpred].
Defined.

(** C10: when the operator of a relationship filter maps to the list
    predicate "any" and the relationship field is not a list, the list
    predicate becomes "single" before the nested filter is compiled: the
    nested compiler is called with "single", and the predicate returned is
    the one [createRelationshipSubqueryAndPredicate] builds for "single",
    the cardinality function [single(...)] and not an [EXISTS]. *)
Theorem to_one_any_filter_is_single
    (getListPredicate : option string -> string)
    (createWherePredicate : WherePredicateArgs -> Translate WherePredicateResult)
    (relationField : RelationField) (context : Context) (parentNode : CypherNode)
    (operator : option string) (value : GraphQLWhereArg) (isNot : bool) (n : nat)
    (refNode : Node) (r : WherePredicateResult) (n' : nat) :
  findRefNode relationField context = Some refNode ->
  is_null value = false ->
  getListPredicate operator = "any" ->
  tm_array (typeMeta relationField) = false ->
  let childNode := {| nodeVar := Anon n; labels := getLabels refNode context |} in
  let matchPattern := relationshipPattern relationField parentNode childNode (Anon (S n)) in
  createWherePredicate
    {| wp_whereInput := value; wp_targetElement := childNode; wp_element := refNode;
       wp_context := context; wp_listPredicateStr := "single" |} (S (S n))
  = Return (r, n') ->
  exists res,
    createRelationshipOperation getListPredicate createWherePredicate
      relationField context parentNode operator value isNot n = Return (res, n')
    /\ predicate res
       = createRelationshipSubqueryAndPredicate
           matchPattern "single" childNode (wp_predicate r) (wp_returnVariables r) None
    /\ (forall inner,
          wp_predicate r = Some inner ->
          predicate res
          = Some (Cypher.single childNode
                    (Cypher.PatternComprehension matchPattern
                       (Cypher.VarRef (nodeVar childNode)))
                    inner)).
Proof.
  intros Hfind Hnull Hany Harray childNode matchPattern Hwhere.
  pose proof (createRelationshipOperation_value getListPredicate createWherePredicate
                relationField context parentNode operator value isNot n refNode
                Hfind Hnull) as Hop.
  cbv zeta in Hop. rewrite Hany, Harray in Hop.
  change (if ("any" =? "any")%string && negb false then "single" else "any")
    with "single" in Hop.
  subst childNode matchPattern. rewrite Hwhere in Hop.
  eexists. split; [exact Hop|].
  split.
  - destruct (negb _); reflexivity.
  - intros inner Hinner. destruct (negb _); cbn [predicate]; rewrite Hinner; reflexivity.
Qed.

Lemma to_one_any_filter_is_single_witness :
  exists res,
    createRelationshipOperation Fixture2.getListPredicate Fixture2.createWherePredicate
      Fixture2.currentlyActingIn Fixture2.context Fixture.this (Some "SOME")
      (JObj [("title", JStr "A")]) false 0 = Return (res, 2)
    /\ predicate res
       = Some (Cypher.single Fixture.child
                 (Cypher.PatternComprehension Fixture.pat (Cypher.VarRef (Anon 0)))
                 Fixture.titleIsA).
Proof.
  destruct (to_one_any_filter_is_single
              Fixture2.getListPredicate Fixture2.createWherePredicate
              Fixture2.currentlyActingIn Fixture2.context Fixture.this (Some "SOME")
              (JObj [("title", JStr "A")]) false 0 Fixture2.Movie
              {| wp_predicate := Some Fixture.titleIsA;
                 wp_preComputedSubqueries := None; wp_returnVariables := [] |} 2
              eq_refl eq_refl eq_refl eq_refl eq_refl) as (res & Hres & _ & Hsingle).
  exists res. split; [exact Hres|]. exact (Hsingle _ eq_refl).
Defined.

(** ** Authorization predicates in [createEdgeSubquery] *)

Lemma and3_true_l t : and3 (Some true) t = t.
Proof. destruct t as [[|]|]; reflexivity. Qed.

Lemma and3_true_r t : and3 t (Some true) = t.
Proof. destruct t as [[|]|]; reflexivity. Qed.

Lemma is_true_not3 t : is_true (not3 t) = is_false t.
Proof. destruct t as [[|]|]; reflexivity. Qed.

Lemma rbind_return {A} (m : Result A) : (do x <- m; Return x) = m.
Proof. destruct m; reflexivity. Qed.

Lemma evalWhere_whereIfDefined g env pat w f :
  evalWhere g env (whereOf (whereIfDefined (whereIfDefined (Cypher.Match pat) w) f))
  = do tw <- evalOptional g env w; do tf <- evalOptional g env f; Return (and3 tw tf).
Proof.
  destruct w as [w|], f as [f|]; cbn.
  - reflexivity.
  - destruct (evalPredicate g env w) as [|[[|]|]]; reflexivity.
  - destruct (evalPredicate g env f) as [|[[|]|]]; reflexivity.
  - reflexivity.
Qed.

Lemma evalWhere_addWhere g env w p :
  evalWhere g env (Cypher.addWhere w p)
  = do t0 <- evalWhere g env w; do t <- evalPredicate g env p; Return (and3 t0 t).
Proof.
  destruct w as [|q]; [|reflexivity].
  cbn. destruct (evalPredicate g env p) as [|[[|]|]]; reflexivity.
Qed.

Lemma whereOf_where_ m p : whereOf (Cypher.where_ m p) = Cypher.addWhere (whereOf m) p.
Proof. destruct m; reflexivity. Qed.

Lemma evalPredicate_validate_not g env a msg :
  evalPredicate g env (Cypher.ValidatePredicate (Cypher.not a) msg)
  = do ta <- evalPredicate g env a;
    if is_false ta then Throw msg else Return (Some true).
Proof.
  cbn. destruct (evalPredicate g env a) as [|ta]; cbn; [reflexivity|].
  rewrite is_true_not3. reflexivity.
Qed.

(** On a row, the filter rule is one more conjunct of the [WHERE], while
    the validate rule leaves its truth value alone and raises when the rule
    is false. *)
Lemma evalWhere_edgeSubqueryWhere g env pat w f a :
  evalWhere g env (whereOf (edgeSubqueryWhere w f a pat))
  = do tw <- evalOptional g env w;
    do tf <- evalOptional g env f;
    do ta <- evalOptional g env a;
    if is_false ta then Throw AUTH_FORBIDDEN_ERROR else Return (and3 tw tf).
Proof.
  unfold edgeSubqueryWhere. destruct a as [a|].
  - rewrite whereOf_where_, evalWhere_addWhere, evalWhere_whereIfDefined,
      evalPredicate_validate_not.
    cbn [evalOptional].
    destruct (evalOptional g env w) as [|tw]; cbn; [reflexivity|].
    destruct (evalOptional g env f) as [|tf]; cbn; [reflexivity|].
    destruct (evalPredicate g env a) as [|ta]; cbn; [reflexivity|].
    destruct (is_false ta); cbn; [reflexivity|].
    rewrite and3_true_r. reflexivity.
  - rewrite evalWhere_whereIfDefined. cbn.
    destruct (evalOptional g env w) as [|tw]; cbn; [reflexivity|].
    destruct (evalOptional g env f) as [|tf]; reflexivity.
Qed.

(** C5: in the match clause of [createEdgeSubquery] the predicate of the
    filter rule is AND-ed into the [WHERE] as it is, so that on a row it is
    one more conjunct of the filter; the predicate of the validate rule
    enters only negated inside the assertion [ValidatePredicate] with the
    message "Forbidden": it raises that failure when the rule is false on
    the row and otherwise leaves the truth value of the [WHERE] to the
    filters alone. *)
Theorem filter_rule_narrows_validate_rule_asserts
    (ResolveTree : Type)
    (getOrCreateCypherNode : string -> CypherNode)
    (getPattern : CypherRelationship -> RelationField -> ResolveTree -> Pattern)
    (createConnectionWherePropertyOperation :
       Context -> GraphQLWhereArg -> CypherRelationship -> CypherNode -> Node ->
       option Relationship -> Translate (option Cypher.Predicate))
    (createAuthPredicates :
       string -> Node -> Context -> AuthRule -> Translate (option Cypher.Predicate))
    (createEdgeProjection :
       ResolveTree -> ConnectionField -> CypherRelationship -> Node -> Var -> Context ->
       Cypher.Expr)
    (resolveTree : ResolveTree) (field : ConnectionField) (context : Context)
    (parentNode : string) (relatedNode : Node) (returnVariable : Var)
    (whereInput : option GraphQLWhereArg) (n n1 n2 n3 : nat)
    (w f a : option Cypher.Predicate) :
  let relatedNodeRef :=
    {| nodeVar := Named (parentNode ++ "_" ++ name relatedNode);
       labels := getLabels relatedNode context |} in
  let relationshipRef :=
    {| relVar := Anon n; source := getOrCreateCypherNode parentNode;
       target := relatedNodeRef; type := rf_type (cf_relationship field) |} in
  match whereInput with
  | Some whereInput' =>
    if isTruthy whereInput'
    then
      createConnectionWherePropertyOperation context whereInput' relationshipRef
        relatedNodeRef relatedNode
        (List.find (fun r => (rel_name r =? relationshipTypeName field)%string)
                   (relationships context)) (S n)
    else Return (None, S n)
  | None => Return (None, S n)
  end = Return (w, n1) ->
  createAuthPredicates "READ" relatedNode context (AuthWhere relatedNodeRef relatedNode) n1
  = Return (f, n2) ->
  createAuthPredicates "READ" relatedNode context (AuthAllow relatedNode relatedNodeRef) n2
  = Return (a, n3) ->
  exists m returning,
    createEdgeSubquery ResolveTree getOrCreateCypherNode getPattern
      createConnectionWherePropertyOperation createAuthPredicates createEdgeProjection
      resolveTree field context parentNode relatedNode returnVariable whereInput n
    = Return (Cypher.ClauseMatch m returning, n3)
    /\ m = whereIfDefined
             (whereIfDefined
                (whereIfDefined
                   (Cypher.Match (getPattern relationshipRef (cf_relationship field)
                                    resolveTree)) w) f)
             (option_map
                (fun allow => Cypher.ValidatePredicate (Cypher.not allow) "Forbidden") a)
    /\ (forall g row,
          evalWhere g row (whereOf m)
          = do tw <- evalOptional g row w;
            do tf <- evalOptional g row f;
            do ta <- evalOptional g row a;
            if is_false ta then Throw "Forbidden" else Return (and3 tw tf)).
Proof.
  intros relatedNodeRef relationshipRef Hw Hf Ha.
  exists (edgeSubqueryWhere w f a
            (getPattern relationshipRef (cf_relationship field) resolveTree)).
  eexists. split; [|split].
  - unfold createEdgeSubquery, bind, newRelationship, ret.
    fold relatedNodeRef. fold relationshipRef.
    destruct whereInput as [whereInput'|]; [destruct (isTruthy whereInput')|].
    + rewrite Hw, Hf, Ha. unfold edgeSubqueryWhere. destruct a; reflexivity.
    + injection Hw as <- <-. rewrite Hf, Ha. unfold edgeSubqueryWhere.
      destruct a; reflexivity.
    + injection Hw as <- <-. rewrite Hf, Ha. unfold edgeSubqueryWhere.
      destruct a; reflexivity.
  - unfold edgeSubqueryWhere. destruct a; reflexivity.
  - intros g row. apply evalWhere_edgeSubqueryWhere.
Qed.

Lemma filter_rule_narrows_validate_rule_asserts_witness :
  exists m returning,
    createEdgeSubquery unit Fixture3.getOrCreateCypherNode Fixture3.getPattern
      Fixture3.createConnectionWherePropertyOperation Fixture3.createAuthPredicates
      Fixture3.createEdgeProjection
      tt Fixture3.posts Fixture3.context "this" Fixture3.Post (Named "edge") None 0
    = Return (Cypher.ClauseMatch m returning, 1)
    /\ evalWhere Fixture3.graph (Fixture3.row 1) (whereOf m) = Return (Some true)
    /\ evalWhere Fixture3.graph (Fixture3.row 2) (whereOf m) = Return (Some false)
    /\ evalWhere Fixture3.graph (Fixture3.row 3) (whereOf m) = Throw "Forbidden".
Proof.
  destruct (filter_rule_narrows_validate_rule_asserts
              unit Fixture3.getOrCreateCypherNode Fixture3.getPattern
              Fixture3.createConnectionWherePropertyOperation
              Fixture3.createAuthPredicates Fixture3.createEdgeProjection
              tt Fixture3.posts Fixture3.context "this" Fixture3.Post (Named "edge")
              None 0 1 1 1 None _ _ eq_refl eq_refl eq_refl)
    as (m & returning & Hm & _ & Hsem).
  exists m, returning. split; [exact Hm|].
  rewrite !Hsem. vm_compute. repeat split.
Defined.

(** ** Filters on interface relationship fields *)

(** The query of the conformance test, [houses(where: { animals: { name:
    "Roxy" } })]: one [EXISTS] on [Dog], one on [Cat], joined by [OR]. *)
Example interface_filter_conformance :
  createInterfaceRelationshipOperation Fixture4.createWherePredicate
    Fixture4.animals Fixture4.context Fixture4.this [Fixture4.Dog; Fixture4.Cat]
    (JObj [("name", JStr "Roxy")]) SomeLevel 0
  = Return (Some (Cypher.or (Fixture4.branch 0 1 "Dog" "Roxy")
                            (Fixture4.branch 2 3 "Cat" "Roxy")), 4).
Proof. reflexivity. Qed.

Lemma interfaceBranches_some createWherePredicate relationField context parentNode
    implementations value :
  forall n branches n',
    interfaceBranches createWherePredicate relationField context parentNode
      implementations value "some" n = Return (branches, n') ->
    exists contributions,
      List.map c_type contributions = implementations
      /\ Forall (fun c => labels (c_node c) = getLabels (c_type c) context) contributions
      /\ branches = omap (contributionBranch relationField parentNode) contributions.
Proof.
  induction implementations as [|refNode rest IH]; intros n branches n' H.
  - injection H as <- <-. exists []. repeat split. constructor.
  - cbn [interfaceBranches] in H. unfold bind, newNode, newRelationship in H.
    cbn [relVar] in H.
    destruct (createWherePredicate _ _) as [msg|[r n1]]; [discriminate|].
    destruct (interfaceBranches _ _ _ _ rest _ _ n1) as [msg|[bs n2]] eqn:Erest;
      [discriminate|].
    destruct (IH _ _ _ Erest) as (cs & Hmap & Hlabels & Hbs).
    exists ({| c_type := refNode;
               c_node := {| nodeVar := Anon n; labels := getLabels refNode context |};
               c_rel := Anon (S n);
               c_inner := wp_predicate r |} :: cs).
    split; [cbn; rewrite Hmap; reflexivity|].
    split; [constructor; [reflexivity | exact Hlabels]|].
    unfold ret in H. injection H as <- <-.
    cbn [omap]. unfold contributionBranch at 1. cbn [c_inner c_node c_rel].
    destruct (wp_predicate r) as [inner|]; cbn; rewrite Hbs; reflexivity.
Qed.

Lemma interfaceBranches_some_contributions createWherePredicate relationField context
    parentNode implementations value :
  forall n branches n',
    interfaceBranches createWherePredicate relationField context parentNode
      implementations value "some" n = Return (branches, n') ->
    exists contributions,
      Contributions createWherePredicate context value "some" n implementations
        contributions n'
      /\ branches = omap (contributionBranch relationField parentNode) contributions.
Proof.
  induction implementations as [|refNode rest IH]; intros n branches n' H.
  - injection H as <- <-. exists []. split; [constructor | reflexivity].
  - cbn [interfaceBranches] in H. unfold bind, newNode, newRelationship in H.
    cbn [relVar] in H.
    destruct (createWherePredicate _ _) as [msg|[r n1]] eqn:Ewhere; [discriminate|].
    destruct (interfaceBranches _ _ _ _ rest _ _ n1) as [msg|[bs n2]] eqn:Erest;
      [discriminate|].
    destruct (IH _ _ _ Erest) as (cs & Hcs & Hbs).
    unfold ret in H. injection H as <- <-.
    eexists. split; [econstructor; [exact Ewhere | exact Hcs]|].
    cbn [omap]. unfold contributionBranch at 1. cbn [c_inner c_node c_rel].
    destruct (wp_predicate r) as [inner|]; cbn; rewrite Hbs; reflexivity.
Qed.

Lemma Contributions_types createWherePredicate context value listPredicateStr
    n implementations contributions n' :
  Contributions createWherePredicate context value listPredicateStr n implementations
    contributions n' ->
  List.map c_type contributions = implementations
  /\ Forall (fun c => labels (c_node c) = getLabels (c_type c) context) contributions.
Proof.
  induction 1 as [|n n1 n' refNode rest r cs Hwhere Hcs [IHmap IHlabels]].
  - split; [reflexivity | constructor].
  - split; [cbn; rewrite IHmap; reflexivity|].
    constructor; [reflexivity | exact IHlabels].
Qed.

Lemma evalPredicate_fold_or g env ps :
  forall p t ts,
    evalPredicate g env p = Return t ->
    mapM (evalPredicate g env) ps = Return ts ->
    evalPredicate g env (fold_left Cypher.or ps p) = Return (fold_left or3 ts t).
Proof.
  induction ps as [|q ps IH]; intros p t ts Hp Hps; cbn in Hps.
  - injection Hps as <-. exact Hp.
  - destruct (evalPredicate g env q) as [|tq] eqn:Eq; cbn in Hps; [discriminate|].
    destruct (mapM (evalPredicate g env) ps) as [|ts'] eqn:Eps; cbn in Hps; [discriminate|].
    injection Hps as <-. cbn [fold_left].
    apply IH; [|reflexivity]. cbn. rewrite Hp, Eq. reflexivity.
Qed.

Lemma fold_or3_true ts :
  forall t, fold_left or3 ts t = Some true <-> is_true t || existsb is_true ts = true.
Proof.
  induction ts as [|t' ts IH]; intros t; cbn.
  - rewrite orb_false_r. destruct t as [[|]|]; cbn; split; congruence.
  - rewrite IH. destruct t as [[|]|], t' as [[|]|]; cbn; tauto.
Qed.

(** C4: on an interface relationship field filtered at the level of SOME,
    every concrete implementing type contributes, in order, its own branch:
    the nested filter is compiled for a node of that type, and whenever it
    gives a predicate the branch is an [EXISTS] on the match of that node,
    which carries the labels of the type, with that predicate; no branch of
    a type is dropped.  The branches are joined by [OR]: the filter is true
    iff one of the branches is. *)
Theorem interface_filter_branches_joined_by_or
    (createWherePredicate : WherePredicateArgs -> Translate WherePredicateResult)
    (relationField : RelationField) (context : Context) (parentNode : CypherNode)
    (implementations : list Node) (value : GraphQLWhereArg)
    (n n' : nat) (branches : list Cypher.Predicate) :
  interfaceBranches createWherePredicate relationField context parentNode
    implementations value "some" n = Return (branches, n') ->
  createInterfaceRelationshipOperation createWherePredicate relationField context
    parentNode implementations value SomeLevel n = Return (or_list branches, n')
  /\ (exists contributions,
        List.map c_type contributions = implementations
        /\ Forall (fun c => labels (c_node c) = getLabels (c_type c) context)
                  contributions
        /\ Contributions createWherePredicate context value "some" n implementations
             contributions n'
        /\ branches = omap (contributionBranch relationField parentNode) contributions
        /\ (forall c inner,
              c ∈ contributions ->
              c_inner c = Some inner ->
              Cypher.Exists
                (Cypher.where_
                   (Cypher.Match
                      (relationshipPattern relationField parentNode (c_node c) (c_rel c)))
                   inner) ∈ branches))
  /\ (forall g env ts p,
        mapM (evalPredicate g env) branches = Return ts ->
        or_list branches = Some p ->
        (evalPredicate g env p = Return (Some true) <-> existsb is_true ts = true)).
Proof.
  intros H. split; [|split].
  - unfold createInterfaceRelationshipOperation, bind. cbn [levelPredicate].
    rewrite H. reflexivity.
  - destruct (interfaceBranches_some_contributions _ _ _ _ _ _ _ _ _ H)
      as (cs & Hcs & Hbs).
    destruct (Contributions_types _ _ _ _ _ _ _ _ Hcs) as [Hmap Hlabels].
    exists cs. split; [exact Hmap|]. split; [exact Hlabels|].
    split; [exact Hcs|]. split; [exact Hbs|].
    intros c inner Hc Hsome. rewrite Hbs. apply list_elem_of_omap.
    exists c. split; [exact Hc|]. unfold contributionBranch. rewrite Hsome. reflexivity.
  - intros g env ts p Hts Hp.
    destruct branches as [|b bs]; [discriminate|].
    cbn in Hp. injection Hp as <-. cbn in Hts.
    destruct (evalPredicate g env b) as [|t] eqn:Eb; cbn in Hts; [discriminate|].
    destruct (mapM (evalPredicate g env) bs) as [|ts'] eqn:Ebs; cbn in Hts; [discriminate|].
    injection Hts as <-.
    rewrite (evalPredicate_fold_or _ _ _ _ _ _ Eb Ebs).
    split.
    + intros Heq. injection Heq as Heq. apply fold_or3_true in Heq. exact Heq.
    + intros Hex. f_equal. apply fold_or3_true. exact Hex.
Qed.

Lemma interface_filter_branches_joined_by_or_witness :
  exists p,
    createInterfaceRelationshipOperation Fixture4.createWherePredicate
      Fixture4.animals Fixture4.context Fixture4.this [Fixture4.Dog; Fixture4.Cat]
      (JObj [("name", JStr "Nala")]) SomeLevel 0 = Return (Some p, 4)
    /\ evalPredicate Fixture4.graph (Fixture4.house 1) p = Return (Some true).
Proof.
  destruct (interface_filter_branches_joined_by_or
              Fixture4.createWherePredicate Fixture4.animals Fixture4.context
              Fixture4.this [Fixture4.Dog; Fixture4.Cat] (JObj [("name", JStr "Nala")])
              0 4 [Fixture4.branch 0 1 "Dog" "Nala"; Fixture4.branch 2 3 "Cat" "Nala"]
              eq_refl) as (Hop & _ & Hsem).
  eexists. split; [exact Hop|].
  apply (Hsem Fixture4.graph (Fixture4.house 1) [Some false; Some true]).
  - vm_compute. reflexivity.
  - reflexivity.
  - reflexivity.
Defined.

(** ** Custom labels *)

Lemma getLabels_custom refNode context custom :
  nodeDirective refNode = Some custom -> getLabels refNode context = custom.
Proof. unfold getLabels. intros ->. reflexivity. Qed.

Lemma bindVar_binds v x (env env' : Env) :
  bindVar v x env = Some env' -> env' !! v = Some x.
Proof.
  unfold bindVar. destruct (env !! v) as [y|] eqn:E.
  - destruct (decide (y = x)) as [->|]; [|discriminate].
    intros H. injection H as <-. exact E.
  - intros H. injection H as <-. apply lookup_insert_eq.
Qed.

Lemma bindVar_preserves v x (env env' : Env) u y :
  bindVar v x env = Some env' -> env !! u = Some y -> env' !! u = Some y.
Proof.
  unfold bindVar. destruct (env !! v) as [z|] eqn:E.
  - destruct (decide (z = x)); [|discriminate]. intros H. injection H as <-. auto.
  - intros H Hu. injection H as <-.
    rewrite lookup_insert_ne; [exact Hu|]. intros ->. congruence.
Qed.

Lemma matchEndpoint_preserves g opts cn id (env env' : Env) u y :
  matchEndpoint g opts cn id env = Some env' -> env !! u = Some y -> env' !! u = Some y.
Proof.
  unfold matchEndpoint. destruct (graphNodes g !! id); [|discriminate].
  destruct (_ && _); [discriminate|].
  destruct (enabled (opt_variable opts)).
  - apply bindVar_preserves.
  - intros H. injection H as <-. auto.
Qed.

(** An endpoint printed with its variable and its labels binds the variable
    to a node that carries every label. *)
Lemma matchEndpoint_labelled g cn id (env env' : Env) :
  matchEndpoint g {| opt_variable := Some true; opt_labels := None |} cn id env
  = Some env' ->
  exists gn, env' !! nodeVar cn = Some (VNode id)
             /\ graphNodes g !! id = Some gn
             /\ hasLabels gn (labels cn) = true.
Proof.
  unfold matchEndpoint. destruct (graphNodes g !! id) as [gn|]; [|discriminate].
  cbn. destruct (hasLabels gn (labels cn)) eqn:E; [|discriminate].
  cbn. intros H. exists gn. split; [|split; [reflexivity | exact E]].
  eapply bindVar_binds. exact H.
Qed.

(** Every row of the pattern of a relationship filter binds the child to a
    node of the graph that carries all the labels of the child. *)
Lemma matchRows_child_labels g (env : Env) relationField parentNode childNode rv row :
  row ∈ matchRows g env (relationshipPattern relationField parentNode childNode rv) ->
  exists id gn,
    row !! nodeVar childNode = Some (VNode id)
    /\ graphNodes g !! id = Some gn
    /\ hasLabels gn (labels childNode) = true.
Proof.
  unfold matchRows. intros Hrow.
  apply list_elem_of_omap in Hrow as ([i e] & _ & Hedge).
  unfold matchEdge, relationshipPattern in Hedge.
  destruct (direction relationField); cbn in Hedge;
    destruct (negb _); try discriminate.
  - destruct (matchEndpoint g _ childNode _ env) as [env1|] eqn:E1; [|discriminate].
    destruct (matchEndpoint g _ parentNode _ env1) as [env2|] eqn:E2; [|discriminate].
    apply matchEndpoint_labelled in E1 as (gn & Hbound & Hgn & Hlabels).
    exists (edgeSource e), gn. split; [|split; assumption].
    eapply bindVar_preserves; [exact Hedge|].
    eapply matchEndpoint_preserves; [exact E2 | exact Hbound].
  - destruct (matchEndpoint g _ parentNode _ env) as [env1|] eqn:E1; [|discriminate].
    destruct (matchEndpoint g _ childNode _ env1) as [env2|] eqn:E2; [|discriminate].
    apply matchEndpoint_labelled in E2 as (gn & Hbound & Hgn & Hlabels).
    exists (edgeTarget e), gn. split; [|split; assumption].
    eapply bindVar_preserves; [exact Hedge | exact Hbound].
Qed.

Lemma patternOf_whereIfDefined m p : patternOf (whereIfDefined m p) = patternOf m.
Proof. destruct m, p; reflexivity. Qed.

Lemma patternOf_where_ m p : patternOf (Cypher.where_ m p) = patternOf m.
Proof. destruct m; reflexivity. Qed.

Lemma createEdgeSubquery_pattern
    (ResolveTree : Type) getOrCreateCypherNode
    (getPattern : CypherRelationship -> RelationField -> ResolveTree -> Pattern)
    createConnectionWherePropertyOperation createAuthPredicates createEdgeProjection
    resolveTree field context parentNode relatedNode returnVariable whereInput
    n clause n' :
  createEdgeSubquery ResolveTree getOrCreateCypherNode getPattern
    createConnectionWherePropertyOperation createAuthPredicates createEdgeProjection
    resolveTree field context parentNode relatedNode returnVariable whereInput n
  = Return (clause, n') ->
  exists m returning,
    clause = Cypher.ClauseMatch m returning
    /\ patternOf m
       = getPattern
           {| relVar := Anon n;
              source := getOrCreateCypherNode parentNode;
              target := {| nodeVar := Named (parentNode ++ "_" ++ name relatedNode);
                           labels := getLabels relatedNode context |};
              type := rf_type (cf_relationship field) |}
           (cf_relationship field) resolveTree.
Proof.
  unfold createEdgeSubquery, bind, newRelationship, ret. intros H.
  destruct whereInput as [whereInput'|]; [destruct (isTruthy whereInput')|].
  - destruct (createConnectionWherePropertyOperation _ _ _ _ _ _ _) as [|[w n1]];
      [discriminate|].
    destruct (createAuthPredicates _ _ _ (AuthWhere _ _) _) as [|[f n2]]; [discriminate|].
    destruct (createAuthPredicates _ _ _ (AuthAllow _ _) _) as [|[a n3]]; [discriminate|].
    injection H as <- <-. do 2 eexists. split; [reflexivity|].
    destruct a; rewrite ?patternOf_where_, !patternOf_whereIfDefined; reflexivity.
  - destruct (createAuthPredicates _ _ _ (AuthWhere _ _) _) as [|[f n2]]; [discriminate|].
    destruct (createAuthPredicates _ _ _ (AuthAllow _ _) _) as [|[a n3]]; [discriminate|].
    injection H as <- <-. do 2 eexists. split; [reflexivity|].
    destruct a; rewrite ?patternOf_where_, !patternOf_whereIfDefined; reflexivity.
  - destruct (createAuthPredicates _ _ _ (AuthWhere _ _) _) as [|[f n2]]; [discriminate|].
    destruct (createAuthPredicates _ _ _ (AuthAllow _ _) _) as [|[a n3]]; [discriminate|].
    injection H as <- <-. do 2 eexists. split; [reflexivity|].
    destruct a; rewrite ?patternOf_where_, !patternOf_whereIfDefined; reflexivity.
Qed.

(** C7: for a node type that carries custom labels, the patterns compiled
    for it use these labels as they are and not the name of the type.  The
    child node of a relationship filter carries them, so the rows of its
    pattern are nodes with all of these labels; the related node of an edge
    subquery carries them; and in the traversal of an interface the node of
    every implementing type carries the custom labels of that very type. *)
Theorem custom_labels_used_verbatim
    (context : Context) (refNode : Node) (custom : list string) :
  nodeDirective refNode = Some custom ->
  getLabels refNode context = custom
  /\ (forall getListPredicate createWherePredicate relationField parentNode operator
             value isNot n,
        findRefNode relationField context = Some refNode ->
        let childNode := {| nodeVar := Anon n; labels := custom |} in
        let matchPattern :=
          relationshipPattern relationField parentNode childNode (Anon (S n)) in
        (is_null value = true ->
         createRelationshipOperation getListPredicate createWherePredicate
           relationField context parentNode operator value isNot n
         = Return ({| predicate :=
                        Some (if isNot then Cypher.Exists (Cypher.Match matchPattern)
                              else Cypher.not (Cypher.Exists (Cypher.Match matchPattern)));
                      preComputedSubquery := None |}, S (S n)))
        /\ (forall res n',
              is_null value = false ->
              createRelationshipOperation getListPredicate createWherePredicate
                relationField context parentNode operator value isNot n
              = Return (res, n') ->
              exists listPredicateStr r,
                createWherePredicate
                  {| wp_whereInput := value; wp_targetElement := childNode;
                     wp_element := refNode; wp_context := context;
                     wp_listPredicateStr := listPredicateStr |} (S (S n))
                = Return (r, n')
                /\ predicate res
                   = createRelationshipSubqueryAndPredicate
                       matchPattern listPredicateStr childNode (wp_predicate r)
                       (wp_returnVariables r) None)
        /\ (forall g (env : Env) row,
              row ∈ matchRows g env matchPattern ->
              exists id gn,
                row !! Anon n = Some (VNode id)
                /\ graphNodes g !! id = Some gn
                /\ hasLabels gn custom = true))
  /\ (forall (ResolveTree : Type) getOrCreateCypherNode
             (getPattern : CypherRelationship -> RelationField -> ResolveTree -> Pattern)
             createConnectionWherePropertyOperation createAuthPredicates
             createEdgeProjection resolveTree field parentNode returnVariable whereInput
             n clause n',
        createEdgeSubquery ResolveTree getOrCreateCypherNode getPattern
          createConnectionWherePropertyOperation createAuthPredicates
          createEdgeProjection resolveTree field context parentNode refNode
          returnVariable whereInput n
        = Return (clause, n') ->
        exists m returning,
          clause = Cypher.ClauseMatch m returning
          /\ patternOf m
             = getPattern
                 {| relVar := Anon n;
                    source := getOrCreateCypherNode parentNode;
                    target := {| nodeVar := Named (parentNode ++ "_" ++ name refNode);
                                 labels := custom |};
                    type := rf_type (cf_relationship field) |}
                 (cf_relationship field) resolveTree)
  /\ (forall createWherePredicate relationField parentNode implementations value
             n branches n',
        interfaceBranches createWherePredicate relationField context parentNode
          implementations value "some" n = Return (branches, n') ->
        exists contributions,
          List.map c_type contributions = implementations
          /\ branches = omap (contributionBranch relationField parentNode) contributions
          /\ Forall (fun c => forall custom',
                              nodeDirective (c_type c) = Some custom' ->
                              labels (c_node c) = custom')
                    contributions).
Proof.
  intros Hcustom.
  pose proof (getLabels_custom refNode context custom Hcustom) as Hlabels.
  split; [exact Hlabels|]. split; [|split].
  - intros glp cwp relationField parentNode operator value isNot n Hfind
           childNode matchPattern.
    split; [|split].
    + intros Hnull. destruct value; try discriminate Hnull.
      subst childNode matchPattern. rewrite <- Hlabels.
      apply createRelationshipOperation_null. exact Hfind.
    + intros res n' Hnull Hop.
      rewrite (createRelationshipOperation_value glp cwp relationField context
                 parentNode operator value isNot n refNode Hfind Hnull) in Hop.
      rewrite Hlabels in Hop. fold childNode in Hop. fold matchPattern in Hop.
      eexists.
      destruct (cwp _ _) as [msg|[r n1]] eqn:Ecwp; [discriminate|].
      exists r. injection Hop as <- <-. split; [exact Ecwp|].
      destruct (negb (Nat.eqb _ 0)); reflexivity.
    + intros g env row Hrow.
      apply (matchRows_child_labels g env relationField parentNode childNode
               (Anon (S n)) row Hrow).
  - intros ResolveTree gocn getPattern ccw cap cep resolveTree field parentNode
           returnVariable whereInput n clause n' H.
    rewrite <- Hlabels. eapply createEdgeSubquery_pattern. exact H.
  - intros cwp relationField parentNode implementations value n branches n' H.
    destruct (interfaceBranches_some _ _ _ _ _ _ _ _ _ H) as (cs & Hmap & Hls & Hbs).
    exists cs. split; [exact Hmap|]. split; [exact Hbs|].
    eapply Forall_impl; [exact Hls|]. intros c Hc custom' Hc'.
    rewrite Hc. apply getLabels_custom. exact Hc'.
Qed.

Lemma custom_labels_used_verbatim_witness :
  getLabels Fixture2.Movie Fixture2.context = ["Film"]
  /\ createRelationshipOperation Fixture2.getListPredicate Fixture2.createWherePredicate
       Fixture2.actedIn Fixture2.context Fixture.this None JNull true 0
     = Return ({| predicate := Some (Cypher.Exists (Cypher.Match Fixture.pat));
                  preComputedSubquery := None |}, 2)
  /\ forall row,
       row ∈ matchRows Fixture.graph (Fixture.target 0) Fixture.pat ->
       exists id gn,
         row !! Anon 0 = Some (VNode id)
         /\ graphNodes Fixture.graph !! id = Some gn
         /\ hasLabels gn ["Film"] = true.
Proof.
  destruct (custom_labels_used_verbatim Fixture2.context Fixture2.Movie ["Film"] eq_refl)
    as (Hlabels & Hop & _).
  split; [exact Hlabels|].
  destruct (Hop Fixture2.getListPredicate Fixture2.createWherePredicate
              Fixture2.actedIn Fixture.this None JNull true 0 eq_refl)
    as (Hnull & _ & Hrows).
  split; [exact (Hnull eq_refl)|].
  exact (Hrows Fixture.graph (Fixture.target 0)).
Defined.

(** ** Parameters *)

(** The parameters of the conformance test: the literal "Roxy" occurs twice
    and has two names. *)
Example conformance_params :
  renderPredicateParams
    (Cypher.or (Fixture4.branch 0 1 "Dog" "Roxy") (Fixture4.branch 2 3 "Cat" "Roxy"))
  = (["param0"; "param1"],
     {[ "param0" := VStr "Roxy"; "param1" := VStr "Roxy" ]}).
Proof. vm_compute. reflexivity. Qed.

Lemma paramName_inj i j : paramName i = paramName j -> i = j.
Proof.
  unfold paramName. intros H.
  apply (inj (String.app "param")) in H. apply (inj pretty) in H. exact H.
Qed.

Lemma namesBelow_empty : namesBelow emptyRenderEnv.
Proof. intros k [x Hx]. cbn in Hx. rewrite lookup_empty in Hx. discriminate. Qed.

Lemma namesBelow_fresh env : namesBelow env -> params env !! paramName (paramCount env) = None.
Proof.
  intros Hinv. destruct (params env !! paramName (paramCount env)) as [x|] eqn:E;
    [|reflexivity].
  destruct (Hinv _ (ex_intro _ x E)) as (i & Hlt & Heq).
  apply paramName_inj in Heq. lia.
Qed.

Lemma namesBelow_addParam v env : namesBelow env -> namesBelow (addParam v env).2.
Proof.
  intros Hinv k [x Hx]. cbn in *.
  destruct (decide (paramName (paramCount env) = k)) as [<-|Hne].
  - exists (paramCount env). split; [lia | reflexivity].
  - rewrite lookup_insert_ne in Hx by exact Hne.
    destruct (Hinv k (ex_intro _ x Hx)) as (i & Hlt & Heq). exists i. split; [lia | exact Heq].
Qed.

Lemma renderParams_spec vs :
  forall env,
    namesBelow env ->
    (renderParams vs env).1 = paramName <$> seq (paramCount env) (length vs)
    /\ paramCount (renderParams vs env).2 = paramCount env + length vs
    /\ namesBelow (renderParams vs env).2
    /\ (forall i v, vs !! i = Some v ->
          params (renderParams vs env).2 !! paramName (paramCount env + i) = Some v)
    /\ (forall k x, params env !! k = Some x ->
          params (renderParams vs env).2 !! k = Some x)
    /\ (forall k, is_Some (params (renderParams vs env).2 !! k) ->
          is_Some (params env !! k) \/ k ∈ (renderParams vs env).1).
Proof.
  induction vs as [|v vs IH]; intros env Hinv.
  - cbn. split; [reflexivity|]. split; [apply plus_n_O|]. split; [exact Hinv|].
    split; [intros i v Hi; rewrite lookup_nil in Hi; discriminate|].
    split; [intros k x Hk; exact Hk|]. intros k Hk. left. exact Hk.
  - cbn [renderParams].
    destruct (addParam v env) as [name env1] eqn:Eadd.
    assert (Henv1 : env1 = (addParam v env).2) by (rewrite Eadd; reflexivity).
    assert (Hname : name = paramName (paramCount env)) by (unfold addParam in Eadd; congruence).
    assert (Hinv1 : namesBelow env1) by (subst env1; apply namesBelow_addParam; exact Hinv).
    assert (Hcount : paramCount env1 = S (paramCount env)) by (subst env1; reflexivity).
    destruct (IH env1 Hinv1) as (Hnames & Hcnt & Hinv2 & Hnew & Hold & Hdom).
    destruct (renderParams vs env1) as [names env2] eqn:Erest. cbn [fst snd] in *.
    split; [|split; [|split; [|split; [|split]]]].
    + cbn. rewrite Hnames, Hcount, Hname. reflexivity.
    + rewrite Hcnt, Hcount. cbn. lia.
    + exact Hinv2.
    + intros [|i] v' Hi; cbn in Hi.
      * injection Hi as <-. rewrite Nat.add_0_r. apply Hold.
        subst env1. cbn. apply lookup_insert_eq.
      * replace (paramCount env + S i) with (paramCount env1 + i) by lia.
        apply Hnew. exact Hi.
    + intros k x Hk. apply Hold. subst env1. cbn.
      rewrite lookup_insert_ne; [exact Hk|].
      intros <-. rewrite (namesBelow_fresh env Hinv) in Hk. discriminate.
    + intros k Hk. destruct (Hdom k Hk) as [Hk1 | Hin].
      * subst env1. cbn in Hk1.
        destruct (decide (paramName (paramCount env) = k)) as [<-|Hne].
        -- right. rewrite Hname. apply list_elem_of_here.
        -- left. rewrite lookup_insert_ne in Hk1 by exact Hne. exact Hk1.
      * right. apply list_elem_of_further. exact Hin.
Qed.

Lemma renderParams_app l1 l2 env :
  renderParams (l1 ++ l2) env
  = ((renderParams l1 env).1 ++ (renderParams l2 (renderParams l1 env).2).1,
     (renderParams l2 (renderParams l1 env).2).2).
Proof.
  revert env. induction l1 as [|v l1 IH]; intros env; cbn [renderParams app].
  - cbn. destruct (renderParams l2 env); reflexivity.
  - destruct (addParam v env) as [name env1].
    rewrite IH. destruct (renderParams l1 env1) as [names1 env2]. cbn.
    destruct (renderParams l2 env2); reflexivity.
Qed.

(** The accumulator of [createConnectOrCreateAndParams] keeps its entries. *)
Lemma connectOrCreate_fold_keeps buildMergeStatement varName parentVar relationField
    refNode context items :
  forall acc k x,
    acc.2 !! k = Some x ->
    (fold_left (connectOrCreateStep buildMergeStatement varName parentVar relationField
                  refNode context) items acc).2 !! k = Some x.
Proof.
  induction items as [|item items IH]; intros acc k x Hk; [exact Hk|].
  cbn [fold_left]. apply IH.
  unfold connectOrCreateStep.
  destruct (createConnectOrCreateSubQuery _ _ _ _ _ _ _) as [query ps]. cbn.
  unfold spread. apply lookup_union_Some_l. exact Hk.
Qed.

Lemma paramName_Inj : Inj (=) (=) paramName.
Proof. intros i j. apply paramName_inj. Qed.

Lemma connectOrCreateStep_eq buildMergeStatement varName parentVar relationField
    refNode context acc item :
  connectOrCreateStep buildMergeStatement varName parentVar relationField refNode
    context acc item
  = (acc.1 ++ [(createConnectOrCreateSubQuery buildMergeStatement item.2
                  (varName +:+ pretty item.1) parentVar relationField refNode
                  context).1],
     acc.2 ∪ (createConnectOrCreateSubQuery buildMergeStatement item.2
                (varName +:+ pretty item.1) parentVar relationField refNode
                context).2).
Proof.
  unfold connectOrCreateStep, spread.
  destruct (createConnectOrCreateSubQuery _ _ _ _ _ _ _). reflexivity.
Qed.

Lemma connectOrCreate_fold buildMergeStatement varName parentVar relationField
    refNode context items :
  forall acc,
    fold_left (connectOrCreateStep buildMergeStatement varName parentVar relationField
                 refNode context) items acc
    = (acc.1 ++ ((fun item =>
                    (createConnectOrCreateSubQuery buildMergeStatement item.2
                       (varName +:+ pretty item.1) parentVar relationField refNode
                       context).1) <$> items),
       acc.2 ∪ ⋃ ((fun item =>
                     (createConnectOrCreateSubQuery buildMergeStatement item.2
                        (varName +:+ pretty item.1) parentVar relationField refNode
                        context).2) <$> items)).
Proof.
  induction items as [|item items IH]; intros [queries ps].
  - cbn. rewrite app_nil_r, (right_id_L ∅ (∪)). reflexivity.
  - cbn [fold_left]. rewrite IH, connectOrCreateStep_eq.
    cbn [fst snd fmap list_fmap]. f_equal.
    + rewrite <- app_assoc. reflexivity.
    + change (⋃ (?m :: ?ms)) with (m ∪ ⋃ ms). rewrite (assoc_L (∪)). reflexivity.
Qed.

Lemma createConnectOrCreateAndParams_subqueries
    (buildMergeStatement :
       MergeNode -> option MergeRelation -> Context -> string * CypherParams)
    (input : list CreateOrConnectInputItem) (varName parentVar : string)
    (relationField : RelationField) (refNode : Node) (context : Context) :
  createConnectOrCreateAndParams buildMergeStatement input varName parentVar
    relationField refNode context
  = (String.concat newline
       (fst <$> connectOrCreateSubQueries buildMergeStatement input varName parentVar
                  relationField refNode context),
     ⋃ (snd <$> connectOrCreateSubQueries buildMergeStatement input varName parentVar
                  relationField refNode context)).
Proof.
  unfold createConnectOrCreateAndParams. rewrite connectOrCreate_fold.
  cbn [fst snd app]. rewrite (left_id_L ∅ (∪)).
  unfold connectOrCreateSubQueries. rewrite !fmap_imap. reflexivity.
Qed.

Lemma union_list_first (ms : list CypherParams) :
  forall i m k v,
    ms !! i = Some m ->
    m !! k = Some v ->
    (forall j m', j < i -> ms !! j = Some m' -> m' !! k = None) ->
    (⋃ ms) !! k = Some v.
Proof.
  induction ms as [|m0 ms IH]; intros i m k v Hi Hk Hbefore; [discriminate|].
  change (⋃ (m0 :: ms)) with (m0 ∪ ⋃ ms). destruct i as [|i]; cbn in Hi.
  - injection Hi as ->. apply lookup_union_Some_l. exact Hk.
  - rewrite lookup_union_r.
    + apply (IH i m k v Hi Hk). intros j m' Hj Hm'.
      apply (Hbefore (S j) m'); [lia | exact Hm'].
    + apply (Hbefore 0 m0); [lia | reflexivity].
Qed.

Lemma union_list_is_Some (ms : list CypherParams) (k : string) :
  is_Some ((⋃ ms) !! k) <-> exists m, m ∈ ms /\ is_Some (m !! k).
Proof.
  induction ms as [|m0 ms IH].
  - change (⋃ ([] : list CypherParams)) with (∅ : CypherParams).
    rewrite lookup_empty. split.
    + intros [x Hx]. discriminate.
    + intros (m & Hm & _). apply elem_of_nil in Hm. destruct Hm.
  - change (⋃ (m0 :: ms)) with (m0 ∪ ⋃ ms). rewrite lookup_union_is_Some, IH. split.
    + intros [H0 | (m & Hm & Hk)].
      * exists m0. split; [apply list_elem_of_here | exact H0].
      * exists m. split; [apply list_elem_of_further; exact Hm | exact Hk].
    + intros (m & Hm & Hk). apply elem_of_cons in Hm as [-> | Hm].
      * left. exact Hk.
      * right. exists m. split; assumption.
Qed.

Lemma connectOrCreate_parameters_apart
    (buildMergeStatement :
       MergeNode -> option MergeRelation -> Context -> string * CypherParams)
    (input : list CreateOrConnectInputItem) (varName parentVar : string)
    (relationField : RelationField) (refNode : Node) (context : Context) :
  (forall item item' baseName baseName' k,
     baseName <> baseName' ->
     is_Some ((createConnectOrCreateSubQuery buildMergeStatement item baseName
                 parentVar relationField refNode context).2 !! k) ->
     (createConnectOrCreateSubQuery buildMergeStatement item' baseName'
        parentVar relationField refNode context).2 !! k = None) ->
  forall i item k v,
    input !! i = Some item ->
    (createConnectOrCreateSubQuery buildMergeStatement item (varName +:+ pretty i)
       parentVar relationField refNode context).2 !! k = Some v ->
    (createConnectOrCreateAndParams buildMergeStatement input varName parentVar
       relationField refNode context).2 !! k = Some v.
Proof.
  intros Hapart i item k v Hi Hk.
  rewrite createConnectOrCreateAndParams_subqueries. cbn [snd].
  set (subs := connectOrCreateSubQueries buildMergeStatement input varName parentVar
                 relationField refNode context).
  assert (Hsub : forall j, subs !! j
                   = (fun item' =>
                        createConnectOrCreateSubQuery buildMergeStatement item'
                          (varName +:+ pretty j) parentVar relationField refNode context)
                     <$> input !! j)
    by (intros j; unfold subs, connectOrCreateSubQueries; apply list_lookup_imap).
  apply (union_list_first (snd <$> subs) i
           (createConnectOrCreateSubQuery buildMergeStatement item (varName +:+ pretty i)
              parentVar relationField refNode context).2 k v).
  - rewrite list_lookup_fmap, Hsub, Hi. reflexivity.
  - exact Hk.
  - intros j m' Hj Hm'. rewrite list_lookup_fmap, Hsub in Hm'.
    destruct (input !! j) as [item'|]; [|discriminate].
    cbn in Hm'. injection Hm' as <-.
    apply (Hapart item item' (varName +:+ pretty i) (varName +:+ pretty j)).
    + intros Heq. apply (inj (String.app varName)) in Heq.
      apply (inj pretty) in Heq. lia.
    + exists v. exact Hk.
Qed.

Lemma renderPredicateParams_eq (p : Cypher.Predicate) :
  renderPredicateParams p
  = ((renderParams (paramsOfPredicate p) emptyRenderEnv).1,
     params (renderParams (paramsOfPredicate p) emptyRenderEnv).2).
Proof.
  unfold renderPredicateParams. destruct (renderParams _ _). reflexivity.
Qed.



(** ** Populated-by callbacks *)

(** C9: when the callback of a field fires on a stored record, [null]
    removes the property of the field, which then reads as null, and no
    value leaves the stored value of the field as it is; every other
    property of the record is unchanged in both cases, and the callback has
    been invoked once, whatever it returned. *)
Theorem populated_by_null_removes_undefined_keeps
    (field : string) (callback : Callback) (s : Stored) :
  let s' := firePopulatedBy field callback s in
  (callback (invocations s) = CbNull ->
   properties s' !! field = None /\ readField s' field = VNull)
  /\ (callback (invocations s) = CbUndefined ->
      properties s' !! field = properties s !! field)
  /\ (callback (invocations s) = CbNull \/ callback (invocations s) = CbUndefined ->
      forall other, other <> field -> properties s' !! other = properties s !! other)
  /\ invocations s' = S (invocations s).
Proof.
  intros s'. subst s'. unfold firePopulatedBy, readField. cbn [properties invocations].
  split; [|split; [|split]].
  - intros ->. rewrite lookup_delete_eq. split; reflexivity.
  - intros ->. reflexivity.
  - intros [-> | ->] other Hother; [|reflexivity].
    apply lookup_delete_ne. congruence.
  - reflexivity.
Qed.

Lemma populated_by_null_removes_undefined_keeps_witness :
  readField (firePopulatedBy "callback" Fixture5.returnsNull Fixture5.movie) "callback"
  = VNull
  /\ properties (firePopulatedBy "callback" Fixture5.returnsNull Fixture5.movie) !! "id"
     = Some (VStr "m1")
  /\ properties (firePopulatedBy "callback" Fixture5.undefinedThenValue Fixture5.movie)
       !! "callback"
     = Some (VStr "seeded").
Proof.
  destruct (populated_by_null_removes_undefined_keeps
              "callback" Fixture5.returnsNull Fixture5.movie)
    as (Hnull & _ & Hframe & _).
  destruct (populated_by_null_removes_undefined_keeps
              "callback" Fixture5.undefinedThenValue Fixture5.movie)
    as (_ & Hundefined & _).
  split; [exact (proj2 (Hnull eq_refl))|]. split.
  - rewrite (Hframe (or_introl eq_refl) "id"); [reflexivity | discriminate].
  - rewrite (Hundefined eq_refl). reflexivity.
Defined.

(** * Further properties of the relationship filters *)

(** X1: a list predicate other than "all", "not", "none" and "single" takes
    the default branch: the filter is [EXISTS { MATCH pattern WHERE inner }],
    true iff the inner predicate is true on a related entity. *)
Theorem other_list_predicates_default_to_exists
    (matchPattern : Pattern) (listPredicateStr : string) (childNode : CypherNode)
    (inner : Cypher.Predicate) (returnVariables : list Var)
    (edgePredicate : option bool) (g : Graph) (env : Env) :
  listPredicateStr <> "all" ->
  listPredicateStr <> "not" ->
  listPredicateStr <> "none" ->
  listPredicateStr <> "single" ->
  createRelationshipSubqueryAndPredicate
    matchPattern listPredicateStr childNode (Some inner) returnVariables edgePredicate
  = Some (Cypher.Exists (Cypher.where_ (Cypher.Match matchPattern) inner))
  /\ evalPredicate g env (Cypher.Exists (Cypher.where_ (Cypher.Match matchPattern) inner))
     = do ts <- truthsOn g env matchPattern inner; Return (Some (existsb is_true ts)).
Proof.
  intros Hall Hnot Hnone Hsingle. split; [|apply evalPredicate_some].
  unfold createRelationshipSubqueryAndPredicate. cbn.
  apply String.eqb_neq in Hall, Hnot, Hnone, Hsingle.
  rewrite Hall, Hnot, Hnone, Hsingle. reflexivity.
Qed.

Lemma other_list_predicates_default_to_exists_witness :
  createRelationshipSubqueryAndPredicate
    Fixture.pat "any" Fixture.child (Some Fixture.titleIsA) [] None
  = Some (Cypher.Exists (Cypher.where_ (Cypher.Match Fixture.pat) Fixture.titleIsA)).
Proof.
  apply (other_list_predicates_default_to_exists
           Fixture.pat "any" Fixture.child Fixture.titleIsA [] None
           Fixture.graph (Fixture.target 0)); discriminate.
Defined.

(** X2: the list predicates "none" and "not" give the same filter, the
    negation of the filter for "some"; it is true iff the inner predicate is
    true on no related entity, so it holds on a target without related
    entities. *)
Theorem none_filter_negates_some
    (matchPattern : Pattern) (childNode : CypherNode) (inner : Cypher.Predicate)
    (returnVariables : list Var) (edgePredicate : option bool)
    (g : Graph) (env : Env) :
  exists ps,
    createRelationshipSubqueryAndPredicate
      matchPattern "some" childNode (Some inner) returnVariables None = Some ps
    /\ createRelationshipSubqueryAndPredicate
         matchPattern "none" childNode (Some inner) returnVariables edgePredicate
       = Some (Cypher.not ps)
    /\ createRelationshipSubqueryAndPredicate
         matchPattern "not" childNode (Some inner) returnVariables edgePredicate
       = Some (Cypher.not ps)
    /\ evalPredicate g env (Cypher.not ps)
       = (do ts <- truthsOn g env matchPattern inner;
          Return (Some (negb (existsb is_true ts))))
    /\ (matchRows g env matchPattern = [] ->
        evalPredicate g env (Cypher.not ps) = Return (Some true)).
Proof.
  eexists. split; [apply subquery_some|]. split; [reflexivity|]. split; [reflexivity|].
  split; [apply evalPredicate_none|].
  intros Hrows. rewrite evalPredicate_none, (truthsOn_no_rows _ _ _ _ Hrows). reflexivity.
Qed.

Lemma none_filter_negates_some_witness :
  exists pn,
    createRelationshipSubqueryAndPredicate
      Fixture.pat "none" Fixture.child (Some Fixture.titleIsA) [] None = Some pn
    /\ evalPredicate Fixture.graph (Fixture.target 2) pn = Return (Some true).
Proof.
  destruct (none_filter_negates_some Fixture.pat Fixture.child Fixture.titleIsA [] None
              Fixture.graph (Fixture.target 2)) as (ps & _ & Hnone & _ & _ & Hempty).
  eexists. split; [exact Hnone|]. apply Hempty. vm_compute. reflexivity.
Defined.

(** X3: the filter for "all" is true iff the inner predicate is true on a
    related entity and false on none; a related entity on which the inner
    predicate is null does not count against it. *)
Theorem all_filter_true_iff_some_true_and_none_false
    (matchPattern : Pattern) (childNode : CypherNode) (inner : Cypher.Predicate)
    (returnVariables : list Var) (edgePredicate : option bool)
    (g : Graph) (env : Env) :
  exists p,
    createRelationshipSubqueryAndPredicate
      matchPattern "all" childNode (Some inner) returnVariables edgePredicate = Some p
    /\ evalPredicate g env p
       = do ts <- truthsOn g env matchPattern inner;
         Return (Some (existsb is_true ts && negb (existsb is_false ts))).
Proof.
  eexists. split; [apply subquery_all|]. apply evalPredicate_all.
Qed.

(** With a title "A" and a missing title, the filter for "all" on the title
    "A" holds. *)
Example all_filter_ignores_null :
  truthsOn Fixture6.graph (Fixture.target 0) Fixture.pat Fixture.titleIsA
  = Return [Some true; None]
  /\ (do p <- match createRelationshipSubqueryAndPredicate
                      Fixture.pat "all" Fixture.child (Some Fixture.titleIsA) [] None with
               | Some p => Return p
               | None => Throw "undefined"
               end;
      evalPredicate Fixture6.graph (Fixture.target 0) p) = Return (Some true).
Proof. split; vm_compute; reflexivity. Qed.

(** X4: when no node of the context has the name of the type the relation
    field points to, [createRelationshipOperation] throws "Relationship
    filters must reference nodes", for every operator and value, [null]
    included. *)
Theorem relationship_filter_on_unknown_node_throws
    (getListPredicate : option string -> string)
    (createWherePredicate : WherePredicateArgs -> Translate WherePredicateResult)
    (relationField : RelationField) (context : Context) (parentNode : CypherNode)
    (operator : option string) (value : GraphQLWhereArg) (isNot : bool) (n : nat) :
  (forall node, node ∈ nodes context -> name node <> tm_name (typeMeta relationField)) ->
  createRelationshipOperation getListPredicate createWherePredicate
    relationField context parentNode operator value isNot n
  = Throw "Relationship filters must reference nodes".
Proof.
  intros Hnone. apply createRelationshipOperation_throws.
  unfold findRefNode. destruct (List.find _ (nodes context)) as [node|] eqn:E;
    [|reflexivity].
  apply List.find_some in E as [Hin Hname].
  apply String.eqb_eq in Hname. exfalso.
  apply (Hnone node); [apply list_elem_of_In; exact Hin | exact Hname].
Qed.

Lemma relationship_filter_on_unknown_node_throws_witness :
  createRelationshipOperation Fixture2.getListPredicate Fixture4.createWherePredicate
    Fixture4.animals Fixture4.context Fixture4.this None JNull false 0
  = Throw "Relationship filters must reference nodes".
Proof.
  apply relationship_filter_on_unknown_node_throws.
  intros node Hin. apply list_elem_of_In in Hin. cbn in Hin.
  destruct Hin as [<- | [<- | [<- | []]]]; discriminate.
Defined.

(** X5: when the nested filter compiles to no predicate, the relationship
    filter has no predicate either, whatever the operator; when the nested
    compiler throws, the relationship filter throws the same. *)
Theorem empty_nested_filter_gives_no_predicate
    (getListPredicate : option string -> string)
    (createWherePredicate : WherePredicateArgs -> Translate WherePredicateResult)
    (relationField : RelationField) (context : Context) (parentNode : CypherNode)
    (operator : option string) (value : GraphQLWhereArg) (isNot : bool) (n : nat)
    (refNode : Node) :
  findRefNode relationField context = Some refNode ->
  is_null value = false ->
  let args :=
    {| wp_whereInput := value;
       wp_targetElement := {| nodeVar := Anon n; labels := getLabels refNode context |};
       wp_element := refNode;
       wp_context := context;
       wp_listPredicateStr :=
         if (getListPredicate operator =? "any")%string
            && negb (tm_array (typeMeta relationField))
         then "single" else getListPredicate operator |} in
  (forall r n',
     createWherePredicate args (S (S n)) = Return (r, n') ->
     wp_predicate r = None ->
     exists res,
       createRelationshipOperation getListPredicate createWherePredicate
         relationField context parentNode operator value isNot n = Return (res, n')
       /\ predicate res = None)
  /\ (forall msg,
        createWherePredicate args (S (S n)) = Throw msg ->
        createRelationshipOperation getListPredicate createWherePredicate
          relationField context parentNode operator value isNot n = Throw msg).
Proof.
  intros Hfind Hnull args.
  pose proof (createRelationshipOperation_value getListPredicate createWherePredicate
                relationField context parentNode operator value isNot n refNode
                Hfind Hnull) as Hop.
  cbv zeta in Hop. fold args in Hop. split.
  - intros r n' Hcwp Hnone. rewrite Hcwp in Hop. eexists. split; [exact Hop|].
    destruct (negb (Nat.eqb _ 0)); cbn [predicate]; rewrite Hnone; reflexivity.
  - intros msg Hcwp. rewrite Hcwp in Hop. exact Hop.
Qed.

Lemma empty_nested_filter_gives_no_predicate_witness :
  exists res,
    createRelationshipOperation Fixture2.getListPredicate Fixture2.createWherePredicate
      Fixture2.actedIn Fixture2.context Fixture.this (Some "ALL") (JObj []) false 0
    = Return (res, 2)
    /\ predicate res = None.
Proof.
  destruct (empty_nested_filter_gives_no_predicate
              Fixture2.getListPredicate Fixture2.createWherePredicate
              Fixture2.actedIn Fixture2.context Fixture.this (Some "ALL") (JObj [])
              false 0 Fixture2.Movie eq_refl eq_refl) as [Hnone _].
  apply (Hnone {| wp_predicate := None; wp_preComputedSubqueries := None;
                  wp_returnVariables := [] |} 2); reflexivity.
Defined.

(** X6: the list predicate is replaced by "single" for "any" on a to-one
    field only: on a list field, or for any other list predicate, the nested
    compiler and [createRelationshipSubqueryAndPredicate] get the list
    predicate of the operator unchanged. *)
Theorem list_predicate_kept_unless_any_on_to_one
    (getListPredicate : option string -> string)
    (createWherePredicate : WherePredicateArgs -> Translate WherePredicateResult)
    (relationField : RelationField) (context : Context) (parentNode : CypherNode)
    (operator : option string) (value : GraphQLWhereArg) (isNot : bool) (n : nat)
    (refNode : Node) (r : WherePredicateResult) (n' : nat) :
  findRefNode relationField context = Some refNode ->
  is_null value = false ->
  getListPredicate operator <> "any" \/ tm_array (typeMeta relationField) = true ->
  let childNode := {| nodeVar := Anon n; labels := getLabels refNode context |} in
  let matchPattern := relationshipPattern relationField parentNode childNode (Anon (S n)) in
  createWherePredicate
    {| wp_whereInput := value; wp_targetElement := childNode; wp_element := refNode;
       wp_context := context; wp_listPredicateStr := getListPredicate operator |}
    (S (S n))
  = Return (r, n') ->
  exists res,
    createRelationshipOperation getListPredicate createWherePredicate
      relationField context parentNode operator value isNot n = Return (res, n')
    /\ predicate res
       = createRelationshipSubqueryAndPredicate
           matchPattern (getListPredicate operator) childNode (wp_predicate r)
           (wp_returnVariables r) None.
Proof.
  intros Hfind Hnull Hkeep childNode matchPattern Hcwp.
  pose proof (createRelationshipOperation_value getListPredicate createWherePredicate
                relationField context parentNode operator value isNot n refNode
                Hfind Hnull) as Hop.
  cbv zeta in Hop.
  assert (Hlps : (if (getListPredicate operator =? "any")%string
                     && negb (tm_array (typeMeta relationField))
                  then "single" else getListPredicate operator)
                 = getListPredicate operator).
  { destruct Hkeep as [Hne | Harr].
    - apply String.eqb_neq in Hne. rewrite Hne. reflexivity.
    - rewrite Harr, andb_false_r. reflexivity. }
  rewrite Hlps in Hop. subst childNode matchPattern. rewrite Hcwp in Hop.
  eexists. split; [exact Hop|]. destruct (negb (Nat.eqb _ 0)); reflexivity.
Qed.

Lemma list_predicate_kept_unless_any_on_to_one_witness :
  exists res,
    createRelationshipOperation Fixture2.getListPredicate Fixture2.createWherePredicate
      Fixture2.actedIn Fixture2.context Fixture.this (Some "SOME")
      (JObj [("title", JStr "A")]) false 0 = Return (res, 2)
    /\ predicate res
       = Some (Cypher.Exists (Cypher.where_ (Cypher.Match Fixture.pat) Fixture.titleIsA)).
Proof.
  destruct (list_predicate_kept_unless_any_on_to_one
              Fixture2.getListPredicate Fixture2.createWherePredicate
              Fixture2.actedIn Fixture2.context Fixture.this (Some "SOME")
              (JObj [("title", JStr "A")]) false 0 Fixture2.Movie
              {| wp_predicate := Some Fixture.titleIsA;
                 wp_preComputedSubqueries := None; wp_returnVariables := [] |} 2
              eq_refl eq_refl (or_intror eq_refl) eq_refl) as (res & Hres & Hpred).
  exists res. split; [exact Hres | exact Hpred].
Defined.

Lemma bindVar_bound_eq v x y (env env' : Env) :
  env !! v = Some y -> bindVar v x env = Some env' -> x = y /\ env' = env.
Proof.
  intros Hv. rewrite (bindVar_bound _ _ _ _ Hv).
  destruct (decide (y = x)) as [->|]; [|discriminate].
  intros H. injection H as <-. split; reflexivity.
Qed.

Lemma matchEndpoint_bound g opts cn id (env env' : Env) y :
  enabled (opt_variable opts) = true ->
  env !! nodeVar cn = Some y ->
  matchEndpoint g opts cn id env = Some env' -> VNode id = y /\ env' = env.
Proof.
  unfold matchEndpoint. intros Hopt Hv.
  destruct (graphNodes g !! id); [|discriminate].
  destruct (_ && _); [discriminate|]. rewrite Hopt.
  apply bindVar_bound_eq. exact Hv.
Qed.

(** X7: the rows of the pattern of a relationship filter, on a target that
    binds the parent, are relationships of the type of the field that leave
    the parent when the direction is OUT and enter it when the direction is
    IN; the row binds the child to the node at the other end and the
    relationship variable to the relationship. *)
Theorem relationship_pattern_rows_follow_direction
    (g : Graph) (env : Env) (relationField : RelationField)
    (parentNode childNode : CypherNode) (rv : Var) (pid : nat) (row : Env) :
  env !! nodeVar parentNode = Some (VNode pid) ->
  row ∈ matchRows g env (relationshipPattern relationField parentNode childNode rv) ->
  exists i e,
    graphEdges g !! i = Some e
    /\ edgeType e = rf_type relationField
    /\ match direction relationField with
       | OUT => edgeSource e = pid
                /\ row !! nodeVar childNode = Some (VNode (edgeTarget e))
       | IN => edgeTarget e = pid
               /\ row !! nodeVar childNode = Some (VNode (edgeSource e))
       end
    /\ row !! rv = Some (VEdge i).
Proof.
  intros Hparent Hrow. unfold matchRows in Hrow.
  apply list_elem_of_omap in Hrow as ([i e] & Hin & Hedge).
  apply elem_of_lookup_imap in Hin as (i' & e' & Heq & Hlookup).
  injection Heq as -> ->.
  exists i', e'. split; [exact Hlookup|].
  unfold matchEdge, relationshipPattern in Hedge.
  destruct (direction relationField); cbn in Hedge;
    destruct (edgeType e' =? rf_type relationField)%string eqn:Etype;
    try discriminate; cbn in Hedge; apply String.eqb_eq in Etype;
    (split; [exact Etype|]).
  - destruct (matchEndpoint g _ childNode _ env) as [env1|] eqn:E1; [|discriminate].
    destruct (matchEndpoint g _ parentNode _ env1) as [env2|] eqn:E2; [|discriminate].
    pose proof (matchEndpoint_labelled _ _ _ _ _ E1) as (gn & Hchild & _).
    assert (Hp1 : env1 !! nodeVar parentNode = Some (VNode pid))
      by (eapply matchEndpoint_preserves; [exact E1 | exact Hparent]).
    apply (fun H => matchEndpoint_bound _ _ _ _ _ _ _ H Hp1) in E2 as [Hid ->];
      [|reflexivity].
    injection Hid as Hid.
    split; [split; [exact Hid|]|].
    + eapply bindVar_preserves; [exact Hedge | exact Hchild].
    + eapply bindVar_binds. exact Hedge.
  - destruct (matchEndpoint g _ parentNode _ env) as [env1|] eqn:E1; [|discriminate].
    destruct (matchEndpoint g _ childNode _ env1) as [env2|] eqn:E2; [|discriminate].
    apply (fun H => matchEndpoint_bound _ _ _ _ _ _ _ H Hparent) in E1 as [Hid ->];
      [|reflexivity].
    injection Hid as Hid.
    pose proof (matchEndpoint_labelled _ _ _ _ _ E2) as (gn & Hchild & _).
    split; [split; [exact Hid|]|].
    + eapply bindVar_preserves; [exact Hedge | exact Hchild].
    + eapply bindVar_binds. exact Hedge.
Qed.

Lemma relationship_pattern_rows_follow_direction_witness :
  exists row i e,
    matchRows Fixture.graph (Fixture.target 1) Fixture.pat = [row]
    /\ graphEdges Fixture.graph !! i = Some e
    /\ edgeSource e = 1
    /\ row !! Anon 0 = Some (VNode (edgeTarget e))
    /\ row !! Anon 1 = Some (VEdge i).
Proof.
  assert (Hrows : exists row,
             matchRows Fixture.graph (Fixture.target 1) Fixture.pat = [row])
    by (eexists; vm_compute; reflexivity).
  destruct Hrows as [row Hrows].
  assert (Hrow : row ∈ matchRows Fixture.graph (Fixture.target 1) Fixture.pat)
    by (rewrite Hrows; apply list_elem_of_here).
  destruct (relationship_pattern_rows_follow_direction
              Fixture.graph (Fixture.target 1) Fixture2.actedIn Fixture.this
              Fixture.child (Anon 1) 1 row eq_refl Hrow)
    as (i & e & Hlookup & _ & [Hsrc Hchild] & Hrel).
  exists row, i, e. repeat split; assumption.
Defined.

(** X8: conversely, on a target that binds the parent and neither the child
    nor the relationship, every relationship of the type of the field
    between the parent and a node that carries the labels of the child is a
    row of the pattern, whatever the labels of the parent. *)
Theorem relationship_pattern_rows_complete
    (g : Graph) (env : Env) (relationField : RelationField)
    (parentNode childNode : CypherNode) (rv : Var) (pid far i : nat)
    (e : GraphEdge) (gp gc : GraphNode) :
  env !! nodeVar parentNode = Some (VNode pid) ->
  env !! nodeVar childNode = None ->
  env !! rv = None ->
  rv <> nodeVar childNode ->
  graphEdges g !! i = Some e ->
  edgeType e = rf_type relationField ->
  match direction relationField with
  | OUT => edgeSource e = pid /\ edgeTarget e = far
  | IN => edgeTarget e = pid /\ edgeSource e = far
  end ->
  graphNodes g !! pid = Some gp ->
  graphNodes g !! far = Some gc ->
  hasLabels gc (labels childNode) = true ->
  <[rv := VEdge i]> (<[nodeVar childNode := VNode far]> env)
  ∈ matchRows g env (relationshipPattern relationField parentNode childNode rv).
Proof.
  intros Hparent Hchild Hrv Hne Hlookup Htype Hends Hgp Hgc Hlabels.
  assert (Hpc : nodeVar parentNode <> nodeVar childNode) by congruence.
  unfold matchRows. apply list_elem_of_omap. exists (i, e). split.
  { apply (elem_of_lookup_imap_2 (fun i e => (i, e))). exact Hlookup. }
  unfold matchEdge, relationshipPattern.
  destruct (direction relationField); destruct Hends as [Hnear Hfar]; cbn;
    rewrite Htype, String.eqb_refl; cbn; unfold matchEndpoint; cbn.
  - rewrite Hfar, Hgc, Hlabels. cbn. rewrite (bindVar_fresh _ _ _ Hchild).
    rewrite Hnear, Hgp.
    rewrite (bindVar_bound (nodeVar parentNode) _ (VNode pid))
      by (rewrite lookup_insert_ne by congruence; exact Hparent).
    destruct (decide (VNode pid = VNode pid)); [|congruence].
    apply bindVar_fresh. rewrite lookup_insert_ne by congruence. exact Hrv.
  - rewrite Hnear, Hgp. rewrite (bindVar_bound _ _ _ _ Hparent).
    destruct (decide (VNode pid = VNode pid)); [|congruence].
    rewrite Hfar, Hgc, Hlabels. cbn. rewrite (bindVar_fresh _ _ _ Hchild).
    apply bindVar_fresh. rewrite lookup_insert_ne by congruence. exact Hrv.
Qed.

Lemma relationship_pattern_rows_complete_witness :
  <[Anon 1 := VEdge 2]> (<[Anon 0 := VNode 3]> (Fixture.target 1))
  ∈ matchRows Fixture.graph (Fixture.target 1) Fixture.pat.
Proof.
  apply (relationship_pattern_rows_complete
           Fixture.graph (Fixture.target 1) Fixture2.actedIn Fixture.this
           Fixture.child (Anon 1) 1 3 2 (Fixture.actedIn 1 3 30)
           Fixture.actor (Fixture.movie "A"));
    try reflexivity; try discriminate.
  split; reflexivity.
Defined.

(** X9: the precomputed subquery of a relationship filter.  When the nested
    compiler returns no variables, its precomputed subqueries are handed on
    as they are; otherwise the result is [OPTIONAL MATCH pattern], then these
    subqueries if there are any, then one [WITH] that carries the parent and
    collects every returned variable under its own name, in order. *)
Theorem precomputed_subquery_collects_return_variables
    (getListPredicate : option string -> string)
    (createWherePredicate : WherePredicateArgs -> Translate WherePredicateResult)
    (relationField : RelationField) (context : Context) (parentNode : CypherNode)
    (operator : option string) (value : GraphQLWhereArg) (isNot : bool) (n : nat)
    (refNode : Node) (r : WherePredicateResult) (n' : nat) :
  findRefNode relationField context = Some refNode ->
  is_null value = false ->
  let childNode := {| nodeVar := Anon n; labels := getLabels refNode context |} in
  let matchPattern := relationshipPattern relationField parentNode childNode (Anon (S n)) in
  createWherePredicate
    {| wp_whereInput := value; wp_targetElement := childNode; wp_element := refNode;
       wp_context := context;
       wp_listPredicateStr :=
         if (getListPredicate operator =? "any")%string
            && negb (tm_array (typeMeta relationField))
         then "single" else getListPredicate operator |} (S (S n))
  = Return (r, n') ->
  exists res,
    createRelationshipOperation getListPredicate createWherePredicate
      relationField context parentNode operator value isNot n = Return (res, n')
    /\ (wp_returnVariables r = [] ->
        preComputedSubquery res = wp_preComputedSubqueries r)
    /\ (wp_returnVariables r <> [] ->
        preComputedSubquery res
        = Some (Cypher.Concat
                  (Cypher.OptionalMatch matchPattern
                   :: option_list (wp_preComputedSubqueries r)
                   ++ [Cypher.With (nodeVar parentNode)
                         (List.map (fun v => (Cypher.collect (Cypher.VarRef v), v))
                                   (wp_returnVariables r))]))).
Proof.
  intros Hfind Hnull childNode matchPattern Hcwp.
  pose proof (createRelationshipOperation_value getListPredicate createWherePredicate
                relationField context parentNode operator value isNot n refNode
                Hfind Hnull) as Hop.
  cbv zeta in Hop. subst childNode matchPattern. rewrite Hcwp in Hop.
  eexists. split; [exact Hop|]. split.
  - intros Hnil. rewrite Hnil. reflexivity.
  - intros Hcons. destruct (wp_returnVariables r) as [|v vs] eqn:E; [congruence|].
    cbn [length Nat.eqb negb preComputedSubquery].
    unfold Cypher.concat. destruct (wp_preComputedSubqueries r); reflexivity.
Qed.

Lemma precomputed_subquery_collects_return_variables_witness :
  exists res,
    createRelationshipOperation Fixture2.getListPredicate
      (fun _ => ret {| wp_predicate := None; wp_preComputedSubqueries := None;
                       wp_returnVariables := [Named "var2"] |})
      Fixture2.actedIn Fixture2.context Fixture.this None (JObj []) false 0
    = Return (res, 2)
    /\ preComputedSubquery res
       = Some (Cypher.Concat
                 [Cypher.OptionalMatch Fixture.pat;
                  Cypher.With (Named "this")
                    [(Cypher.collect (Cypher.VarRef (Named "var2")), Named "var2")]]).
Proof.
  destruct (precomputed_subquery_collects_return_variables
              Fixture2.getListPredicate
              (fun _ => ret {| wp_predicate := None; wp_preComputedSubqueries := None;
                               wp_returnVariables := [Named "var2"] |})
              Fixture2.actedIn Fixture2.context Fixture.this None (JObj []) false 0
              Fixture2.Movie _ 2 eq_refl eq_refl eq_refl) as (res & Hres & _ & Hcons).
  exists res. split; [exact Hres|]. apply Hcons. discriminate.
Defined.



(** A predicate on the relationship: the comparison of [size(...)] counts
    it, while [single(...)] has no binding for the relationship variable. *)
Example single_forms_differ_on_edge_predicate :
  (do p <- match createRelationshipSubqueryAndPredicate
                   Fixture.pat "single" Fixture.child (Some Fixture6.screenTimeIs10) []
                   (Some true) with
            | Some p => Return p
            | None => Throw "undefined"
            end;
   evalPredicate Fixture.graph (Fixture.target 0) p) = Return (Some true)
  /\ (do p <- match createRelationshipSubqueryAndPredicate
                      Fixture.pat "single" Fixture.child (Some Fixture6.screenTimeIs10) []
                      None with
               | Some p => Return p
               | None => Throw "undefined"
               end;
      evalPredicate Fixture.graph (Fixture.target 0) p) = Throw "Variable not defined".
Proof. split; vm_compute; reflexivity. Qed.

(** * Further properties of [createConnectOrCreateAndParams] *)

(** X11: the text of [createConnectOrCreateAndParams] is the texts of the
    sub-queries of the items, in the order of the input, joined by a line
    break, and its parameters are the union of the parameters of the
    sub-queries; for an empty input both are empty. *)
Theorem connect_or_create_joins_subqueries
    (buildMergeStatement :
       MergeNode -> option MergeRelation -> Context -> string * CypherParams)
    (input : list CreateOrConnectInputItem) (varName parentVar : string)
    (relationField : RelationField) (refNode : Node) (context : Context) :
  let subs := connectOrCreateSubQueries buildMergeStatement input varName parentVar
                relationField refNode context in
  createConnectOrCreateAndParams buildMergeStatement input varName parentVar
    relationField refNode context
  = (String.concat newline (fst <$> subs), ⋃ (snd <$> subs))
  /\ length subs = length input
  /\ (input = [] ->
      createConnectOrCreateAndParams buildMergeStatement input varName parentVar
        relationField refNode context = ("", ∅)).
Proof.
  intros subs. split; [|split].
  - subst subs. apply createConnectOrCreateAndParams_subqueries.
  - subst subs. unfold connectOrCreateSubQueries. apply length_imap.
  - intros ->. reflexivity.
Qed.

Lemma connect_or_create_joins_subqueries_witness :
  createConnectOrCreateAndParams (fun _ _ _ => ("MERGE", ∅)) [] "this_movies" "this"
    Fixture2.actedIn Fixture2.Movie Fixture2.context = ("", ∅).
Proof.
  apply (connect_or_create_joins_subqueries
           (fun _ _ _ => ("MERGE", ∅)) [] "this_movies" "this"
           Fixture2.actedIn Fixture2.Movie Fixture2.context).
  reflexivity.
Defined.

(** X12: when several items of the input give a parameter of the same
    name, the value of the first of them stands; a name that no sub-query
    gives is not in the result. *)
Theorem connect_or_create_first_item_wins
    (buildMergeStatement :
       MergeNode -> option MergeRelation -> Context -> string * CypherParams)
    (input : list CreateOrConnectInputItem) (varName parentVar : string)
    (relationField : RelationField) (refNode : Node) (context : Context)
    (k : string) :
  let subs := connectOrCreateSubQueries buildMergeStatement input varName parentVar
                relationField refNode context in
  let result := createConnectOrCreateAndParams buildMergeStatement input varName
                  parentVar relationField refNode context in
  (forall i sub v,
     subs !! i = Some sub ->
     sub.2 !! k = Some v ->
     (forall j sub', j < i -> subs !! j = Some sub' -> sub'.2 !! k = None) ->
     result.2 !! k = Some v)
  /\ ((forall sub, sub ∈ subs -> sub.2 !! k = None) -> result.2 !! k = None).
Proof.
  intros subs result. subst result.
  rewrite createConnectOrCreateAndParams_subqueries.
  fold subs. cbn [snd]. split.
  - intros i sub v Hi Hk Hbefore.
    apply (union_list_first (snd <$> subs) i sub.2 k v).
    + rewrite list_lookup_fmap, Hi. reflexivity.
    + exact Hk.
    + intros j m' Hj Hm'. rewrite list_lookup_fmap in Hm'.
      destruct (subs !! j) as [sub'|] eqn:Ej; [|discriminate].
      injection Hm' as <-. apply (Hbefore j sub' Hj Ej).
  - intros Hnone. apply lookup_union_list_None.
    apply Forall_forall. intros m Hm.
    apply list_elem_of_fmap in Hm as (sub & -> & Hsub). apply Hnone. exact Hsub.
Qed.

Lemma connect_or_create_first_item_wins_witness :
  (createConnectOrCreateAndParams
     (fun _ relation _ =>
        match relation with
        | Some r => ("MERGE", {[ "shared" := VStr (mr_varName r) ]})
        | None => ("MERGE", ∅)
        end)
     [ {| ci_where_node := None; ci_onCreate_node := None; ci_onCreate_edge := None |};
       {| ci_where_node := None; ci_onCreate_node := None; ci_onCreate_edge := None |} ]
     "this_movies" "this" Fixture2.actedIn Fixture2.Movie Fixture2.context).2
    !! "shared"
  = Some (VStr "this_movies0").
Proof.
  apply (proj1 (connect_or_create_first_item_wins _ _ _ _ _ _ _ "shared")
           0 ("MERGE" +:+ newline +:+ "        " +:+ "MERGE" +:+ newline
                +:+ "                ",
              {[ "shared" := VStr "this_movies0" ]})).
  - vm_compute. reflexivity.
  - vm_compute. reflexivity.
  - intros j sub' Hj. lia.
Defined.

(** X13: in the sub-query of one item the parameters of the statement for
    the relationship win over those of the statement for the node on a
    shared name, and a parameter of either statement is a parameter of the
    sub-query; the text is the two statements, each followed by a line
    break and the indentation of the template. *)
Theorem subquery_relation_parameters_win
    (buildMergeStatement :
       MergeNode -> option MergeRelation -> Context -> string * CypherParams)
    (input : CreateOrConnectInputItem) (baseName parentVar : string)
    (relationField : RelationField) (refNode : Node) (context : Context) (k : string) :
  let nodeStatement :=
    buildMergeStatement
      {| mn_node := Some refNode; mn_varName := baseName;
         mn_parameters := ci_where_node input; mn_onCreate := ci_onCreate_node input |}
      None context in
  let relationStatement :=
    buildMergeStatement
      {| mn_node := None; mn_varName := parentVar;
         mn_parameters := None; mn_onCreate := None |}
      (Some {| mr_relationField := relationField; mr_varName := baseName;
               mr_onCreate := ci_onCreate_edge input |})
      context in
  let sub := createConnectOrCreateSubQuery buildMergeStatement input baseName parentVar
               relationField refNode context in
  sub.2 !! k = match relationStatement.2 !! k with
               | Some v => Some v
               | None => nodeStatement.2 !! k
               end
  /\ sub.1 = nodeStatement.1 +:+ newline +:+ "        " +:+ relationStatement.1
               +:+ newline +:+ "                ".
Proof.
  intros nodeStatement relationStatement sub.
  subst sub nodeStatement relationStatement. unfold createConnectOrCreateSubQuery.
  destruct (buildMergeStatement _ None context) as [nq np].
  destruct (buildMergeStatement _ (Some _) context) as [rq rp].
  cbn [fst snd]. unfold spread. split; [|reflexivity].
  rewrite lookup_union. destruct (rp !! k), (np !! k); reflexivity.
Qed.



(** * Further properties of [createEdgeSubquery] *)

(** X15: when the connection filter, the filter rule and the validate rule
    all compile to nothing, or no filter is given at all ([undefined],
    [null] or another falsy value, for which the compiler of the filter is
    not called), the clause is the bare match of the relationship pattern,
    returning the projection of the edge under the return variable: on
    every graph it keeps every row of the pattern and raises no failure. *)
Theorem edge_subquery_without_filters_keeps_every_row
    (ResolveTree : Type)
    (getOrCreateCypherNode : string -> CypherNode)
    (getPattern : CypherRelationship -> RelationField -> ResolveTree -> Pattern)
    (createConnectionWherePropertyOperation :
       Context -> GraphQLWhereArg -> CypherRelationship -> CypherNode -> Node ->
       option Relationship -> Translate (option Cypher.Predicate))
    (createAuthPredicates :
       string -> Node -> Context -> AuthRule -> Translate (option Cypher.Predicate))
    (createEdgeProjection :
       ResolveTree -> ConnectionField -> CypherRelationship -> Node -> Var -> Context ->
       Cypher.Expr)
    (resolveTree : ResolveTree) (field : ConnectionField) (context : Context)
    (parentNode : string) (relatedNode : Node) (returnVariable : Var)
    (whereInput : option GraphQLWhereArg) (n n1 n2 n3 : nat) :
  let relatedNodeRef :=
    {| nodeVar := Named (parentNode ++ "_" ++ name relatedNode);
       labels := getLabels relatedNode context |} in
  let relationshipRef :=
    {| relVar := Anon n; source := getOrCreateCypherNode parentNode;
       target := relatedNodeRef; type := rf_type (cf_relationship field) |} in
  let relPattern := getPattern relationshipRef (cf_relationship field) resolveTree in
  match whereInput with
  | Some whereInput' =>
    if isTruthy whereInput'
    then
      createConnectionWherePropertyOperation context whereInput' relationshipRef
        relatedNodeRef relatedNode
        (List.find (fun r => (rel_name r =? relationshipTypeName field)%string)
                   (relationships context)) (S n)
    else Return (None, S n)
  | None => Return (None, S n)
  end = Return (None, n1) ->
  createAuthPredicates "READ" relatedNode context (AuthWhere relatedNodeRef relatedNode) n1
  = Return (None, n2) ->
  createAuthPredicates "READ" relatedNode context (AuthAllow relatedNode relatedNodeRef) n2
  = Return (None, n3) ->
  exists m,
    createEdgeSubquery ResolveTree getOrCreateCypherNode getPattern
      createConnectionWherePropertyOperation createAuthPredicates createEdgeProjection
      resolveTree field context parentNode relatedNode returnVariable whereInput n
    = Return (Cypher.ClauseMatch m
                (Some (createEdgeProjection resolveTree field relationshipRef relatedNode
                         (Named (parentNode ++ "_" ++ name relatedNode)) context,
                       returnVariable)),
              n3)
    /\ whereOf m = Cypher.NoWhere
    /\ forall g env, evalMatch g env m = Return (matchRows g env relPattern).
Proof.
  intros relatedNodeRef relationshipRef relPattern Hw Hf Ha.
  exists (Cypher.Match relPattern). split; [|split].
  - unfold createEdgeSubquery, bind, newRelationship, ret.
    fold relatedNodeRef. fold relationshipRef. fold relPattern.
    destruct whereInput as [whereInput'|]; [destruct (isTruthy whereInput')|].
    + rewrite Hw. cbn [whereIfDefined]. rewrite Hf. cbn [whereIfDefined]. rewrite Ha.
      reflexivity.
    + injection Hw as <-. rewrite Hf. cbn [whereIfDefined]. rewrite Ha. reflexivity.
    + injection Hw as <-. rewrite Hf. cbn [whereIfDefined]. rewrite Ha. reflexivity.
  - reflexivity.
  - intros g env. cbn. apply (filterM_no_where g).
Qed.

Lemma edge_subquery_without_filters_keeps_every_row_witness :
  exists m,
    createEdgeSubquery unit Fixture3.getOrCreateCypherNode Fixture3.getPattern
      Fixture3.createConnectionWherePropertyOperation (fun _ _ _ _ => ret None)
      Fixture3.createEdgeProjection
      tt Fixture3.posts Fixture3.context "this" Fixture3.Post (Named "edge")
      (Some (JObj [])) 0
    = Return (Cypher.ClauseMatch m (Some (Cypher.VarRef (Named "this_Post"), Named "edge")),
              1)
    /\ exists rows,
         evalMatch Fixture3.graph {[ Named "this" := VNode 0 ]} m = Return rows
         /\ length rows = 3.
Proof.
  destruct (edge_subquery_without_filters_keeps_every_row
              unit Fixture3.getOrCreateCypherNode Fixture3.getPattern
              Fixture3.createConnectionWherePropertyOperation (fun _ _ _ _ => ret None)
              Fixture3.createEdgeProjection
              tt Fixture3.posts Fixture3.context "this" Fixture3.Post (Named "edge")
              (Some (JObj [])) 0 1 1 1 eq_refl eq_refl eq_refl)
    as (m & Hm & _ & Hrows).
  exists m. split; [exact Hm|].
  eexists. split; [apply Hrows|]. vm_compute. reflexivity.
Defined.

(** X16: a failure of the compiler of the connection filter, which runs
    only for a filter that is given and truthy, of the filter rule or of
    the validate rule is the failure of the whole function, the earliest
    one first: the compilers that come after the failing one have no
    influence on the outcome. *)
Theorem edge_subquery_first_failure_wins
    (ResolveTree : Type)
    (getOrCreateCypherNode : string -> CypherNode)
    (getPattern : CypherRelationship -> RelationField -> ResolveTree -> Pattern)
    (createConnectionWherePropertyOperation :
       Context -> GraphQLWhereArg -> CypherRelationship -> CypherNode -> Node ->
       option Relationship -> Translate (option Cypher.Predicate))
    (createAuthPredicates :
       string -> Node -> Context -> AuthRule -> Translate (option Cypher.Predicate))
    (createEdgeProjection :
       ResolveTree -> ConnectionField -> CypherRelationship -> Node -> Var -> Context ->
       Cypher.Expr)
    (resolveTree : ResolveTree) (field : ConnectionField) (context : Context)
    (parentNode : string) (relatedNode : Node) (returnVariable : Var)
    (whereInput : option GraphQLWhereArg) (n : nat) (message : string) :
  let relatedNodeRef :=
    {| nodeVar := Named (parentNode ++ "_" ++ name relatedNode);
       labels := getLabels relatedNode context |} in
  let relationshipRef :=
    {| relVar := Anon n; source := getOrCreateCypherNode parentNode;
       target := relatedNodeRef; type := rf_type (cf_relationship field) |} in
  let connectionWhere :=
    match whereInput with
    | Some whereInput' =>
      if isTruthy whereInput'
      then
        createConnectionWherePropertyOperation context whereInput' relationshipRef
          relatedNodeRef relatedNode
          (List.find (fun r => (rel_name r =? relationshipTypeName field)%string)
                     (relationships context)) (S n)
      else Return (None, S n)
    | None => Return (None, S n)
    end in
  let filterRule n1 :=
    createAuthPredicates "READ" relatedNode context
      (AuthWhere relatedNodeRef relatedNode) n1 in
  let validateRule n2 :=
    createAuthPredicates "READ" relatedNode context
      (AuthAllow relatedNode relatedNodeRef) n2 in
  (connectionWhere = Throw message
   \/ (exists w n1, connectionWhere = Return (w, n1) /\ filterRule n1 = Throw message)
   \/ (exists w n1 f n2,
         connectionWhere = Return (w, n1) /\ filterRule n1 = Return (f, n2)
         /\ validateRule n2 = Throw message)) ->
  createEdgeSubquery ResolveTree getOrCreateCypherNode getPattern
    createConnectionWherePropertyOperation createAuthPredicates createEdgeProjection
    resolveTree field context parentNode relatedNode returnVariable whereInput n
  = Throw message.
Proof.
  intros relatedNodeRef relationshipRef connectionWhere filterRule validateRule H.
  subst connectionWhere filterRule validateRule.
  unfold createEdgeSubquery, bind, newRelationship, ret.
  fold relatedNodeRef. fold relationshipRef.
  destruct whereInput as [whereInput'|]; [destruct (isTruthy whereInput')|].
  - destruct H as [Hw | [(w & n1 & Hw & Hf) | (w & n1 & f & n2 & Hw & Hf & Ha)]].
    + rewrite Hw. reflexivity.
    + rewrite Hw, Hf. reflexivity.
    + rewrite Hw, Hf, Ha. reflexivity.
  - destruct H as [Hw | [(w & n1 & Hw & Hf) | (w & n1 & f & n2 & Hw & Hf & Ha)]].
    + discriminate.
    + injection Hw as <- <-. rewrite Hf. reflexivity.
    + injection Hw as <- <-. rewrite Hf, Ha. reflexivity.
  - destruct H as [Hw | [(w & n1 & Hw & Hf) | (w & n1 & f & n2 & Hw & Hf & Ha)]].
    + discriminate.
    + injection Hw as <- <-. rewrite Hf. reflexivity.
    + injection Hw as <- <-. rewrite Hf, Ha. reflexivity.
Qed.

Lemma edge_subquery_first_failure_wins_witness :
  createEdgeSubquery unit Fixture3.getOrCreateCypherNode Fixture3.getPattern
    Fixture3.createConnectionWherePropertyOperation
    (fun operations entity context rule =>
       match rule with
       | AuthWhere _ _ => throw "Unauthenticated"
       | AuthAllow _ _ => throw "Invalid rule"
       end)
    Fixture3.createEdgeProjection
    tt Fixture3.posts Fixture3.context "this" Fixture3.Post (Named "edge") None 0
  = Throw "Unauthenticated".
Proof.
  apply (edge_subquery_first_failure_wins
           unit Fixture3.getOrCreateCypherNode Fixture3.getPattern
           Fixture3.createConnectionWherePropertyOperation
           (fun operations entity context rule =>
              match rule with
              | AuthWhere _ _ => throw "Unauthenticated"
              | AuthAllow _ _ => throw "Invalid rule"
              end)).
  right. left. exists None, 1. split; reflexivity.
Defined.

(** For the filter [null] the compiler of the connection filter is not
    called: one that would throw does not make the function throw. *)
Example edge_subquery_skips_compiler_on_null :
  createEdgeSubquery unit Fixture3.getOrCreateCypherNode Fixture3.getPattern
    (fun _ _ _ _ _ _ => throw "Invalid connection filter") (fun _ _ _ _ => ret None)
    Fixture3.createEdgeProjection
    tt Fixture3.posts Fixture3.context "this" Fixture3.Post (Named "edge")
    (Some JNull) 0
  = createEdgeSubquery unit Fixture3.getOrCreateCypherNode Fixture3.getPattern
      (fun _ _ _ _ _ _ => throw "Invalid connection filter") (fun _ _ _ _ => ret None)
      Fixture3.createEdgeProjection
      tt Fixture3.posts Fixture3.context "this" Fixture3.Post (Named "edge") None 0
  /\ createEdgeSubquery unit Fixture3.getOrCreateCypherNode Fixture3.getPattern
       (fun _ _ _ _ _ _ => throw "Invalid connection filter") (fun _ _ _ _ => ret None)
       Fixture3.createEdgeProjection
       tt Fixture3.posts Fixture3.context "this" Fixture3.Post (Named "edge")
       (Some JNull) 0
     <> Throw "Invalid connection filter".
Proof. split; [reflexivity|]. vm_compute. discriminate. Qed.

(** * Properties of [AttributeField.getProjectionField] *)

(** X17: the projection of an attribute field always reads the attribute
    under its own name.  It is a record only for an alias that is not empty
    and differs from the name of the attribute; the record then has the
    alias as its single key, and never the name of the attribute. *)
Theorem projection_field_record_only_for_distinct_alias
    (this : AttributeField) (variable : Var) :
  (forall entries,
     getProjectionField this variable = ProjectionRecord entries ->
     exists a,
       alias this = Some a /\ a <> "" /\ a <> attr_name (attribute this)
       /\ entries = {[ a := Cypher.Property variable (attr_name (attribute this)) ]}
       /\ entries !! attr_name (attribute this) = None)
  /\ (forall fieldName,
        getProjectionField this variable = ProjectionName fieldName ->
        fieldName = attr_name (attribute this)
        /\ (alias this = None \/ alias this = Some ""
            \/ alias this = Some (attr_name (attribute this)))).
Proof.
  unfold getProjectionField. split.
  - intros entries H. destruct (alias this) as [a|]; [|discriminate].
    destruct (String.eqb_spec a "") as [Heq|Hne]; cbn in H; [discriminate|].
    destruct (String.eqb_spec a (attr_name (attribute this))) as [Heq|Hne'];
      cbn in H; [discriminate|].
    injection H as <-. exists a. repeat split; try assumption.
    apply lookup_singleton_ne. exact Hne'.
  - intros fieldName H. destruct (alias this) as [a|].
    + destruct (String.eqb_spec a "") as [Heq|Hne]; cbn in H.
      * injection H as <-. subst a. auto.
      * destruct (String.eqb_spec a (attr_name (attribute this))) as [Heq|Hne'];
          cbn in H; [|discriminate].
        injection H as <-. subst a. auto.
    + injection H as <-. auto.
Qed.

Lemma projection_field_record_only_for_distinct_alias_witness :
  getProjectionField {| alias := Some "t"; attribute := {| attr_name := "title" |} |}
    (Named "this")
  = ProjectionRecord {[ "t" := Cypher.Property (Named "this") "title" ]}.
Proof.
  destruct (proj1 (projection_field_record_only_for_distinct_alias
                     {| alias := Some "t"; attribute := {| attr_name := "title" |} |}
                     (Named "this")) _ eq_refl)
    as (a & Ha & _ & _ & _ & _).
  injection Ha as <-. reflexivity.
Defined.

(** * Properties of the class [Neo4jGraphQL] *)

Ltac method_unfold :=
  unfold mbind, mret, Neo4jGraphQL.Method_bind, Neo4jGraphQL.Method_ret,
    Neo4jGraphQL.getThis, Neo4jGraphQL.call, Neo4jGraphQL.assign.

Ltac method_step :=
  match goal with
  | |- context [match ?x with _ => _ end] =>
    lazymatch x with
    | context [match _ with _ => _ end] => fail
    | _ => destruct x eqn:?
    end
  end.

Section Neo4jGraphQLFacts.

Context `{T : Neo4jGraphQL.ExternalTypes}.

(** The executor of [generateExecutableSchema] writes [jwtFieldsMap],
    [schemaModel], [_nodes] and [_relationships] only. *)
Lemma generateExecutableSchema_writes (imports : Neo4jGraphQL.Imports)
    (this : Neo4jGraphQL.Neo4jGraphQL) :
  let this' := (Neo4jGraphQL.generateExecutableSchema imports this).2 in
  Neo4jGraphQL.executableSchema this' = Neo4jGraphQL.executableSchema this
  /\ Neo4jGraphQL.subgraphSchema this' = Neo4jGraphQL.subgraphSchema this
  /\ Neo4jGraphQL.subscriptionInit this' = Neo4jGraphQL.subscriptionInit this
  /\ Neo4jGraphQL.features this' = Neo4jGraphQL.features this
  /\ Neo4jGraphQL.dbInfo this' = Neo4jGraphQL.dbInfo this
  /\ Neo4jGraphQL.driver this' = Neo4jGraphQL.driver this.
Proof.
  unfold Neo4jGraphQL.generateExecutableSchema. method_unfold.
  repeat (method_step; cbn); repeat split; reflexivity.
Qed.

(** A resolved promise of [generateExecutableSchema] leaves the model, the
    nodes and the relationships of the augmented schema in the instance. *)
Lemma generateExecutableSchema_resolved (imports : Neo4jGraphQL.Imports)
    (this : Neo4jGraphQL.Neo4jGraphQL) (schema : Neo4jGraphQL.GraphQLSchema) :
  (Neo4jGraphQL.generateExecutableSchema imports this).1 = Return schema ->
  let this' := (Neo4jGraphQL.generateExecutableSchema imports this).2 in
  exists document model augmented,
    Neo4jGraphQL.makeAugmentedSchema document (Neo4jGraphQL.features this)
      (Neo4jGraphQL.resolvers this) model = Return augmented
    /\ Neo4jGraphQL.schemaModel this' = Some model
    /\ Neo4jGraphQL._nodes this' = Some (Neo4jGraphQL.as_nodes augmented)
    /\ Neo4jGraphQL._relationships this'
       = Some (Neo4jGraphQL.as_relationships augmented).
Proof.
  unfold Neo4jGraphQL.generateExecutableSchema. method_unfold.
  repeat (method_step; cbn); intros Hres; try discriminate;
    do 3 eexists; (split; [eassumption|]); repeat split; reflexivity.
Qed.

(** [subscriptionMechanismSetup] stores its promise and writes nothing but
    the engine and [subscriptionInit]. *)
Lemma subscriptionMechanismSetup_writes (this : Neo4jGraphQL.Neo4jGraphQL) :
  let subscribed := Neo4jGraphQL.subscriptionMechanismSetup this in
  Neo4jGraphQL.subscriptionInit subscribed.2 = Some subscribed.1
  /\ Neo4jGraphQL.executableSchema subscribed.2 = Neo4jGraphQL.executableSchema this
  /\ Neo4jGraphQL.subgraphSchema subscribed.2 = Neo4jGraphQL.subgraphSchema this
  /\ Neo4jGraphQL.schemaModel subscribed.2 = Neo4jGraphQL.schemaModel this
  /\ Neo4jGraphQL._nodes subscribed.2 = Neo4jGraphQL._nodes this
  /\ Neo4jGraphQL._relationships subscribed.2 = Neo4jGraphQL._relationships this
  /\ Neo4jGraphQL.dbInfo subscribed.2 = Neo4jGraphQL.dbInfo this
  /\ Neo4jGraphQL.driver subscribed.2 = Neo4jGraphQL.driver this.
Proof.
  unfold Neo4jGraphQL.subscriptionMechanismSetup, Neo4jGraphQL.setup. method_unfold.
  destruct (Neo4jGraphQL.subscriptionInit this) as [stored|] eqn:Hinit; cbn.
  - repeat split; [exact Hinit].
  - repeat (method_step; cbn); repeat split; first [reflexivity | congruence].
Qed.

(** The first call of [getExecutableSchema]. *)
Lemma getExecutableSchema_first (imports : Neo4jGraphQL.Imports)
    (this : Neo4jGraphQL.Neo4jGraphQL) :
  Neo4jGraphQL.executableSchema this = None ->
  let generated := Neo4jGraphQL.generateExecutableSchema imports this in
  let subscribed :=
    Neo4jGraphQL.subscriptionMechanismSetup
      (Neo4jGraphQL.set_executableSchema (Some generated.1) generated.2) in
  Neo4jGraphQL.getExecutableSchema imports this
  = (match subscribed.1 with
     | Throw msg => Throw msg
     | Return _ => generated.1
     end, subscribed.2).
Proof.
  intros Hnone. unfold Neo4jGraphQL.getExecutableSchema. rewrite Hnone. cbn zeta.
  destruct (Neo4jGraphQL.subscriptionMechanismSetup _).1; reflexivity.
Qed.

Lemma getExecutableSchema_stored (imports : Neo4jGraphQL.Imports)
    (this : Neo4jGraphQL.Neo4jGraphQL) (stored : Result Neo4jGraphQL.GraphQLSchema) :
  Neo4jGraphQL.executableSchema this = Some stored ->
  Neo4jGraphQL.getExecutableSchema imports this = (stored, this).
Proof.
  intros Hstored. unfold Neo4jGraphQL.getExecutableSchema. rewrite Hstored. reflexivity.
Qed.

(** The setup of the subscriptions for an engine that has an [init]. *)
Lemma subscriptionMechanismSetup_init (this : Neo4jGraphQL.Neo4jGraphQL)
    (engine : Neo4jGraphQL.Neo4jGraphQLSubscriptionsEngine)
    (init' : Neo4jGraphQL.SchemaModel -> Neo4jGraphQL.EngineState ->
             Result unit * Neo4jGraphQL.EngineState) :
  Neo4jGraphQL.subscriptionInit this = None ->
  Neo4jGraphQL.subscriptions (Neo4jGraphQL.features this) = Some engine ->
  Neo4jGraphQL.init engine = Some init' ->
  let subscribed := Neo4jGraphQL.subscriptionMechanismSetup this in
  match Neo4jGraphQL.schemaModel this with
  | None =>
    subscribed.1 = Throw "SchemaModel not available on subscription mechanism"
    /\ Neo4jGraphQL.subscriptions (Neo4jGraphQL.features subscribed.2)
       = Some {| Neo4jGraphQL.events_maxListeners := 0;
                 Neo4jGraphQL.init := Some init';
                 Neo4jGraphQL.engineState := Neo4jGraphQL.engineState engine |}
  | Some model =>
    subscribed.1 = (init' model (Neo4jGraphQL.engineState engine)).1
    /\ Neo4jGraphQL.subscriptions (Neo4jGraphQL.features subscribed.2)
       = Some {| Neo4jGraphQL.events_maxListeners := 0;
                 Neo4jGraphQL.init := Some init';
                 Neo4jGraphQL.engineState :=
                   (init' model (Neo4jGraphQL.engineState engine)).2 |}
  end.
Proof.
  intros Hinit Hengine Hhas.
  unfold Neo4jGraphQL.subscriptionMechanismSetup, Neo4jGraphQL.setup. method_unfold.
  rewrite Hinit, Hengine, Hhas. cbn.
  destruct (Neo4jGraphQL.schemaModel this) as [model|]; cbn.
  - destruct (init' model (Neo4jGraphQL.engineState engine)) as [[msg|[]] state];
      cbn; split; reflexivity.
  - split; reflexivity.
Qed.

Lemma option_union_Some_l {A} (a : A) (o : option A) : Some a ∪ o = Some a.
Proof. destruct o; reflexivity. Qed.

Lemma option_union_None_l {A} (o : option A) : None ∪ o = o.
Proof. destruct o; reflexivity. Qed.

(** The outcomes of [assertIndexesAndConstraints], in the order of its
    checks. *)
Lemma assertIndexesAndConstraints_cases (imports : Neo4jGraphQL.Imports)
    (driver' : option Neo4jGraphQL.Driver)
    (sessionConfig : option Neo4jGraphQL.SessionConfig)
    (options : option Neo4jGraphQL.AssertIndexesAndConstraintsOptions)
    (this : Neo4jGraphQL.Neo4jGraphQL) :
  Neo4jGraphQL.assertIndexesAndConstraints imports driver' sessionConfig options this
  = match Neo4jGraphQL.executableSchema this ∪ Neo4jGraphQL.subgraphSchema this with
    | None =>
      (Throw "You must await `.getSchema()` before `.assertIndexesAndConstraints()`",
       this)
    | Some (Throw msg) => (Throw msg, this)
    | Some (Return _) =>
      match driver' ∪ Neo4jGraphQL.driver this with
      | None => (Throw "neo4j-driver Driver missing", this)
      | Some neo4jDriver =>
        match Neo4jGraphQL.dbInfo this with
        | Some _ =>
          (do ns <- Neo4jGraphQL.nodes this;
           Neo4jGraphQL.assertIndexesAndConstraints_ neo4jDriver sessionConfig ns options,
           this)
        | None =>
          match Neo4jGraphQL.getNeo4jDatabaseInfo_ neo4jDriver sessionConfig with
          | Throw msg => (Throw msg, this)
          | Return info =>
            (do ns <- Neo4jGraphQL.nodes this;
             Neo4jGraphQL.assertIndexesAndConstraints_ neo4jDriver sessionConfig ns
               options,
             Neo4jGraphQL.set_dbInfo (Some info) this)
          end
        end
      end
    end.
Proof.
  unfold Neo4jGraphQL.assertIndexesAndConstraints, Neo4jGraphQL.getNeo4jDatabaseInfo.
  method_unfold.
  destruct (_ ∪ Neo4jGraphQL.subgraphSchema this) as [[msg|schema]|]; try reflexivity.
  destruct (driver' ∪ Neo4jGraphQL.driver this) as [neo4jDriver|]; [|reflexivity].
  destruct (Neo4jGraphQL.dbInfo this) as [info|]; cbn.
  - destruct (Neo4jGraphQL.nodes this); reflexivity.
  - destruct (Neo4jGraphQL.getNeo4jDatabaseInfo_ neo4jDriver sessionConfig) as [msg|info];
      cbn; [reflexivity|].
    change (Neo4jGraphQL.nodes (Neo4jGraphQL.set_dbInfo (Some info) this))
      with (Neo4jGraphQL.nodes this).
    destruct (Neo4jGraphQL.nodes this); reflexivity.
Qed.

(** The outcomes of [checkNeo4jCompat]. *)
Lemma checkNeo4jCompat_cases (imports : Neo4jGraphQL.Imports)
    (driver' : option Neo4jGraphQL.Driver)
    (sessionConfig : option Neo4jGraphQL.SessionConfig)
    (this : Neo4jGraphQL.Neo4jGraphQL) :
  Neo4jGraphQL.checkNeo4jCompat imports driver' sessionConfig this
  = match driver' ∪ Neo4jGraphQL.driver this with
    | None => (Throw "neo4j-driver Driver missing", this)
    | Some neo4jDriver =>
      match Neo4jGraphQL.dbInfo this with
      | Some info =>
        (Neo4jGraphQL.checkNeo4jCompat_ neo4jDriver sessionConfig info, this)
      | None =>
        match Neo4jGraphQL.getNeo4jDatabaseInfo_ neo4jDriver sessionConfig with
        | Throw msg => (Throw msg, this)
        | Return info =>
          (Neo4jGraphQL.checkNeo4jCompat_ neo4jDriver sessionConfig info,
           Neo4jGraphQL.set_dbInfo (Some info) this)
        end
      end
    end.
Proof.
  unfold Neo4jGraphQL.checkNeo4jCompat, Neo4jGraphQL.getNeo4jDatabaseInfo.
  method_unfold.
  destruct (driver' ∪ Neo4jGraphQL.driver this) as [neo4jDriver|]; [|reflexivity].
  destruct (Neo4jGraphQL.dbInfo this) as [info|]; cbn; [reflexivity|].
  destruct (Neo4jGraphQL.getNeo4jDatabaseInfo_ neo4jDriver sessionConfig); reflexivity.
Qed.

End Neo4jGraphQLFacts.

Example fixture_instance_constructed (validation : Result unit) (validate : option bool) :
  Neo4jGraphQL.constructor_ (Fixture7.imports validation) (Fixture7.input validate)
  = ([], Return (Fixture7.instance validate)).
Proof. reflexivity. Qed.

(** X18: the executable schema is generated once.  After a call of
    [getExecutableSchema], whatever its outcome, the instance holds the
    promise of the generation; every later call returns that promise and
    leaves the instance, the subscriptions engine included, as it is,
    whatever the imported functions would do.  The first call gives the same
    outcome unless the setup of the subscriptions failed. *)
Theorem schema_generated_once `{T : Neo4jGraphQL.ExternalTypes}
    (imports imports' : Neo4jGraphQL.Imports) (this : Neo4jGraphQL.Neo4jGraphQL) :
  let first := Neo4jGraphQL.getExecutableSchema imports this in
  exists stored,
    Neo4jGraphQL.executableSchema first.2 = Some stored
    /\ Neo4jGraphQL.getExecutableSchema imports' first.2 = (stored, first.2)
    /\ (first.1 = stored
        \/ exists msg,
             first.1 = Throw msg
             /\ Neo4jGraphQL.subscriptionInit first.2 = Some (Throw msg)).
Proof.
  intros first.
  assert (Hfirst : first = Neo4jGraphQL.getExecutableSchema imports this) by reflexivity.
  clearbody first. unfold Neo4jGraphQL.getExecutableSchema in Hfirst.
  destruct (Neo4jGraphQL.executableSchema this) as [stored|] eqn:Hstored.
  - subst first. exists stored. cbn. split; [exact Hstored|]. split; [|left; reflexivity].
    unfold Neo4jGraphQL.getExecutableSchema. rewrite Hstored. reflexivity.
  - cbn zeta in Hfirst.
    set (generated := Neo4jGraphQL.generateExecutableSchema imports this) in Hfirst.
    set (this1 := Neo4jGraphQL.set_executableSchema (Some generated.1) generated.2)
      in Hfirst.
    destruct (subscriptionMechanismSetup_writes this1) as (Hinit & Hschema & _).
    exists generated.1.
    assert (Hkept : Neo4jGraphQL.executableSchema
                      (Neo4jGraphQL.subscriptionMechanismSetup this1).2
                    = Some generated.1) by (rewrite Hschema; reflexivity).
    destruct (Neo4jGraphQL.subscriptionMechanismSetup this1).1 as [msg|[]] eqn:Hsub;
      subst first; cbn [fst snd].
    + split; [exact Hkept|]. split.
      * unfold Neo4jGraphQL.getExecutableSchema. rewrite Hkept. reflexivity.
      * right. exists msg. split; [reflexivity | exact Hinit].
    + split; [exact Hkept|]. split; [|left; reflexivity].
      unfold Neo4jGraphQL.getExecutableSchema. rewrite Hkept. reflexivity.
Qed.

(** X19: a failure of the generation before the schema model exists is
    masked on the first call when an engine with an [init] is configured:
    the first call of [getExecutableSchema] fails with "SchemaModel not
    available on subscription mechanism", and only the next call reports
    the failure of the generation. *)
Theorem generation_failure_masked_on_first_call `{T : Neo4jGraphQL.ExternalTypes}
    (imports imports' : Neo4jGraphQL.Imports) (this : Neo4jGraphQL.Neo4jGraphQL)
    (engine : Neo4jGraphQL.Neo4jGraphQLSubscriptionsEngine)
    (init' : Neo4jGraphQL.SchemaModel -> Neo4jGraphQL.EngineState ->
             Result unit * Neo4jGraphQL.EngineState)
    (msg : string) :
  Neo4jGraphQL.executableSchema this = None ->
  Neo4jGraphQL.subscriptionInit this = None ->
  Neo4jGraphQL.subscriptions (Neo4jGraphQL.features this) = Some engine ->
  Neo4jGraphQL.init engine = Some init' ->
  (Neo4jGraphQL.generateExecutableSchema imports this).1 = Throw msg ->
  Neo4jGraphQL.schemaModel (Neo4jGraphQL.generateExecutableSchema imports this).2 = None ->
  let first := Neo4jGraphQL.getExecutableSchema imports this in
  first.1 = Throw "SchemaModel not available on subscription mechanism"
  /\ (Neo4jGraphQL.getExecutableSchema imports' first.2).1 = Throw msg.
Proof.
  intros Hnone Hinit Hengine Hhas Hfail Hmodel first. subst first.
  rewrite (getExecutableSchema_first imports this Hnone). cbn zeta.
  destruct (generateExecutableSchema_writes imports this)
    as (_ & _ & Hinit' & Hfeatures & _).
  set (generated := Neo4jGraphQL.generateExecutableSchema imports this) in *.
  set (this1 := Neo4jGraphQL.set_executableSchema (Some generated.1) generated.2).
  assert (H1 : Neo4jGraphQL.subscriptionInit this1 = None)
    by (cbn; rewrite Hinit'; exact Hinit).
  assert (H2 : Neo4jGraphQL.subscriptions (Neo4jGraphQL.features this1) = Some engine)
    by (cbn; rewrite Hfeatures; exact Hengine).
  pose proof (subscriptionMechanismSetup_init this1 engine init' H1 H2 Hhas) as Hsetup.
  cbn zeta in Hsetup.
  change (Neo4jGraphQL.schemaModel this1)
    with (Neo4jGraphQL.schemaModel generated.2) in Hsetup.
  rewrite Hmodel in Hsetup. destruct Hsetup as [Hsub _].
  rewrite Hsub. cbn [fst snd]. split; [reflexivity|].
  destruct (subscriptionMechanismSetup_writes this1) as (_ & Hschema & _).
  rewrite (getExecutableSchema_stored imports' _ (Throw msg)); [reflexivity|].
  rewrite Hschema. cbn. rewrite Hfail. reflexivity.
Qed.

Lemma generation_failure_masked_on_first_call_witness :
  let first :=
    Neo4jGraphQL.getExecutableSchema
      (Fixture7.imports (Throw "Invalid type definitions")) (Fixture7.instance None) in
  first.1 = Throw "SchemaModel not available on subscription mechanism"
  /\ (Neo4jGraphQL.getExecutableSchema
        (Fixture7.imports (Throw "Invalid type definitions")) first.2).1
     = Throw "Invalid type definitions".
Proof.
  apply (generation_failure_masked_on_first_call
           (Fixture7.imports (Throw "Invalid type definitions"))
           (Fixture7.imports (Throw "Invalid type definitions"))
           (Fixture7.instance None) Fixture7.engine
           (fun model called => (Return tt, model :: called)));
    reflexivity.
Defined.

(** X20: when [getExecutableSchema] resolves, the instance holds the schema
    model and the nodes and relationships that [makeAugmentedSchema]
    returned; [assertIndexesAndConstraints], given a driver, then throws
    neither of its own errors: it asks for the database information if the
    instance has none and hands these nodes to the imported assertion. *)
Theorem resolved_schema_gives_nodes_to_assertion `{T : Neo4jGraphQL.ExternalTypes}
    (imports imports' : Neo4jGraphQL.Imports) (this : Neo4jGraphQL.Neo4jGraphQL)
    (schema : Neo4jGraphQL.GraphQLSchema) :
  Neo4jGraphQL.executableSchema this = None ->
  (Neo4jGraphQL.getExecutableSchema imports this).1 = Return schema ->
  let this1 := (Neo4jGraphQL.getExecutableSchema imports this).2 in
  exists document model augmented,
    @Neo4jGraphQL.makeAugmentedSchema T imports document (Neo4jGraphQL.features this)
      (Neo4jGraphQL.resolvers this) model = Return augmented
    /\ Neo4jGraphQL.schemaModel this1 = Some model
    /\ Neo4jGraphQL._nodes this1 = Some (Neo4jGraphQL.as_nodes augmented)
    /\ Neo4jGraphQL._relationships this1 = Some (Neo4jGraphQL.as_relationships augmented)
    /\ forall neo4jDriver sessionConfig options,
         (Neo4jGraphQL.assertIndexesAndConstraints imports' (Some neo4jDriver)
            sessionConfig options this1).1
         = do _ <- match Neo4jGraphQL.dbInfo this with
                   | Some info => Return info
                   | None =>
                     @Neo4jGraphQL.getNeo4jDatabaseInfo_ T imports' neo4jDriver sessionConfig
                   end;
           @Neo4jGraphQL.assertIndexesAndConstraints_ T imports' neo4jDriver sessionConfig
             (Neo4jGraphQL.as_nodes augmented) options.
Proof.
  intros Hnone Hres this1. subst this1.
  rewrite (getExecutableSchema_first imports this Hnone) in *. cbn zeta in *.
  destruct (generateExecutableSchema_writes imports this)
    as (_ & Hsub & _ & _ & Hdb & _).
  set (generated := Neo4jGraphQL.generateExecutableSchema imports this) in *.
  set (this1 := Neo4jGraphQL.set_executableSchema (Some generated.1) generated.2) in *.
  destruct (subscriptionMechanismSetup_writes this1)
    as (_ & Hschema & Hsubgraph & Hmodel & Hnodes & Hrels & Hdb' & _).
  cbn [fst snd] in *.
  destruct (Neo4jGraphQL.subscriptionMechanismSetup this1).1 as [msg|[]];
    [discriminate|].
  destruct (generateExecutableSchema_resolved imports this schema Hres)
    as (document & model & augmented & Haug & Hm & Hn & Hr).
  exists document, model, augmented.
  split; [exact Haug|]. split; [rewrite Hmodel; exact Hm|].
  split; [rewrite Hnodes; exact Hn|]. split; [rewrite Hrels; exact Hr|].
  intros neo4jDriver sessionConfig options.
  rewrite assertIndexesAndConstraints_cases.
  rewrite Hschema. cbn [Neo4jGraphQL.executableSchema Neo4jGraphQL.set_executableSchema this1].
  rewrite option_union_Some_l. fold generated. rewrite Hres.
  rewrite option_union_Some_l, Hdb'.
  change (Neo4jGraphQL.dbInfo this1) with (Neo4jGraphQL.dbInfo generated.2).
  rewrite Hdb.
  assert (Hns : Neo4jGraphQL.nodes (Neo4jGraphQL.subscriptionMechanismSetup this1).2
                = Return (Neo4jGraphQL.as_nodes augmented)).
  { unfold Neo4jGraphQL.nodes. rewrite Hnodes.
    change (Neo4jGraphQL._nodes this1) with (Neo4jGraphQL._nodes generated.2).
    fold generated in Hn. rewrite Hn. reflexivity. }
  destruct (Neo4jGraphQL.dbInfo this) as [info|]; cbn [fst].
  - rewrite Hns. reflexivity.
  - destruct (Neo4jGraphQL.getNeo4jDatabaseInfo_ neo4jDriver sessionConfig) as [msg|info];
      cbn [fst]; [reflexivity|].
    rewrite Hns. reflexivity.
Qed.

Lemma resolved_schema_gives_nodes_to_assertion_witness :
  let this1 :=
    (Neo4jGraphQL.getExecutableSchema (Fixture7.imports (Return tt))
       (Fixture7.instance None)).2 in
  Neo4jGraphQL._nodes this1 = Some [Fixture2.Movie]
  /\ (Neo4jGraphQL.assertIndexesAndConstraints (Fixture7.imports (Return tt))
        (Some "bolt://localhost") None None this1).1 = Return tt.
Proof.
  destruct (resolved_schema_gives_nodes_to_assertion
              (Fixture7.imports (Return tt)) (Fixture7.imports (Return tt))
              (Fixture7.instance None) "schema of type Movie" eq_refl eq_refl)
    as (document & model & augmented & Haug & _ & Hnodes & _ & Hassert).
  injection Haug as <-.
  split; [exact Hnodes|]. rewrite Hassert. reflexivity.
Defined.

(** X21: [assertIndexesAndConstraints] looks at the schema before anything
    else.  On an instance that was never asked for a schema it throws "You
    must await `.getSchema()` before `.assertIndexesAndConstraints()`";
    once [getExecutableSchema] was called and the generation failed, it
    throws the failure of the generation.  Both hold with or without a
    driver, and the instance is left as it is: the database is not asked. *)
Theorem assertion_reports_schema_state_first `{T : Neo4jGraphQL.ExternalTypes}
    (imports imports' : Neo4jGraphQL.Imports) (this : Neo4jGraphQL.Neo4jGraphQL)
    (driver' : option Neo4jGraphQL.Driver)
    (sessionConfig : option Neo4jGraphQL.SessionConfig)
    (options : option Neo4jGraphQL.AssertIndexesAndConstraintsOptions)
    (msg : string) :
  Neo4jGraphQL.executableSchema this = None ->
  Neo4jGraphQL.subgraphSchema this = None ->
  (Neo4jGraphQL.generateExecutableSchema imports this).1 = Throw msg ->
  Neo4jGraphQL.assertIndexesAndConstraints imports' driver' sessionConfig options this
  = (Throw "You must await `.getSchema()` before `.assertIndexesAndConstraints()`", this)
  /\ let this1 := (Neo4jGraphQL.getExecutableSchema imports this).2 in
     Neo4jGraphQL.assertIndexesAndConstraints imports' driver' sessionConfig options this1
     = (Throw msg, this1).
Proof.
  intros Hnone Hsubgraph Hfail. split.
  - rewrite assertIndexesAndConstraints_cases, Hnone, Hsubgraph. reflexivity.
  - intros this1. subst this1.
    rewrite (getExecutableSchema_first imports this Hnone). cbn zeta. cbn [snd].
    rewrite assertIndexesAndConstraints_cases.
    destruct (subscriptionMechanismSetup_writes
                (Neo4jGraphQL.set_executableSchema
                   (Some (Neo4jGraphQL.generateExecutableSchema imports this).1)
                   (Neo4jGraphQL.generateExecutableSchema imports this).2))
      as (_ & Hschema & _).
    rewrite Hschema. cbn [Neo4jGraphQL.executableSchema Neo4jGraphQL.set_executableSchema].
    rewrite option_union_Some_l, Hfail. reflexivity.
Qed.

Lemma assertion_reports_schema_state_first_witness :
  Neo4jGraphQL.assertIndexesAndConstraints (Fixture7.imports (Return tt))
    (Some "bolt://localhost") None None
    (Neo4jGraphQL.getExecutableSchema
       (Fixture7.imports (Throw "Invalid type definitions")) (Fixture7.instance None)).2
  = (Throw "Invalid type definitions",
     (Neo4jGraphQL.getExecutableSchema
        (Fixture7.imports (Throw "Invalid type definitions")) (Fixture7.instance None)).2).
Proof.
  apply (assertion_reports_schema_state_first
           (Fixture7.imports (Throw "Invalid type definitions"))
           (Fixture7.imports (Return tt)) (Fixture7.instance None)
           (Some "bolt://localhost") None None "Invalid type definitions");
    reflexivity.
Defined.

(** X22: the database information is asked for once per instance, not once
    per driver.  The first successful [checkNeo4jCompat] stores what
    [getNeo4jDatabaseInfo] returned for its driver; every later call checks
    the driver it is given, a different one included, against this stored
    information and leaves the instance as it is. *)
Theorem database_info_cached_across_drivers `{T : Neo4jGraphQL.ExternalTypes}
    (imports imports' : Neo4jGraphQL.Imports) (this : Neo4jGraphQL.Neo4jGraphQL)
    (driver' : option Neo4jGraphQL.Driver)
    (sessionConfig : option Neo4jGraphQL.SessionConfig)
    (neo4jDriver : Neo4jGraphQL.Driver) (info : Neo4jGraphQL.Neo4jDatabaseInfo) :
  driver' ∪ Neo4jGraphQL.driver this = Some neo4jDriver ->
  Neo4jGraphQL.dbInfo this = None ->
  @Neo4jGraphQL.getNeo4jDatabaseInfo_ T imports neo4jDriver sessionConfig = Return info ->
  let first := Neo4jGraphQL.checkNeo4jCompat imports driver' sessionConfig this in
  first.1 = @Neo4jGraphQL.checkNeo4jCompat_ T imports neo4jDriver sessionConfig info
  /\ Neo4jGraphQL.dbInfo first.2 = Some info
  /\ forall other sessionConfig',
       Neo4jGraphQL.checkNeo4jCompat imports' (Some other) sessionConfig' first.2
       = (@Neo4jGraphQL.checkNeo4jCompat_ T imports' other sessionConfig' info, first.2).
Proof.
  intros Hdriver Hnone Hinfo first. subst first.
  rewrite checkNeo4jCompat_cases, Hdriver, Hnone, Hinfo. cbn [fst snd].
  split; [reflexivity|]. split; [reflexivity|].
  intros other sessionConfig'.
  rewrite checkNeo4jCompat_cases, option_union_Some_l. reflexivity.
Qed.

Lemma database_info_cached_across_drivers_witness :
  let first :=
    Neo4jGraphQL.checkNeo4jCompat (Fixture7.imports (Return tt))
      (Some "bolt://first") None (Fixture7.instance None) in
  Neo4jGraphQL.dbInfo first.2 = Some "info of bolt://first"
  /\ Neo4jGraphQL.dbInfo
       (Neo4jGraphQL.checkNeo4jCompat (Fixture7.imports (Return tt))
          (Some "bolt://second") None first.2).2
     = Some "info of bolt://first".
Proof.
  destruct (database_info_cached_across_drivers
              (Fixture7.imports (Return tt)) (Fixture7.imports (Return tt))
              (Fixture7.instance None) (Some "bolt://first") None
              "bolt://first" "info of bolt://first" eq_refl eq_refl eq_refl)
    as (_ & Hinfo & Hlater).
  split; [exact Hinfo|]. rewrite Hlater. exact Hinfo.
Defined.

(** X23: with [validate: false] the functions that validate the type
    definitions have no part in [getExecutableSchema]: whatever
    [getDefinitionNodes], [validateDocument] and [validateUserDefinition]
    would do, the outcome and the instance are the same. *)
Theorem validation_skipped_when_disabled `{T : Neo4jGraphQL.ExternalTypes}
    (imports : Neo4jGraphQL.Imports)
    (getDefinitionNodes' :
       Neo4jGraphQL.DocumentNode -> Result Neo4jGraphQL.DefinitionNodes)
    (validateDocument' :
       Neo4jGraphQL.DocumentNode -> Neo4jGraphQL.ContextFeatures ->
       Neo4jGraphQL.AdditionalDefinitions -> option Neo4jGraphQL.Resolvers -> Result unit)
    (validateUserDefinition' :
       Neo4jGraphQL.DocumentNode -> Neo4jGraphQL.DocumentNode ->
       option Neo4jGraphQL.JwtType -> Result unit)
    (this : Neo4jGraphQL.Neo4jGraphQL) :
  Neo4jGraphQL.validate this = false ->
  Neo4jGraphQL.getExecutableSchema
    (Neo4jGraphQL.withValidation imports getDefinitionNodes' validateDocument'
       validateUserDefinition') this
  = Neo4jGraphQL.getExecutableSchema imports this.
Proof.
  intros Hvalidate.
  assert (Hgenerate :
            Neo4jGraphQL.generateExecutableSchema
              (Neo4jGraphQL.withValidation imports getDefinitionNodes' validateDocument'
                 validateUserDefinition') this
            = Neo4jGraphQL.generateExecutableSchema imports this).
  { unfold Neo4jGraphQL.generateExecutableSchema, Neo4jGraphQL.normalizeTypeDefinitions,
      Neo4jGraphQL.generateSchemaModel, Neo4jGraphQL.composeSchema,
      Neo4jGraphQL.wrapResolvers, Neo4jGraphQL.addDefaultFieldResolvers,
      Neo4jGraphQL.withValidation.
    method_unfold. cbn. rewrite Hvalidate.
    repeat (first [reflexivity | method_step; cbn; rewrite ?Hvalidate]). }
  unfold Neo4jGraphQL.getExecutableSchema. rewrite Hgenerate. reflexivity.
Qed.

Lemma validation_skipped_when_disabled_witness :
  (Neo4jGraphQL.getExecutableSchema
     (Neo4jGraphQL.withValidation (Fixture7.imports (Return tt))
        (fun _ => Throw "no definition nodes")
        (fun _ _ _ _ => Throw "Invalid type definitions")
        (fun _ _ _ => Throw "Invalid augmented definitions"))
     (Fixture7.instance (Some false))).1
  = Return "schema of type Movie".
Proof.
  rewrite (validation_skipped_when_disabled (Fixture7.imports (Return tt))
             (fun _ => Throw "no definition nodes")
             (fun _ _ _ _ => Throw "Invalid type definitions")
             (fun _ _ _ => Throw "Invalid augmented definitions")
             (Fixture7.instance (Some false)) eq_refl).
  reflexivity.
Defined.

(** X24: on the first call of [getExecutableSchema] for an engine that has
    an [init], once the generation has left a schema model, the listener
    limit of the engine is lifted and [init] is called with this model; a
    failure of [init] is the failure of the call, although the schema was
    generated.  A later call does not run [init] again and returns what the
    generation gave. *)
Theorem subscription_engine_initialised_with_generated_model
    `{T : Neo4jGraphQL.ExternalTypes}
    (imports imports' : Neo4jGraphQL.Imports) (this : Neo4jGraphQL.Neo4jGraphQL)
    (engine : Neo4jGraphQL.Neo4jGraphQLSubscriptionsEngine)
    (init' : Neo4jGraphQL.SchemaModel -> Neo4jGraphQL.EngineState ->
             Result unit * Neo4jGraphQL.EngineState)
    (model : Neo4jGraphQL.SchemaModel) :
  Neo4jGraphQL.executableSchema this = None ->
  Neo4jGraphQL.subscriptionInit this = None ->
  Neo4jGraphQL.subscriptions (Neo4jGraphQL.features this) = Some engine ->
  Neo4jGraphQL.init engine = Some init' ->
  Neo4jGraphQL.schemaModel (Neo4jGraphQL.generateExecutableSchema imports this).2
  = Some model ->
  let generated := (Neo4jGraphQL.generateExecutableSchema imports this).1 in
  let outcome := init' model (Neo4jGraphQL.engineState engine) in
  let first := Neo4jGraphQL.getExecutableSchema imports this in
  first.1 = match outcome.1 with
            | Throw msg => Throw msg
            | Return _ => generated
            end
  /\ Neo4jGraphQL.subscriptions (Neo4jGraphQL.features first.2)
     = Some {| Neo4jGraphQL.events_maxListeners := 0;
               Neo4jGraphQL.init := Some init';
               Neo4jGraphQL.engineState := outcome.2 |}
  /\ Neo4jGraphQL.getExecutableSchema imports' first.2 = (generated, first.2).
Proof.
  intros Hnone Hinit Hengine Hhas Hmodel generated outcome first.
  subst generated outcome first.
  rewrite (getExecutableSchema_first imports this Hnone). cbn zeta.
  destruct (generateExecutableSchema_writes imports this)
    as (_ & _ & Hinit' & Hfeatures & _).
  set (generated := Neo4jGraphQL.generateExecutableSchema imports this) in *.
  set (this1 := Neo4jGraphQL.set_executableSchema (Some generated.1) generated.2).
  assert (H1 : Neo4jGraphQL.subscriptionInit this1 = None)
    by (cbn; rewrite Hinit'; exact Hinit).
  assert (H2 : Neo4jGraphQL.subscriptions (Neo4jGraphQL.features this1) = Some engine)
    by (cbn; rewrite Hfeatures; exact Hengine).
  pose proof (subscriptionMechanismSetup_init this1 engine init' H1 H2 Hhas) as Hsetup.
  cbn zeta in Hsetup.
  change (Neo4jGraphQL.schemaModel this1)
    with (Neo4jGraphQL.schemaModel generated.2) in Hsetup.
  rewrite Hmodel in Hsetup. destruct Hsetup as [Hsub Hstate].
  cbn [fst snd]. rewrite Hsub. split; [reflexivity|]. split; [exact Hstate|].
  destruct (subscriptionMechanismSetup_writes this1) as (_ & Hschema & _).
  apply getExecutableSchema_stored. rewrite Hschema. reflexivity.
Qed.

Lemma subscription_engine_initialised_with_generated_model_witness :
  let first :=
    Neo4jGraphQL.getExecutableSchema (Fixture7.imports (Return tt))
      (Fixture7.instance None) in
  first.1 = Return "schema of type Movie"
  /\ Neo4jGraphQL.engineState
       <$> Neo4jGraphQL.subscriptions (Neo4jGraphQL.features first.2)
     = Some ["model of type Movie"]
  /\ Neo4jGraphQL.getExecutableSchema (Fixture7.imports (Return tt)) first.2
     = (Return "schema of type Movie", first.2).
Proof.
  destruct (subscription_engine_initialised_with_generated_model
              (Fixture7.imports (Return tt)) (Fixture7.imports (Return tt))
              (Fixture7.instance None) Fixture7.engine
              (fun model called => (Return tt, model :: called))
              "model of type Movie" eq_refl eq_refl eq_refl eq_refl eq_refl)
    as (Hfirst & Hengine & Hsecond).
  split; [exact Hfirst|]. split; [rewrite Hengine; reflexivity | exact Hsecond].
Defined.

(** X25: an instance constructed without a subscriptions engine (the
    setting is absent or [false]) has nothing to set up: the first call of
    [getExecutableSchema] gives exactly the outcome of the generation. *)
Theorem without_subscriptions_first_call_reports_generation
    `{T : Neo4jGraphQL.ExternalTypes}
    (imports imports' : Neo4jGraphQL.Imports)
    (input : Neo4jGraphQL.Neo4jGraphQLConstructor)
    (calls : list Neo4jGraphQL.DebugCall) (this : Neo4jGraphQL.Neo4jGraphQL) :
  Neo4jGraphQL.constructor_ imports input = (calls, Return this) ->
  (Neo4jGraphQL.c_features input ≫= Neo4jGraphQL.fs_subscriptions = None
   \/ Neo4jGraphQL.c_features input ≫= Neo4jGraphQL.fs_subscriptions
      = Some (Neo4jGraphQL.SubscriptionsFlag false)) ->
  Neo4jGraphQL.subscriptions (Neo4jGraphQL.features this) = None
  /\ (Neo4jGraphQL.getExecutableSchema imports' this).1
     = (Neo4jGraphQL.generateExecutableSchema imports' this).1.
Proof.
  intros Hnew Hsetting.
  assert (Hfresh : Neo4jGraphQL.subscriptions (Neo4jGraphQL.features this) = None
                   /\ Neo4jGraphQL.executableSchema this = None
                   /\ Neo4jGraphQL.subscriptionInit this = None).
  { unfold Neo4jGraphQL.constructor_ in Hnew. cbn in Hnew.
    destruct (Neo4jGraphQL.c_features input ≫= Neo4jGraphQL.fs_authorization).
    - destruct (Neo4jGraphQL.newNeo4jGraphQLAuthorization _);
        cbn in Hnew; [discriminate|].
      injection Hnew as _ <-. cbn. destruct Hsetting as [-> | ->]; auto.
    - injection Hnew as _ <-. cbn. destruct Hsetting as [-> | ->]; auto. }
  destruct Hfresh as (Hnone & Hschema & Hinit). split; [exact Hnone|].
  rewrite (getExecutableSchema_first imports' this Hschema). cbn zeta. cbn [fst].
  destruct (generateExecutableSchema_writes imports' this)
    as (_ & _ & Hinit' & Hfeatures & _).
  unfold Neo4jGraphQL.subscriptionMechanismSetup, Neo4jGraphQL.setup. method_unfold.
  cbn. rewrite Hinit', Hinit. cbn. rewrite Hfeatures, Hnone. reflexivity.
Qed.

Lemma without_subscriptions_first_call_reports_generation_witness :
  (Neo4jGraphQL.getExecutableSchema (Fixture7.imports (Throw "Invalid type definitions"))
     {| Neo4jGraphQL.typeDefs := "type Movie";
        Neo4jGraphQL.resolvers := None;
        Neo4jGraphQL.directives := None;
        Neo4jGraphQL.driver := None;
        Neo4jGraphQL.features :=
          {| Neo4jGraphQL.subscriptions := None;
             Neo4jGraphQL.cf_authorization := None;
             Neo4jGraphQL.cf_other := None |};
        Neo4jGraphQL._nodes := None;
        Neo4jGraphQL._relationships := None;
        Neo4jGraphQL.jwtFieldsMap := None;
        Neo4jGraphQL.schemaModel := None;
        Neo4jGraphQL.executableSchema := None;
        Neo4jGraphQL.subgraphSchema := None;
        Neo4jGraphQL.subscriptionInit := None;
        Neo4jGraphQL.dbInfo := None;
        Neo4jGraphQL.authorization := None;
        Neo4jGraphQL.debug := Some true;
        Neo4jGraphQL.validate := true |}).1
  = Throw "Invalid type definitions".
Proof.
  refine (eq_trans
            (proj2 (without_subscriptions_first_call_reports_generation
                      (Fixture7.imports (Return tt))
                      (Fixture7.imports (Throw "Invalid type definitions"))
                      {| Neo4jGraphQL.c_typeDefs := "type Movie";
                         Neo4jGraphQL.c_resolvers := None;
                         Neo4jGraphQL.c_features := None;
                         Neo4jGraphQL.c_driver := None;
                         Neo4jGraphQL.c_debug := Some true;
                         Neo4jGraphQL.c_validate := None;
                         Neo4jGraphQL.c_directives := None |}
                      [Neo4jGraphQL.DebugEnable "@neo4j/graphql:*"] _ eq_refl
                      (or_introl eq_refl)))
            _).
  reflexivity.
Defined.

Ltac contradict_return :=
  match goal with
  | Hc : _ = Throw _, Hr : forall _, _ |- _ =>
    exfalso; clear -Hc Hr;
    edestruct Hr as [? Hb]; rewrite Hb in Hc; discriminate
  end.

(** X26: the class adds no failure of its own to the generation.  When
    every imported function returns, the promise of
    [generateExecutableSchema] is resolved: the errors "Schema Model is not
    defined" and "You must await `.getSchema()` before accessing ..." of
    [wrapResolvers] and of the getters cannot occur there.  When moreover
    the engine, if there is one with an [init], initialises, the first call
    of [getExecutableSchema] resolves with the same schema. *)
Theorem generation_resolves_when_imports_return `{T : Neo4jGraphQL.ExternalTypes}
    (imports : Neo4jGraphQL.Imports) (this : Neo4jGraphQL.Neo4jGraphQL) :
  Neo4jGraphQL.ImportsReturn imports ->
  exists schema,
    (Neo4jGraphQL.generateExecutableSchema imports this).1 = Return schema
    /\ (Neo4jGraphQL.executableSchema this = None ->
        (forall engine init' model,
           Neo4jGraphQL.subscriptions (Neo4jGraphQL.features this) = Some engine ->
           Neo4jGraphQL.init engine = Some init' ->
           (init' model (Neo4jGraphQL.engineState engine)).1 = Return tt) ->
        (forall msg, Neo4jGraphQL.subscriptionInit this <> Some (Throw msg)) ->
        (Neo4jGraphQL.getExecutableSchema imports this).1 = Return schema).
Proof.
  intros Hreturn.
  assert (Hgenerated : exists schema,
             (Neo4jGraphQL.generateExecutableSchema imports this).1 = Return schema).
  { destruct Hreturn.
    unfold Neo4jGraphQL.generateExecutableSchema, Neo4jGraphQL.normalizeTypeDefinitions,
      Neo4jGraphQL.generateSchemaModel, Neo4jGraphQL.composeSchema,
      Neo4jGraphQL.wrapResolvers, Neo4jGraphQL.addDefaultFieldResolvers,
      Neo4jGraphQL.nodes, Neo4jGraphQL.relationships, rbind.
    method_unfold.
    repeat (method_step; cbn); try contradict_return;
      first [eexists; reflexivity | apply returns_forEachField]. }
  destruct Hgenerated as [schema Hschema]. exists schema. split; [exact Hschema|].
  intros Hnone Hengine Hinit.
  rewrite (getExecutableSchema_first imports this Hnone). cbn zeta. cbn [fst].
  destruct (generateExecutableSchema_writes imports this)
    as (_ & _ & Hinit' & Hfeatures & _).
  destruct (generateExecutableSchema_resolved imports this schema Hschema)
    as (_ & model & _ & _ & Hmodel & _).
  set (generated := Neo4jGraphQL.generateExecutableSchema imports this) in *.
  set (this1 := Neo4jGraphQL.set_executableSchema (Some generated.1) generated.2).
  assert (Hsub : exists done, (Neo4jGraphQL.subscriptionMechanismSetup this1).1 = Return done).
  { destruct (Neo4jGraphQL.subscriptionInit this1) as [[msg|done]|] eqn:Hstored.
    - exfalso. apply (Hinit msg). rewrite <- Hinit'. exact Hstored.
    - exists done. unfold Neo4jGraphQL.subscriptionMechanismSetup. rewrite Hstored.
      reflexivity.
    - destruct (Neo4jGraphQL.subscriptions (Neo4jGraphQL.features this1))
        as [engine|] eqn:Heng.
      + destruct (Neo4jGraphQL.init engine) as [init'|] eqn:Hhas.
        * pose proof (subscriptionMechanismSetup_init this1 engine init' Hstored Heng Hhas)
            as Hsetup.
          cbn zeta in Hsetup.
          change (Neo4jGraphQL.schemaModel this1)
            with (Neo4jGraphQL.schemaModel generated.2) in Hsetup.
          rewrite Hmodel in Hsetup. destruct Hsetup as [-> _].
          exists tt. apply (Hengine engine init' model); [|exact Hhas].
          rewrite <- Hfeatures. exact Heng.
        * exists tt. unfold Neo4jGraphQL.subscriptionMechanismSetup, Neo4jGraphQL.setup.
          method_unfold. rewrite Hstored, Heng, Hhas. reflexivity.
      + exists tt. unfold Neo4jGraphQL.subscriptionMechanismSetup, Neo4jGraphQL.setup.
        method_unfold. rewrite Hstored, Heng. reflexivity. }
  destruct Hsub as [done ->]. exact Hschema.
Qed.

Lemma generation_resolves_when_imports_return_witness :
  (Neo4jGraphQL.getExecutableSchema (Fixture7.imports (Return tt))
     (Fixture7.instance None)).1
  = Return "schema of type Movie".
Proof.
  assert (Hreturn : Neo4jGraphQL.ImportsReturn (Fixture7.imports (Return tt)))
    by (constructor; intros; eexists; reflexivity).
  destruct (generation_resolves_when_imports_return
              (Fixture7.imports (Return tt)) (Fixture7.instance None) Hreturn)
    as (schema & Hgenerated & Hfirst).
  injection Hgenerated as <-.
  apply Hfirst.
  - reflexivity.
  - intros engine init' model Hengine Hinit.
    injection Hengine as <-. injection Hinit as <-. reflexivity.
  - intros msg. discriminate.
Defined.

(** * Properties of the helper of the integration tests *)

Ltac helper_unfold :=
  unfold mbind, mret, TestHelper.Method_bind, TestHelper.Method_ret,
    TestHelper.getThis, TestHelper.getWorld, TestHelper.call, TestHelper.assign,
    TestHelper.effect, TestHelper.setLock.

Section TestHelperFacts.

Context `{T : Neo4jGraphQL.ExternalTypes} `{U : TestHelper.ExternalTypes}.

(** The connectivity check names a database whose connectivity it has
    verified. *)
Lemma checkConnectivity_verified (imports : TestHelper.Imports)
    (driver : Neo4jGraphQL.Driver) (connected : string) :
  TestHelper.checkConnectivity imports driver = Return connected ->
  (connected = TestHelper.INT_TEST_DB_NAME
   /\ TestHelper.verifyConnectivity driver (Some TestHelper.INT_TEST_DB_NAME) = Return tt)
  \/ (connected = TestHelper.DEFAULT_DB
      /\ TestHelper.verifyConnectivity driver None = Return tt).
Proof.
  unfold TestHelper.checkConnectivity, TestHelper.verifyConnectivityToTestDatabase,
    TestHelper.checkConnectivityToDefaultDatabase, rbind.
  intros Hconnected.
  destruct (TestHelper.isSet _).
  - destruct (TestHelper.verifyConnectivity driver None) as [|[]] eqn:Hdefault;
      [discriminate|].
    injection Hconnected as <-. right. split; reflexivity.
  - destruct (TestHelper.verifyConnectivity driver (Some _)) as [message|[]] eqn:Htest.
    + destruct (_ || _); [|discriminate].
      destruct (TestHelper.verifyConnectivity driver None) as [|[]] eqn:Hdefault;
        [discriminate|].
      injection Hconnected as <-. right. split; reflexivity.
    + injection Hconnected as <-. left. split; reflexivity.
Qed.

(** [getDriver] writes neither the lock nor the instance nor the unique
    types. *)
Lemma getDriver_keeps (imports : TestHelper.Imports)
    (state : TestHelper.World * TestHelper.TestHelper) :
  let ran := TestHelper.getDriver imports state in
  TestHelper.helperLock ran.2.1 = TestHelper.helperLock state.1
  /\ TestHelper.neo4jGraphQL ran.2.2 = TestHelper.neo4jGraphQL state.2
  /\ TestHelper.uniqueTypes ran.2.2 = TestHelper.uniqueTypes state.2.
Proof.
  unfold TestHelper.getDriver, TestHelper.getDriver_body. helper_unfold.
  destruct (TestHelper.getDriver_memo state.2); cbn; [repeat split|].
  repeat (method_step; cbn); repeat split; reflexivity.
Qed.

(** [initNeo4jGraphQL] on an unlocked world leaves the lock taken. *)
Lemma initNeo4jGraphQL_locks (neo4jGraphQLImports : Neo4jGraphQL.Imports)
    (imports : TestHelper.Imports) (options : Neo4jGraphQL.Neo4jGraphQLConstructor)
    (state : TestHelper.World * TestHelper.TestHelper) :
  TestHelper.helperLock state.1 = false ->
  TestHelper.helperLock
    (TestHelper.initNeo4jGraphQL neo4jGraphQLImports imports options state).2.1
  = true.
Proof.
  intros Hlock. unfold TestHelper.initNeo4jGraphQL. helper_unfold. cbn.
  rewrite Hlock. cbn.
  destruct (TestHelper.neo4jGraphQL state.2); cbn; [reflexivity|].
  set (locked := ({| TestHelper.helperLock := true;
                     TestHelper.effects := TestHelper.effects state.1 |}, state.2)).
  destruct (getDriver_keeps imports locked) as (Hkept & _).
  destruct (TestHelper.getDriver imports locked) as [[message|driver] [world this]];
    cbn in *; [exact Hkept|].
  destruct (Neo4jGraphQL.constructor_ _ _) as [calls [message|instance]]; cbn;
    exact Hkept.
Qed.

(** A [close] that returns has released the lock and kept the instance. *)
Lemma close_returned (imports : TestHelper.Imports)
    (state : TestHelper.World * TestHelper.TestHelper) :
  (TestHelper.close imports None state).1 = Return tt ->
  TestHelper.helperLock (TestHelper.close imports None state).2.1 = false
  /\ TestHelper.neo4jGraphQL (TestHelper.close imports None state).2.2
     = TestHelper.neo4jGraphQL state.2.
Proof.
  unfold TestHelper.close, TestHelper.cleanNodes. helper_unfold. cbn.
  destruct (TestHelper.helperLock state.1); cbn; [|discriminate].
  destruct (getDriver_keeps imports state) as (_ & Hinstance & _).
  destruct (TestHelper.getDriver imports state) as [[message|driver] [world this]];
    cbn in *; [discriminate|].
  destruct (TestHelper.uniqueTypes this) as [|uniqueType rest]; cbn.
  - destruct (TestHelper.driver_close driver) as [message|[]]; cbn; [discriminate|].
    intros _. split; [reflexivity | exact Hinstance].
  - destruct (TestHelper.executeQuery driver _ _) as [message|result]; cbn;
      [discriminate|].
    destruct (TestHelper.driver_close driver) as [message|[]]; cbn; [discriminate|].
    intros _. split; [reflexivity | exact Hinstance].
Qed.

(** A successful [initNeo4jGraphQL] leaves its instance in the helper. *)
Lemma initNeo4jGraphQL_returned (neo4jGraphQLImports : Neo4jGraphQL.Imports)
    (imports : TestHelper.Imports) (options : Neo4jGraphQL.Neo4jGraphQLConstructor)
    (state : TestHelper.World * TestHelper.TestHelper)
    (instance : Neo4jGraphQL.Neo4jGraphQL) :
  (TestHelper.initNeo4jGraphQL neo4jGraphQLImports imports options state).1
  = Return instance ->
  TestHelper.neo4jGraphQL
    (TestHelper.initNeo4jGraphQL neo4jGraphQLImports imports options state).2.2
  = Some instance.
Proof.
  unfold TestHelper.initNeo4jGraphQL. helper_unfold. cbn.
  destruct (TestHelper.helperLock state.1); cbn; [discriminate|].
  destruct (TestHelper.neo4jGraphQL state.2); cbn; [discriminate|].
  destruct (TestHelper.getDriver imports _) as [[message|driver] [world this]];
    cbn; [discriminate|].
  destruct (Neo4jGraphQL.constructor_ _ _) as [calls [message|made]]; cbn;
    [discriminate|].
  intros Hmade. injection Hmade as <-. reflexivity.
Qed.

End TestHelperFacts.

(** X27: the first [getDriver] of a helper.  When no driver can be made it
    fails with that error and does nothing.  When a driver is made, it
    either returns this driver, and then the [database] of the helper is
    the test database or the default database and the connectivity of the
    driver to that database was verified, with no effect on the world; or
    the connectivity check has failed, and then this driver has been
    closed, which is the only effect, the database of the helper is as
    before, and the error, unless the closing itself fails, is "Could not
    connect to neo4j @ ..." with the message of the check.  It touches
    neither the lock nor the instance. *)
Theorem get_driver_verifies_or_closes
    `{T : Neo4jGraphQL.ExternalTypes} `{U : TestHelper.ExternalTypes}
    (imports : TestHelper.Imports)
    (state : TestHelper.World * TestHelper.TestHelper) :
  TestHelper.getDriver_memo state.2 = None ->
  let NEO_URL :=
    default "neo4j://localhost:7687/neo4j" (@TestHelper.env T U imports "NEO_URL") in
  let auth :=
    @TestHelper.auth_basic T U imports
      (default "neo4j" (@TestHelper.env T U imports "NEO_USER"))
      (default "password" (@TestHelper.env T U imports "NEO_PASSWORD")) in
  let ran := TestHelper.getDriver imports state in
  TestHelper.helperLock ran.2.1 = TestHelper.helperLock state.1
  /\ TestHelper.neo4jGraphQL ran.2.2 = TestHelper.neo4jGraphQL state.2
  /\ match @TestHelper.neo4j_driver T U imports NEO_URL auth with
     | Throw message =>
       ran.1 = Throw message
       /\ TestHelper.effects ran.2.1 = TestHelper.effects state.1
       /\ TestHelper.database ran.2.2 = TestHelper.database state.2
     | Return driver =>
       match ran.1 with
       | Return returned =>
         returned = driver
         /\ TestHelper.effects ran.2.1 = TestHelper.effects state.1
         /\ ((TestHelper.database ran.2.2 = TestHelper.INT_TEST_DB_NAME
              /\ @TestHelper.verifyConnectivity T U imports driver
                   (Some TestHelper.INT_TEST_DB_NAME) = Return tt)
             \/ (TestHelper.database ran.2.2 = TestHelper.DEFAULT_DB
                 /\ @TestHelper.verifyConnectivity T U imports driver None = Return tt))
       | Throw thrown =>
         TestHelper.database ran.2.2 = TestHelper.database state.2
         /\ TestHelper.effects ran.2.1
            = TestHelper.effects state.1 ++ [TestHelper.DriverClosed driver]
         /\ exists message,
              TestHelper.checkConnectivity imports driver = Throw message
              /\ Throw thrown
                 = do _ <- @TestHelper.driver_close T U imports driver;
                   (Throw ("Could not connect to neo4j @ " +:+ NEO_URL +:+ ", database "
                             +:+ TestHelper.INT_TEST_DB_NAME +:+ ", Error: " +:+ message)
                    : Result Neo4jGraphQL.Driver)
       end
     end.
Proof.
  intros Hmemo NEO_URL auth ran.
  destruct (getDriver_keeps imports state) as (Hlock & Hinstance & _).
  split; [exact Hlock|]. split; [exact Hinstance|]. subst ran.
  unfold TestHelper.getDriver, TestHelper.getDriver_body. helper_unfold.
  rewrite Hmemo. cbn. fold NEO_URL. fold auth.
  destruct (TestHelper.neo4j_driver NEO_URL auth) as [message|driver]; cbn; [auto|].
  destruct (TestHelper.checkConnectivity imports driver) as [message|connected] eqn:Hcheck;
    cbn.
  - destruct (TestHelper.driver_close driver) as [failed|[]] eqn:Hclose; cbn;
      (split; [reflexivity|]); (split; [reflexivity|]); exists message;
      (split; [reflexivity|]); reflexivity.
  - split; [reflexivity|]. split; [reflexivity|].
    apply checkConnectivity_verified. exact Hcheck.
Qed.

Lemma get_driver_verifies_or_closes_witness :
  (let ran := TestHelper.getDriver Fixture8.imports (Fixture8.world, TestHelper.new) in
   ran.1 = Return "neo4j://localhost:7687/neo4j"
   /\ TestHelper.database ran.2.2 = "neo4j"
   /\ TestHelper.effects ran.2.1 = [])
  /\ (let ran :=
        TestHelper.getDriver Fixture8.unreachable (Fixture8.world, TestHelper.new) in
      ran.1 = Throw ("Could not connect to neo4j @ neo4j://localhost:7687/neo4j, "
                       +:+ "database neo4jgraphqlinttestdatabase, "
                       +:+ "Error: Connection refused")
      /\ TestHelper.effects ran.2.1
         = [@TestHelper.DriverClosed Fixture7.types "neo4j://localhost:7687/neo4j"]).
Proof.
  split.
  - pose proof (get_driver_verifies_or_closes Fixture8.imports
                  (Fixture8.world, TestHelper.new) eq_refl) as (_ & _ & Hran).
    cbn zeta in *.
    change (TestHelper.getDriver Fixture8.imports (Fixture8.world, TestHelper.new)).1
      with (Return "neo4j://localhost:7687/neo4j" : Result string) in Hran.
    cbn [TestHelper.neo4j_driver Fixture8.imports] in Hran.
    destruct Hran as (_ & Heffects & [[Hdb Hverified] | [Hdb _]]).
    + discriminate Hverified.
    + split; [reflexivity|]. split; [exact Hdb | exact Heffects].
  - pose proof (get_driver_verifies_or_closes Fixture8.unreachable
                  (Fixture8.world, TestHelper.new) eq_refl) as (_ & _ & Hran).
    cbn zeta in *.
    change (TestHelper.getDriver Fixture8.unreachable (Fixture8.world, TestHelper.new)).1
      with (Throw ("Could not connect to neo4j @ neo4j://localhost:7687/neo4j, "
                     +:+ "database neo4jgraphqlinttestdatabase, "
                     +:+ "Error: Connection refused") : Result string) in Hran.
    cbn [TestHelper.neo4j_driver Fixture8.unreachable] in Hran.
    destruct Hran as (_ & Heffects & _).
    split; [reflexivity | exact Heffects].
Defined.

(** X28: [initNeo4jGraphQL] on an unlocked world takes the lock whatever its
    outcome, a failure included; while the lock is taken, every
    [initNeo4jGraphQL], on any helper, throws "TestHelper still open. Did
    you forget calling .close()?" and changes nothing. *)
Theorem init_takes_the_lock_even_when_it_fails
    `{T : Neo4jGraphQL.ExternalTypes} `{U : TestHelper.ExternalTypes}
    (neo4jGraphQLImports neo4jGraphQLImports' : Neo4jGraphQL.Imports)
    (imports imports' : TestHelper.Imports)
    (options options' : Neo4jGraphQL.Neo4jGraphQLConstructor)
    (state : TestHelper.World * TestHelper.TestHelper)
    (other : TestHelper.TestHelper) :
  TestHelper.helperLock state.1 = false ->
  let ran := TestHelper.initNeo4jGraphQL neo4jGraphQLImports imports options state in
  TestHelper.helperLock ran.2.1 = true
  /\ TestHelper.initNeo4jGraphQL neo4jGraphQLImports' imports' options' (ran.2.1, other)
     = (Throw "TestHelper still open. Did you forget calling .close()?", (ran.2.1, other)).
Proof.
  intros Hlock ran.
  assert (Htaken : TestHelper.helperLock ran.2.1 = true)
    by (apply initNeo4jGraphQL_locks; exact Hlock).
  split; [exact Htaken|].
  unfold TestHelper.initNeo4jGraphQL at 1. helper_unfold. cbn. rewrite Htaken.
  reflexivity.
Qed.

Lemma init_takes_the_lock_even_when_it_fails_witness :
  let used : TestHelper.TestHelper :=
    {| TestHelper.database := "neo4j";
       TestHelper.neo4jGraphQL := Some (Fixture7.instance None);
       TestHelper.uniqueTypes := [];
       TestHelper.getDriver_memo := None |} in
  let ran :=
    TestHelper.initNeo4jGraphQL (Fixture7.imports (Return tt)) Fixture8.imports
      (Fixture7.input None) (Fixture8.world, used) in
  ran.1 = Throw "Neo4jGraphQL already initialized"
  /\ (TestHelper.initNeo4jGraphQL (Fixture7.imports (Return tt)) Fixture8.imports
        (Fixture7.input None) (ran.2.1, TestHelper.new)).1
     = Throw "TestHelper still open. Did you forget calling .close()?".
Proof.
  intros used ran. split; [reflexivity|]. subst ran.
  rewrite (proj2 (init_takes_the_lock_even_when_it_fails
                    (Fixture7.imports (Return tt)) (Fixture7.imports (Return tt))
                    Fixture8.imports Fixture8.imports
                    (Fixture7.input None) (Fixture7.input None)
                    (Fixture8.world, used) TestHelper.new eq_refl)).
  reflexivity.
Defined.

(** X29: a helper is initialised once in its life.  After a successful
    [initNeo4jGraphQL] and a successful [close], the lock is free again,
    but every further [initNeo4jGraphQL] on the same helper throws
    "Neo4jGraphQL already initialized", and takes the lock while doing
    so. *)
Theorem helper_initialised_once_even_after_close
    `{T : Neo4jGraphQL.ExternalTypes} `{U : TestHelper.ExternalTypes}
    (neo4jGraphQLImports neo4jGraphQLImports' : Neo4jGraphQL.Imports)
    (imports imports' : TestHelper.Imports)
    (options options' : Neo4jGraphQL.Neo4jGraphQLConstructor)
    (state : TestHelper.World * TestHelper.TestHelper)
    (instance : Neo4jGraphQL.Neo4jGraphQL) :
  let opened := TestHelper.initNeo4jGraphQL neo4jGraphQLImports imports options state in
  opened.1 = Return instance ->
  let closed := TestHelper.close imports None opened.2 in
  closed.1 = Return tt ->
  TestHelper.helperLock closed.2.1 = false
  /\ TestHelper.initNeo4jGraphQL neo4jGraphQLImports' imports' options' closed.2
     = (Throw "Neo4jGraphQL already initialized",
        ({| TestHelper.helperLock := true;
            TestHelper.effects := TestHelper.effects closed.2.1 |}, closed.2.2)).
Proof.
  intros opened Hopened closed Hclosed.
  destruct (close_returned imports opened.2 Hclosed) as (Hreleased & Hinstance).
  fold closed in Hreleased, Hinstance.
  split; [exact Hreleased|].
  unfold TestHelper.initNeo4jGraphQL. helper_unfold. cbn.
  rewrite Hreleased. cbn. rewrite Hinstance.
  subst opened. rewrite (initNeo4jGraphQL_returned _ _ _ _ _ Hopened). reflexivity.
Qed.

Lemma helper_initialised_once_even_after_close_witness :
  let opened :=
    TestHelper.initNeo4jGraphQL (Fixture7.imports (Return tt)) Fixture8.imports
      (Fixture7.input None) (Fixture8.world, TestHelper.new) in
  let closed := TestHelper.close Fixture8.imports None opened.2 in
  TestHelper.effects closed.2.1 = [@TestHelper.DriverClosed Fixture7.types "neo4j://localhost:7687/neo4j"]
  /\ (TestHelper.initNeo4jGraphQL (Fixture7.imports (Return tt)) Fixture8.imports
        (Fixture7.input None) closed.2).1
     = Throw "Neo4jGraphQL already initialized".
Proof.
  intros opened closed. split; [reflexivity|].
  assert (Hopened : exists instance, opened.1 = Return instance)
    by (eexists; reflexivity).
  destruct Hopened as [instance Hopened]. subst closed opened.
  rewrite (proj2 (helper_initialised_once_even_after_close
                    (Fixture7.imports (Return tt)) (Fixture7.imports (Return tt))
                    Fixture8.imports Fixture8.imports
                    (Fixture7.input None) (Fixture7.input None)
                    (Fixture8.world, TestHelper.new) instance
                    Hopened eq_refl)).
  reflexivity.
Defined.

(** X30: [close] without a callback releases the lock exactly when it
    returns: a failure of [getDriver], of the cleaning query or of the
    closing of the driver leaves the lock taken.  The instance of the
    helper stays.  For a helper without unique types no query is executed,
    so that not all nodes are deleted: the only effect after [getDriver] is
    the closing of the driver. *)
Theorem close_releases_lock_iff_it_returns
    `{T : Neo4jGraphQL.ExternalTypes} `{U : TestHelper.ExternalTypes}
    (imports : TestHelper.Imports)
    (state : TestHelper.World * TestHelper.TestHelper) :
  TestHelper.helperLock state.1 = true ->
  let closed := TestHelper.close imports None state in
  (TestHelper.helperLock closed.2.1 = false <-> closed.1 = Return tt)
  /\ TestHelper.neo4jGraphQL closed.2.2 = TestHelper.neo4jGraphQL state.2
  /\ (TestHelper.uniqueTypes state.2 = [] ->
      TestHelper.effects closed.2.1
      = TestHelper.effects (TestHelper.getDriver imports state).2.1
          ++ match (TestHelper.getDriver imports state).1 with
             | Return driver => [TestHelper.DriverClosed driver]
             | Throw _ => []
             end).
Proof.
  intros Hlock closed. subst closed.
  unfold TestHelper.close, TestHelper.cleanNodes. helper_unfold. cbn.
  rewrite Hlock. cbn.
  destruct (getDriver_keeps imports state) as (Hkept & Hinstance & Htypes).
  destruct (TestHelper.getDriver imports state) as [[message|driver] [world this]];
    cbn in *.
  - split; [split; intros Hno; [congruence | discriminate]|].
    split; [exact Hinstance|]. intros _. rewrite app_nil_r. reflexivity.
  - destruct (TestHelper.uniqueTypes this) as [|uniqueType rest] eqn:Hlabels; cbn.
    + destruct (TestHelper.driver_close driver) as [message|[]]; cbn;
        (split; [split; intros Hno; first [congruence | discriminate | reflexivity]|]);
        (split; [exact Hinstance|]); intros _; reflexivity.
    + destruct (TestHelper.executeQuery driver _ _) as [message|result]; cbn.
      * split; [split; intros Hno; [congruence | discriminate]|].
        split; [exact Hinstance|]. intros Hnone. rewrite Hnone in Htypes. discriminate.
      * destruct (TestHelper.driver_close driver) as [message|[]]; cbn;
          (split; [split; intros Hno; first [congruence | discriminate | reflexivity]|]);
          (split; [exact Hinstance|]); intros Hnone; rewrite Hnone in Htypes;
          discriminate.
Qed.

Lemma close_releases_lock_iff_it_returns_witness :
  let closed :=
    TestHelper.close Fixture8.imports None
      ({| TestHelper.helperLock := true; TestHelper.effects := [] |}, TestHelper.new) in
  TestHelper.helperLock closed.2.1 = false
  /\ TestHelper.effects closed.2.1
     = [@TestHelper.DriverClosed Fixture7.types "neo4j://localhost:7687/neo4j"].
Proof.
  intros closed.
  destruct (close_releases_lock_iff_it_returns Fixture8.imports
              ({| TestHelper.helperLock := true; TestHelper.effects := [] |},
               TestHelper.new) eq_refl)
    as (Hreleased & _ & Heffects).
  split.
  - apply Hreleased. reflexivity.
  - apply (Heffects eq_refl).
Defined.
